(** * Marstek Venus BLE protocol engine: frame codec, firmware analyser,
      acknowledgment mailbox, notification router and chunk transfer.

    A shallow embedding of [src/js/ble-protocol.js].  JavaScript numbers that
    the program only ever uses as integers are modelled as [Z]; every
    operator that goes through ToInt32 / ToUint32 / the [Uint8Array]
    conversion has its wrap-around written out. *)

From Stdlib Require Import ZArith List Lia Bool Permutation.
From Stdlib Require String Ascii.
From coqutil Require Import Z.bitblast.
Import ListNotations.
Local Open Scope Z_scope.

(** ** JavaScript integer operators *)

Module JS.

(** ToInt32: reduce modulo 2^32 into the signed range. *)
Definition to_int32 (z : Z) : Z := (z + 2 ^ 31) mod 2 ^ 32 - 2 ^ 31.

(** ToUint32, which is what [x >>> 0] computes. *)
Definition to_uint32 (z : Z) : Z := z mod 2 ^ 32.

(** Storing a number into a [Uint8Array] element. *)
Definition to_uint8 (z : Z) : Z := z mod 256.

(** [a ^ b], [a | b], [a & b], [~a]. *)
Definition bxor (a b : Z) : Z := Z.lxor (to_int32 a) (to_int32 b).
Definition bor (a b : Z) : Z := Z.lor (to_int32 a) (to_int32 b).
Definition band (a b : Z) : Z := Z.land (to_int32 a) (to_int32 b).
Definition bnot (a : Z) : Z := Z.lnot (to_int32 a).

(** [a << n] and the sign-propagating [a >> n]; the shift count is taken
    modulo 32. *)
Definition shl (a n : Z) : Z := to_int32 (Z.shiftl (to_int32 a) (n mod 32)).
Definition sar (a n : Z) : Z := Z.shiftr (to_int32 a) (n mod 32).

(** [x >>> 0]. *)
Definition ushr0 (a : Z) : Z := to_uint32 a.

(** [new Uint8Array(array)]. *)
Definition Uint8Array (l : list Z) : list Z := map to_uint8 l.

(** [v[i]] on an array: [undefined] out of range. *)
Definition index (v : list Z) (i : nat) : option Z := nth_error v i.

(** [v[i] === k] for a number [k]. *)
Definition index_is (v : list Z) (i : nat) (k : Z) : bool :=
  match index v i with
  | Some b => b =? k
  | None => false
  end.

(** [v[i]] used as an operand of a bitwise operator: [undefined] becomes
    NaN, which ToInt32 maps to 0. *)
Definition index_num (v : list Z) (i : nat) : Z :=
  match index v i with
  | Some b => b
  | None => 0
  end.

(** [v.slice(s, e)] with JavaScript's relative (negative) indices. *)
Definition slice {A : Type} (v : list A) (s e : Z) : list A :=
  let len := Z.of_nat (length v) in
  let k := if s <? 0 then Z.max (len + s) 0 else Z.min s len in
  let fin := if e <? 0 then Z.max (len + e) 0 else Z.min e len in
  firstn (Z.to_nat (fin - k)) (skipn (Z.to_nat k) v).

End JS.

(** Values a [Uint8Array] can hold. *)
Definition is_byte (b : Z) : Prop := 0 <= b < 256.

Definition bytes (l : list Z) : Prop := Forall is_byte l.

(** XOR of a byte sequence, the checksum discipline shared by the frames. *)
Definition xor_bytes (l : list Z) : Z := fold_left Z.lxor l 0.

(** ** Constants *)

Definition START_BYTE : Z := 0x73.
Definition IDENTIFIER_BYTE : Z := 0x23.

(** ** Message creation functions *)

(** [header[1] = messageLength]. *)
Definition set_index (l : list Z) (i : nat) (v : Z) : list Z :=
  firstn i l ++ v :: skipn (S i) l.

(** [payload ? Array.from(payload) : []]. *)
Definition payload_or_empty (payload : option (list Z)) : list Z :=
  match payload with
  | Some p => p
  | None => []
  end.

Definition createCommandMessage (commandType : Z) (payload : option (list Z))
  : list Z :=
  let header := [START_BYTE; 0; IDENTIFIER_BYTE; commandType] in
  let payloadArray := payload_or_empty payload in
  let messageLength :=
    Z.of_nat (length header) + Z.of_nat (length payloadArray) + 1 in
  let header := set_index header 1 messageLength in
  let message := header ++ payloadArray in
  let checksum := fold_left JS.bxor message 0 in
  JS.Uint8Array (message ++ [checksum]).

Definition createMeterIPMessage (commandType : Z) (payload : option (list Z))
  : list Z :=
  let payloadArray := payload_or_empty payload in
  let len := 4 + Z.of_nat (length payloadArray) in
  let message := [START_BYTE; len; IDENTIFIER_BYTE; commandType] ++ payloadArray in
  let checksum := fold_left JS.bxor payloadArray (JS.bxor IDENTIFIER_BYTE commandType) in
  JS.Uint8Array (message ++ [checksum]).

Definition createBLEOTAFrame (command reserved : Z) (payload : list Z) : list Z :=
  let frame := [0x73] in
  let totalLength := 1 + 1 + Z.of_nat (length payload) + 1 in
  let frame := frame ++ [JS.band totalLength 0xFF] in
  let frame := frame ++ [JS.band (JS.sar totalLength 8) 0xFF] in
  let frame := frame ++ [command] in
  let frame := frame ++ [reserved] in
  let frame := frame ++ payload in
  let checksum := fold_left JS.bxor frame 0 in
  JS.Uint8Array (frame ++ [checksum]).

(** ** The OTA notification decoder *)

Record Ack : Type := mkAck {
  ack_cmd : Z;
  ack_reserved : Z;
  ack_payload : list Z
}.

(** The three ways [handleNotification] gives up on a notification, named by
    the message it logs. *)
Inductive ParseError : Type :=
| BadNotificationHeader
| LengthMismatch (declared : Z) (got : Z)
| BadXORChecksum (expected : Z) (got : Z).

Inductive result (E A : Type) : Type :=
| Ok (a : A)
| Err (e : E).
Arguments Ok {E A} a.
Arguments Err {E A} e.

Definition declaredLength (value : list Z) : Z :=
  JS.bor (JS.index_num value 1) (JS.shl (JS.index_num value 2) 8).

(** [for (let i = 0; i < value.length - 1; i++) xor ^= value[i]]. *)
Definition xor_all_but_last (value : list Z) : Z :=
  fold_left JS.bxor (firstn (length value - 1)%nat value) 0.

Definition last_byte (value : list Z) : Z :=
  JS.index_num value (length value - 1)%nat.

(** The parsing half of [handleNotification]: everything before the pending
    promise is looked at. *)
Definition parseNotification (value : list Z) : result ParseError Ack :=
  if (Z.of_nat (length value) <? 6) || negb (JS.index_is value 0 0x73) then
    Err BadNotificationHeader
  else
    let declared := declaredLength value in
    if negb (declared =? Z.of_nat (length value)) then
      Err (LengthMismatch declared (Z.of_nat (length value)))
    else
      let cmd := JS.index_num value 3 in
      let reserved := JS.index_num value 4 in
      let xor := xor_all_but_last value in
      if negb (xor =? last_byte value) then
        Err (BadXORChecksum xor (last_byte value))
      else
        Ok (mkAck cmd reserved (JS.slice value 5 (-1))).

(** ** Firmware analysis *)

(** *** [TextDecoder('utf-8', { fatal: false })]

    The decoder of the Encoding Standard: a malformed sequence yields U+FFFD
    and the offending byte is looked at again as the start of a sequence. *)

Record Utf8State : Type := mkUtf8 {
  code_point : Z;
  bytes_seen : Z;
  bytes_needed : Z;
  lower_boundary : Z;
  upper_boundary : Z
}.

Definition utf8_idle : Utf8State := mkUtf8 0 0 0 0x80 0xBF.

Definition REPLACEMENT : Z := 0xFFFD.

(** A byte met while no sequence is open. *)
Definition utf8_lead (b : Z) : Utf8State * list Z :=
  if b <=? 0x7F then (utf8_idle, [b])
  else if (0xC2 <=? b) && (b <=? 0xDF) then
    (mkUtf8 (Z.land b 0x1F) 0 1 0x80 0xBF, [])
  else if (0xE0 <=? b) && (b <=? 0xEF) then
    (mkUtf8 (Z.land b 0xF) 0 2
       (if b =? 0xE0 then 0xA0 else 0x80)
       (if b =? 0xED then 0x9F else 0xBF), [])
  else if (0xF0 <=? b) && (b <=? 0xF4) then
    (mkUtf8 (Z.land b 0x7) 0 3
       (if b =? 0xF0 then 0x90 else 0x80)
       (if b =? 0xF4 then 0x8F else 0xBF), [])
  else (utf8_idle, [REPLACEMENT]).

Definition utf8_step (s : Utf8State) (b : Z) : Utf8State * list Z :=
  if bytes_needed s =? 0 then utf8_lead b
  else if (b <? lower_boundary s) || (upper_boundary s <? b) then
    let '(s', out) := utf8_lead b in (s', REPLACEMENT :: out)
  else
    let cp := Z.lor (Z.shiftl (code_point s) 6) (Z.land b 0x3F) in
    let seen := bytes_seen s + 1 in
    if seen =? bytes_needed s then (utf8_idle, [cp])
    else (mkUtf8 cp seen (bytes_needed s) 0x80 0xBF, []).

Fixpoint utf8_run (s : Utf8State) (input : list Z) : list Z :=
  match input with
  | [] => if bytes_needed s =? 0 then [] else [REPLACEMENT]
  | b :: rest =>
      let '(s', out) := utf8_step s b in
      out ++ utf8_run s' rest
  end.

(** A leading byte order mark is not part of the text. *)
Definition strip_bom (cps : list Z) : list Z :=
  match cps with
  | cp :: rest => if cp =? 0xFEFF then rest else cps
  | [] => []
  end.

(** A JavaScript string is a sequence of UTF-16 code units. *)
Definition utf16_units (cp : Z) : list Z :=
  if cp <? 0x10000 then [cp]
  else [0xD800 + Z.shiftr (cp - 0x10000) 10; 0xDC00 + Z.land (cp - 0x10000) 0x3FF].

Definition TextDecoder_decode (input : list Z) : list Z :=
  flat_map utf16_units (strip_bom (utf8_run utf8_idle input)).

(** [haystack.includes(needle)]. *)
Fixpoint starts_with (needle s : list Z) : bool :=
  match needle, s with
  | [], _ => true
  | _ :: _, [] => false
  | n :: needle', c :: s' => (n =? c) && starts_with needle' s'
  end.

Fixpoint includes (s needle : list Z) : bool :=
  starts_with needle s ||
  match s with
  | [] => false
  | _ :: s' => includes s' needle
  end.

(** The code units of a string literal of the source. *)
Definition literal (s : String.string) : list Z :=
  map (fun c => Z.of_N (Ascii.N_of_ascii c)) (String.list_ascii_of_string s).

Module Literals.
Import String.
Local Open Scope string_scope.
Definition VenusC : string := "VenusC".
Definition VenusC0000 : string := "VenusC0000".
End Literals.

Definition VenusC : list Z := literal Literals.VenusC.

(** *** [analyzeFirmware] *)

Inductive FirmwareType : Type :=
| EMS_Control_signature_found    (* 'EMS/Control Firmware (VenusC signature found)' *)
| BMS_no_signature               (* 'BMS Firmware (no VenusC signature)' *)
| Unknown_signature_area_empty   (* 'Unknown (signature area empty)' *)
| BMS_by_size                    (* 'BMS Firmware (size suggests BMS)' *)
| Unknown_small                  (* 'Unknown (small size - proceed with caution)' *)
| Unknown_very_small.            (* 'Unknown (very small - likely not firmware)' *)

Inductive SizeWarning : Type :=
| NoWarning             (* '' *)
| UnusuallySmall        (* 'File size is unusually small for firmware' *)
| VerySmall.            (* 'File size is very small - this may not be valid firmware' *)

Record Analysis : Type := mkAnalysis {
  an_checksum : Z;
  an_type : FirmwareType;
  an_size : Z;
  an_warning : SizeWarning
}.

Definition signatureOffset : Z := 0x50004.

(** [for (let i = 0; i < bytes.length; i++) sum += bytes[i]]; the sum is an
    exact integer as long as it stays below 2^53. *)
Definition byte_sum (fw : list Z) : Z := fold_left Z.add fw 0.

Definition firmware_checksum (fw : list Z) : Z :=
  let sum := byte_sum fw in
  let sum := JS.ushr0 sum in
  JS.ushr0 (JS.bnot sum).

Definition signatureBytes (fw : list Z) : list Z :=
  JS.slice fw signatureOffset (signatureOffset + 10).

(** [signatureBytes.some(b => b !== 0x00 && b !== 0xFF)]. *)
Definition hasData (window : list Z) : bool :=
  existsb (fun b => negb (b =? 0x00) && negb (b =? 0xFF)) window.

Definition firmware_type (fw : list Z) : FirmwareType * SizeWarning :=
  let len := Z.of_nat (length fw) in
  if signatureOffset + 10 <? len then
    let signatureStr := TextDecoder_decode (signatureBytes fw) in
    if includes signatureStr VenusC then (EMS_Control_signature_found, NoWarning)
    else if hasData (signatureBytes fw) then (BMS_no_signature, NoWarning)
    else (Unknown_signature_area_empty, NoWarning)
  else if 32768 <=? len then (BMS_by_size, NoWarning)
  else if 1024 <=? len then (Unknown_small, UnusuallySmall)
  else (Unknown_very_small, VerySmall).

Definition analyzeFirmware (fw : list Z) : Analysis :=
  let checksum := firmware_checksum fw in
  let '(firmwareType, sizeWarning) := firmware_type fw in
  mkAnalysis checksum firmwareType (Z.of_nat (length fw)) sizeWarning.

(** ** Promises, timers and the engine state *)

(** What a promise of the OTA path is resolved with. *)
Inductive Value : Type :=
| AckOk (a : Ack)                    (* { ok: true, cmd, reserved, payload } *)
| UnexpectedCmd (expected got : Z)   (* { ok: false, reason: 'unexpected cmd: ...' } *)
| Timeout                            (* { ok: false, reason: 'timeout' } *)
| Activated (b : bool).              (* the argument of otaActivationResolve *)

(** The callback handed to [setTimeout]; it closes over the [resolve] of the
    promise it was created in. *)
Inductive TimerAction : Type :=
| AckTimeout (p : nat).

Record Timer : Type := mkTimer {
  due : Z;
  action : TimerAction
}.

(** [window.currentCommand] holds a command name, or the number [0x1F] that
    [sendOTAActivate] stores. *)
Inductive CurrentCommand : Type :=
| CmdNumber (n : Z)
| CmdName (name : String.string).

Inductive LogEntry : Type :=
| LogResponseReceived (value : list Z)
| LogParseError (e : ParseError)
| LogReceivedAck (a : Ack)
| LogActivationConfirmed
| LogActivationFailed.

(** The pending-acknowledgment closure of [waitForAck]: the expected command
    and the promise whose [resolve] it calls. *)
Record AckResolver : Type := mkResolver {
  expectedCmd : Z;
  resolver_promise : nat
}.

Record Engine : Type := mkEngine {
  clock : Z;
  next_promise : nat;
  (* every call of a promise's resolve function, oldest first *)
  resolve_calls : list (nat * Value);
  pendingAckResolve : option AckResolver;
  otaActivationResolve : option nat;
  currentCommand : option CurrentCommand;
  timers : list Timer;
  (* responses handed to the data parser, with the command they answer *)
  forwarded : list (list Z * CurrentCommand);
  log : list LogEntry
}.

Definition initial : Engine :=
  mkEngine 0 0 [] None None None [] [] [].

Definition set_pendingAckResolve (r : option AckResolver) (st : Engine) : Engine :=
  mkEngine (clock st) (next_promise st) (resolve_calls st) r
    (otaActivationResolve st) (currentCommand st) (timers st) (forwarded st) (log st).

Definition set_otaActivationResolve (r : option nat) (st : Engine) : Engine :=
  mkEngine (clock st) (next_promise st) (resolve_calls st) (pendingAckResolve st)
    r (currentCommand st) (timers st) (forwarded st) (log st).

Definition set_currentCommand (c : option CurrentCommand) (st : Engine) : Engine :=
  mkEngine (clock st) (next_promise st) (resolve_calls st) (pendingAckResolve st)
    (otaActivationResolve st) c (timers st) (forwarded st) (log st).

Definition set_timers (ts : list Timer) (st : Engine) : Engine :=
  mkEngine (clock st) (next_promise st) (resolve_calls st) (pendingAckResolve st)
    (otaActivationResolve st) (currentCommand st) ts (forwarded st) (log st).

Definition set_clock (t : Z) (st : Engine) : Engine :=
  mkEngine t (next_promise st) (resolve_calls st) (pendingAckResolve st)
    (otaActivationResolve st) (currentCommand st) (timers st) (forwarded st) (log st).

Definition add_log (e : LogEntry) (st : Engine) : Engine :=
  mkEngine (clock st) (next_promise st) (resolve_calls st) (pendingAckResolve st)
    (otaActivationResolve st) (currentCommand st) (timers st) (forwarded st)
    (log st ++ [e]).

Definition forward (value : list Z) (c : CurrentCommand) (st : Engine) : Engine :=
  mkEngine (clock st) (next_promise st) (resolve_calls st) (pendingAckResolve st)
    (otaActivationResolve st) (currentCommand st) (timers st)
    (forwarded st ++ [(value, c)]) (log st).

(** [new Promise(...)]: a fresh promise. *)
Definition new_promise (st : Engine) : nat * Engine :=
  (next_promise st,
   mkEngine (clock st) (S (next_promise st)) (resolve_calls st) (pendingAckResolve st)
     (otaActivationResolve st) (currentCommand st) (timers st) (forwarded st) (log st)).

(** Calling the [resolve] function of promise [p]. *)
Definition call_resolve (p : nat) (v : Value) (st : Engine) : Engine :=
  mkEngine (clock st) (next_promise st) (resolve_calls st ++ [(p, v)])
    (pendingAckResolve st) (otaActivationResolve st) (currentCommand st)
    (timers st) (forwarded st) (log st).

Definition calls_of (p : nat) (st : Engine) : list Value :=
  map snd (filter (fun c => Nat.eqb (fst c) p) (resolve_calls st)).

(** A promise settles with the first value its [resolve] is called with;
    later calls change nothing. *)
Definition settled (p : nat) (st : Engine) : option Value :=
  hd_error (calls_of p st).

(** [setTimeout(callback, ms)]: timers run in order of their due time, and in
    order of creation among equal due times. *)
Fixpoint insert_timer (t : Timer) (ts : list Timer) : list Timer :=
  match ts with
  | [] => [t]
  | u :: rest => if due t <? due u then t :: u :: rest else u :: insert_timer t rest
  end.

Definition setTimeout (a : TimerAction) (ms : Z) (st : Engine) : Engine :=
  set_timers (insert_timer (mkTimer (clock st + ms) a) (timers st)) st.

(** ** The acknowledgment mailbox *)

(** The closure stored in [pendingAckResolve], applied to an ack. *)
Definition call_pendingAckResolve (r : AckResolver) (ack : Ack) (st : Engine) : Engine :=
  if ack_cmd ack =? expectedCmd r then
    call_resolve (resolver_promise r) (AckOk ack) st
  else
    call_resolve (resolver_promise r) (UnexpectedCmd (expectedCmd r) (ack_cmd ack)) st.

(** [if (pendingAckResolve) { pendingAckResolve(ack); pendingAckResolve = null; }] *)
Definition deliver (ack : Ack) (st : Engine) : Engine :=
  match pendingAckResolve st with
  | Some r => set_pendingAckResolve None (call_pendingAckResolve r ack st)
  | None => st
  end.

Definition handleNotification (value : list Z) (st : Engine) : Engine :=
  match parseNotification value with
  | Err e => add_log (LogParseError e) st
  | Ok ack => deliver ack (add_log (LogReceivedAck ack) st)
  end.

Definition waitForAck (expected timeoutMs : Z) (st : Engine) : nat * Engine :=
  let '(p, st) := new_promise st in
  let st := set_pendingAckResolve (Some (mkResolver expected p)) st in
  (p, setTimeout (AckTimeout p) timeoutMs st).

(** Running a timer callback. *)
Definition fire (a : TimerAction) (st : Engine) : Engine :=
  match a with
  | AckTimeout p =>
      match pendingAckResolve st with
      | Some _ => call_resolve p Timeout (set_pendingAckResolve None st)
      | None => st
      end
  end.

(** Letting [ms] milliseconds pass: the timers that fall due run in order. *)
Fixpoint run_due (now : Z) (ts : list Timer) (st : Engine) : Engine :=
  match ts with
  | [] => set_timers [] st
  | t :: rest =>
      if due t <=? now then run_due now rest (fire (action t) (set_timers rest st))
      else set_timers (t :: rest) st
  end.

Definition elapse (ms : Z) (st : Engine) : Engine :=
  let now := clock st + ms in
  run_due now (timers st) (set_clock now st).

(** ** The notification router *)

(** JavaScript truthiness of [window.currentCommand]. *)
Definition truthy (c : option CurrentCommand) : bool :=
  match c with
  | Some (CmdNumber n) => negb (n =? 0)
  | Some (CmdName name) => negb (String.eqb name String.EmptyString)
  | None => false
  end.

(** Modelled from the spec: [handleOTAAck], which the notification handler
    calls on a frame of acknowledgment shape, is not defined in the source
    file.  Section 4.4, step 2 describes it: the frame is decoded by the OTA
    decoder and, if valid, the acknowledgment is delivered to the mailbox; a
    checksum or length failure is logged and the frame dropped. *)
Definition handleOTAAck (value : list Z) (st : Engine) : Engine :=
  match parseNotification value with
  | Err e => add_log (LogParseError e) st
  | Ok ack => deliver ack st
  end.

(** The guard of the activation branch: the resolver to call when
    [window.otaActivationResolve] is set and the frame is a reply to command
    0x1F. *)
Definition activation_waiter (value : list Z) (st : Engine) : option nat :=
  match otaActivationResolve st with
  | Some p =>
      if (5 <=? Z.of_nat (length value))
         && JS.index_is value 0 0x73
         && JS.index_is value 2 0x23
         && JS.index_is value 3 0x1F
      then Some p else None
  | None => None
  end.

(** The shape test of the acknowledgment branch. *)
Definition looks_like_ota_ack (value : list Z) : bool :=
  if (6 <=? Z.of_nat (length value)) && JS.index_is value 0 0x73 then
    let frameLength := declaredLength value in
    (5 <? frameLength) && JS.index_is value 3 0xFF && JS.index_is value 4 0x01
  else false.

(** [if (window.currentCommand) { ...; window.currentCommand = null; }] *)
Definition regular_response (value : list Z) (st : Engine) : Engine :=
  match currentCommand st with
  | Some c =>
      if truthy (Some c) then set_currentCommand None (forward value c st)
      else st
  | None => st
  end.

(** The function returned by [createNotificationHandler]. *)
Definition notificationHandler (value : list Z) (st : Engine) : Engine :=
  let st := add_log (LogResponseReceived value) st in
  match activation_waiter value st with
  | Some p =>
      let payload := JS.slice value 4 (-1) in
      let st :=
        if (1 <=? Z.of_nat (length payload)) && JS.index_is payload 0 0x01 then
          call_resolve p (Activated true) (add_log LogActivationConfirmed st)
        else
          call_resolve p (Activated false) (add_log LogActivationFailed st) in
      set_currentCommand None (set_otaActivationResolve None st)
  | None =>
      if looks_like_ota_ack value then handleOTAAck value st
      else regular_response value st
  end.

(** ** The OTA transfer *)

(** The four bytes [x & 0xFF, (x >> 8) & 0xFF, (x >> 16) & 0xFF,
    (x >> 24) & 0xFF]. *)
Definition le32 (x : Z) : list Z :=
  [JS.band x 0xFF; JS.band (JS.sar x 8) 0xFF;
   JS.band (JS.sar x 16) 0xFF; JS.band (JS.sar x 24) 0xFF].

(** *** [sendFirmwareSize] *)

Definition sizePayload (firmwareSize firmwareChecksum : Z) : list Z :=
  le32 firmwareSize ++ le32 firmwareChecksum.

Definition sizeFrame (firmwareSize firmwareChecksum : Z) : list Z :=
  createBLEOTAFrame 0x50 0x10 (sizePayload firmwareSize firmwareChecksum).

Definition echoedChecksum (payload : list Z) : Z :=
  JS.bor (JS.bor (JS.bor (JS.index_num payload 4)
                         (JS.shl (JS.index_num payload 5) 8))
                 (JS.shl (JS.index_num payload 6) 16))
         (JS.shl (JS.index_num payload 7) 24).

(** What [sendFirmwareSize] logs about the echo of the checksum. *)
Inductive ChecksumEcho : Type :=
| ChecksumVerified (echoed : Z)
| ChecksumMismatch (sent got : Z)
| NoChecksumEcho.

Definition verifyEchoedChecksum (firmwareChecksum : Z) (payload : list Z)
  : ChecksumEcho :=
  if 8 <=? Z.of_nat (length payload) then
    let echoed := echoedChecksum payload in
    if echoed =? firmwareChecksum then ChecksumVerified echoed
    else ChecksumMismatch firmwareChecksum echoed
  else NoChecksumEcho.

(** The part of [sendFirmwareSize] after the wait: the result and the
    verdict on the echo. *)
Definition sendFirmwareSize_after_ack (firmwareChecksum : Z) (ack : Value)
  : bool * option ChecksumEcho :=
  match ack with
  | AckOk a => (true, Some (verifyEchoedChecksum firmwareChecksum (ack_payload a)))
  | _ => (false, None)
  end.

(** *** [sendFirmwareChunk] and the chunk loop of [performOTAUpdate] *)

(** [otaChunkSize] as [connectAndPrepareOTA] sets it before the transfer
    starts. *)
Definition otaChunkSize : Z := 128.

Definition chunkPayload (chunkData : list Z) (offset : Z) : list Z :=
  le32 offset ++ chunkData.

Definition chunkFrame (chunkData : list Z) (offset : Z) : list Z :=
  createBLEOTAFrame 0x51 0x10 (chunkPayload chunkData offset).

(** One call of [sendFirmwareChunk]: what was written to the device. *)
Record SentChunk : Type := mkSent {
  sent_offset : Z;
  sent_data : list Z;
  sent_index : Z;
  sent_frame : list Z
}.

Inductive TransferOutcome : Type :=
| TransferDone
| TransferFailed (chunkIndex : Z)   (* 'Failed to send chunk N after 3 retries' *)
| OutOfFuel.

(** The inner [while (!chunkSent && retryCount < 3)]: [remaining] is
    [3 - retryCount], and [ok n] tells whether the [n]-th call of
    [sendFirmwareChunk] of the session returns [true].  The loop awaits each
    call, so [ok] describes a session in which every call returns; a call
    whose wait is never resolved keeps the loop suspended for good, and such
    a session is not among those [ok] describes. *)
Fixpoint retry_loop (remaining : nat) (ok : nat -> bool) (attempt : nat)
  (c : SentChunk) : bool * nat * list SentChunk :=
  match remaining with
  | O => (false, attempt, [])
  | S remaining' =>
      if ok attempt then (true, S attempt, [c])
      else
        let '(sent, attempt', l) := retry_loop remaining' ok (S attempt) c in
        (sent, attempt', c :: l)
  end.

(** The outer [while (offset < firmwareData.byteLength)]; [fuel] bounds the
    number of chunks. *)
Fixpoint transfer_loop (fuel : nat) (ok : nat -> bool) (fw : list Z)
  (chunkSize offset chunkIndex : Z) (attempt : nat)
  : TransferOutcome * list SentChunk :=
  if offset <? Z.of_nat (length fw) then
    match fuel with
    | O => (OutOfFuel, [])
    | S fuel' =>
        let end_ := Z.min (offset + chunkSize) (Z.of_nat (length fw)) in
        let chunk := JS.slice fw offset end_ in
        let c := mkSent offset chunk (chunkIndex + 1) (chunkFrame chunk offset) in
        let '(sent, attempt', l) := retry_loop 3 ok attempt c in
        if sent then
          let '(outcome, rest) :=
            transfer_loop fuel' ok fw chunkSize
              (offset + Z.of_nat (length chunk)) (chunkIndex + 1) attempt' in
          (outcome, l ++ rest)
        else (TransferFailed (chunkIndex + 1), l)
    end
  else (TransferDone, []).

(** The chunk transfer of [performOTAUpdate]: a chunk carries at least one
    byte, so the loop needs no more rounds than the firmware has bytes. *)
Definition transferChunks (ok : nat -> bool) (fw : list Z)
  : TransferOutcome * list SentChunk :=
  transfer_loop (length fw) ok fw otaChunkSize 0 0 0.

(** [Math.ceil(firmwareData.byteLength / otaChunkSize)]. *)
Definition totalChunks (fw : list Z) : Z :=
  (Z.of_nat (length fw) + otaChunkSize - 1) / otaChunkSize.

(** * The vocabulary of the statements *)

(** ** Frames *)

(** The Standard frame as the specification describes it, with a length
    byte of 4 plus the payload length. *)
Definition standard_frame_as_claimed (cmd : Z) (payload : option (list Z)) : Prop :=
  let p := payload_or_empty payload in
  let body := [0x73; 4 + Z.of_nat (length p); 0x23; cmd] ++ p in
  createCommandMessage cmd payload = body ++ [xor_bytes body].

(** The Meter-IP frame as the specification describes it. *)
Definition meter_frame_as_claimed (cmd : Z) (payload : option (list Z)) : Prop :=
  let p := payload_or_empty payload in
  createMeterIPMessage cmd payload
  = [0x73; 4 + Z.of_nat (length p); 0x23; cmd] ++ p ++ [xor_bytes (0x23 :: cmd :: p)].

(** The round trip of the OTA frame as the specification describes it. *)
Definition ota_roundtrip_as_claimed (cmd reserved : Z) (payload : list Z) : Prop :=
  exists a,
    parseNotification (createBLEOTAFrame cmd reserved payload) = Ok a
    /\ ack_cmd a = cmd /\ ack_payload a = payload.

(** The bytes of an OTA frame before its checksum. *)
Definition ota_body (cmd reserved : Z) (payload : list Z) : list Z :=
  let total := Z.of_nat (length payload) + 3 in
  [0x73; total mod 256; (total / 256) mod 256; cmd; reserved] ++ payload.

(** An acknowledgment as the decoder expects it: the layout of the OTA
    frame, with a length field that counts every byte of the frame. *)
Definition ack_frame (cmd reserved : Z) (payload : list Z) : list Z :=
  let total := Z.of_nat (length payload) + 6 in
  let body := [0x73; total mod 256; total / 256; cmd; reserved] ++ payload in
  body ++ [xor_bytes body].

(** The header test of the decoder fails. *)
Definition header_bad (value : list Z) : Prop :=
  Z.of_nat (length value) < 6 \/ nth_error value 0 <> Some 0x73.

(** ** Firmware *)

(** The sum of the bytes, as mathematics writes it. *)
Definition sum_of (l : list Z) : Z := fold_right Z.add 0 l.

(** The buffer length above which the signature window is looked at. *)
Definition threshold : Z := signatureOffset + 10.

(** A byte that is neither 0x00 nor 0xFF. *)
Definition is_data (b : Z) : Prop := b <> 0x00 /\ b <> 0xFF.

(** A code unit below 0x80. *)
Definition ascii (b : Z) : bool := b <=? 0x7F.

(** The maximal runs of ASCII elements of a sequence; [cur] is the run being
    read, latest element first. *)
Definition flush (cur : list Z) : list (list Z) :=
  match cur with
  | [] => []
  | _ :: _ => [rev cur]
  end.

Fixpoint words_acc (cur l : list Z) : list (list Z) :=
  match l with
  | [] => flush cur
  | b :: l' =>
      if ascii b then words_acc (b :: cur) l'
      else flush cur ++ words_acc [] l'
  end.

Definition words (l : list Z) : list (list Z) := words_acc [] l.

(** A sequence of the decoder that is open: one, two or three continuation
    bytes are still expected, and whatever they are, the code point will not
    come out below 0x80. *)
Definition pending (s : Utf8State) : Prop :=
  let r := bytes_needed s - bytes_seen s in
  let cp := code_point s in
  let low := lower_boundary s - 0x80 in
  0 <= bytes_seen s
  /\ 0 <= low /\ upper_boundary s <= 0xBF
  /\ 0 <= cp
  /\ ((r = 1 /\ 0x80 <= cp * 64 + low)
      \/ (r = 2 /\ 0x80 <= cp * 4096 + low * 64)
      \/ (r = 3 /\ 0x80 <= cp * 262144 + low * 4096)).

(** ** The chunk transfer *)

(** The transfer as the specification words it: chunk [k] (counting from 0)
    starts at offset [k * chunkSize], carries [min(chunkSize, remaining)]
    bytes, and travels in an OTA frame of command 0x51, reserved byte 0x10,
    whose payload is the little-endian offset followed by the bytes. *)
Definition planned_chunk (fw : list Z) (k : nat) : SentChunk :=
  let offset := otaChunkSize * Z.of_nat k in
  let remaining := Z.of_nat (length fw) - offset in
  let data := firstn (Z.to_nat (Z.min otaChunkSize remaining))
                (skipn (Z.to_nat offset) fw) in
  mkSent offset data (Z.of_nat k + 1)
    (createBLEOTAFrame 0x51 0x10
       ([offset mod 256; (offset / 2 ^ 8) mod 256;
         (offset / 2 ^ 16) mod 256; (offset / 2 ^ 24) mod 256] ++ data)).

Definition planned_transfer (fw : list Z) : list SentChunk :=
  map (planned_chunk fw) (seq 0 (Z.to_nat (totalChunks fw))).

(** ** The event loop around the mailbox *)

(** What can happen to the engine while a caller is suspended in
    [waitForAck]: a notification is delivered, or time passes. *)
Inductive Stimulus : Type :=
| Notification (value : list Z)
| Elapse (ms : Z).

Definition react (st : Engine) (s : Stimulus) : Engine :=
  match s with
  | Notification value => handleNotification value st
  | Elapse ms => elapse ms st
  end.

Definition run (l : list Stimulus) (st : Engine) : Engine := fold_left react l st.

(** The slot is empty and the resolve function of promise [p] has been
    called with exactly [vs]. *)
Definition slot_closed (p : nat) (vs : list Value) (st : Engine) : Prop :=
  pendingAckResolve st = None /\ calls_of p st = vs.

(** An acknowledgment of command 0x51 echoing offset 0, as the decoder
    accepts it. *)
Definition chunk_ack : list Z := [0x73; 10; 0; 0x51; 0x10; 0; 0; 0; 0; 0x38].

(** Two sequential waits: the first is acknowledged after 40 ms, the second
    is registered 10 ms later, and the clock reaches 1500 ms, where the timer
    of the first wait is due. *)
Definition first_wait : nat * Engine := waitForAck 0x51 1500 initial.

Definition first_acked : Engine :=
  handleNotification chunk_ack (elapse 40 (snd first_wait)).

Definition second_wait : nat * Engine := waitForAck 0x51 1500 (elapse 10 first_acked).

Definition stale_timer_fired : Engine := elapse 1450 (snd second_wait).

(** A frame of acknowledgment shape (byte 3 = 0xFF, byte 4 = 0x01), as the
    decoder accepts it. *)
Definition ack_shaped : list Z := [0x73; 7; 0; 0xFF; 0x01; 0x00; 0x8A].

(** * More of the program *)

(** ** Checksums and the HM frame *)

(** [calculateXORChecksum]. *)
Definition calculateXORChecksum (data : list Z) : Z := fold_left JS.bxor data 0.

(** [createHMFrame(command, payload = [])]. *)
Definition createHMFrame (command : Z) (payload : list Z) : list Z :=
  let frame := [0x73] in
  let contentLength := 2 + Z.of_nat (length payload) in
  let frame := frame ++ [contentLength] in
  let frame := frame ++ [0x23] in
  let frame := frame ++ [command] in
  let frame := frame ++ payload in
  let checksum := fold_left JS.bxor payload (JS.bxor 0x23 command) in
  JS.Uint8Array (frame ++ [checksum]).

(** ** Waiting on the mailbox *)

(** What the pending closure resolves its promise with, given an ack. *)
Definition ack_outcome (expected : Z) (ack : Ack) : Value :=
  if ack_cmd ack =? expected then AckOk ack
  else UnexpectedCmd expected (ack_cmd ack).

(** Nothing the mailbox reacts to: time passing, and notifications the
    decoder rejects. *)
Definition is_quiet (s : Stimulus) : bool :=
  match s with
  | Notification value =>
      match parseNotification value with
      | Ok _ => false
      | Err _ => true
      end
  | Elapse ms => 0 <=? ms
  end.

Definition quiet (l : list Stimulus) : bool := forallb is_quiet l.

(** The time a sequence of stimuli takes. *)
Fixpoint elapsed (l : list Stimulus) : Z :=
  match l with
  | [] => 0
  | Notification _ :: l' => elapsed l'
  | Elapse ms :: l' => ms + elapsed l'
  end.

(** Promise [p] is waiting for command [expected], its timer is the only one
    and is due at [due]. *)
Definition waiting (expected : Z) (p : nat) (due : Z) (st : Engine) : Prop :=
  pendingAckResolve st = Some (mkResolver expected p)
  /\ timers st = [mkTimer due (AckTimeout p)]
  /\ calls_of p st = [].

(** Two waits share the slot: the resolver of the newer promise [p2] is
    pending, the promises [pa] and [pb] are the two waits' (in the order
    their timers are due), and these two timers are the only ones. *)
Definition sharing (e2 : Z) (p2 pa pb : nat) (da db : Z) (st : Engine) : Prop :=
  pendingAckResolve st = Some (mkResolver e2 p2)
  /\ timers st = [mkTimer da (AckTimeout pa); mkTimer db (AckTimeout pb)]
  /\ da <= db
  /\ pa <> pb
  /\ (p2 = pa \/ p2 = pb)
  /\ calls_of pa st = [] /\ calls_of pb st = [].

(** ** The chunk transfer with retries *)

(** The calls of [sendFirmwareChunk] of a transfer in which the chunks from
    chunk [k] on are tried as many times as [counts] lists. *)
Fixpoint attempts_plan (fw : list Z) (k : nat) (counts : list nat) : list SentChunk :=
  match counts with
  | [] => []
  | c :: counts' => repeat (planned_chunk fw k) c ++ attempts_plan fw (S k) counts'
  end.

(** The calls of [sendFirmwareChunk] that returned [true], when the first
    call of [sent] is call number [attempt] of the session. *)
Fixpoint acknowledged (ok : nat -> bool) (attempt : nat) (sent : list SentChunk)
  : list SentChunk :=
  match sent with
  | [] => []
  | c :: sent' =>
      (if ok attempt then [c] else []) ++ acknowledged ok (S attempt) sent'
  end.

(** *** The echoed offset of [sendFirmwareChunk] *)

Definition echoedOffset (payload : list Z) : Z :=
  JS.bor (JS.bor (JS.bor (JS.index_num payload 0)
                         (JS.shl (JS.index_num payload 1) 8))
                 (JS.shl (JS.index_num payload 2) 16))
         (JS.shl (JS.index_num payload 3) 24).

(** What [sendFirmwareChunk] logs about the echo of the offset. *)
Inductive OffsetEcho : Type :=
| OffsetConfirmed
| OffsetMismatch (sent got : Z)
| NoOffsetEcho.

Definition verifyEchoedOffset (offset : Z) (payload : list Z) : OffsetEcho :=
  if 4 <=? Z.of_nat (length payload) then
    let echoed := echoedOffset payload in
    if echoed =? offset then OffsetConfirmed
    else OffsetMismatch offset echoed
  else NoOffsetEcho.

(** The part of [sendFirmwareChunk] after the wait: the result and the
    verdict on the echo. *)
Definition sendFirmwareChunk_after_ack (offset : Z) (ack : Value)
  : bool * option OffsetEcho :=
  match ack with
  | AckOk a => (true, Some (verifyEchoedOffset offset (ack_payload a)))
  | _ => (false, None)
  end.

(** ** Specialised commands *)

(** Command names the program passes to [sendCommand]. *)
Module Names.
Import String.
Local Open Scope string_scope.
Definition SetDateTime : string := "Set Date/Time".
Definition UpgradeModeActivation : string := "Upgrade Mode Activation".
Definition NetworkInfo : string := "Network Info".
End Names.

(** The payload [setCurrentDateTime] builds from the fields of [new Date()];
    [monthIndex] is what [getMonth()] returns. *)
Definition dateTimePayload (year monthIndex day hour minute second : Z) : list Z :=
  let month := monthIndex + 1 in
  [JS.band year 0xFF; JS.band (JS.sar year 8) 0xFF; month; day; hour; minute; second].

(** The frame [setCurrentDateTime] hands to the device through
    [sendCommand(0x0B, 'Set Date/Time', payload)]. *)
Definition dateTimeFrame (year monthIndex day hour minute second : Z) : list Z :=
  createCommandMessage 0x0B
    (Some (dateTimePayload year monthIndex day hour minute second)).

(** The payload [setLocalApiPort] builds; [port] is what [parseInt] returned,
    [None] standing for NaN.  [None] as a result: the port is refused and
    nothing is sent. *)
Definition localApiPortPayload (port : option Z) : option (list Z) :=
  match port with
  | None => None
  | Some port =>
      if (port <? 1) || (65535 <? port) then None
      else Some [0x01; JS.band port 0xFF; JS.band (JS.sar port 8) 0xFF]
  end.

(** The frame [setLocalApiPort] hands to the device through
    [sendCommand(0x28, ..., payload)]. *)
Definition localApiPortFrame (port : option Z) : option (list Z) :=
  match localApiPortPayload port with
  | Some payload => Some (createCommandMessage 0x28 (Some payload))
  | None => None
  end.

(** ** Sending commands *)

(** [sendCommand] and [sendMeterIPCommand] are the same function but for the
    frame they build. *)
Inductive Protocol : Type :=
| StandardProtocol
| MeterIPProtocol.

(** The arguments of a call of [sendCommand] or [sendMeterIPCommand]. *)
Record Call : Type := mkCall {
  call_protocol : Protocol;
  commandType : Z;
  commandName : String.string;
  call_payload : option (list Z);
  retryCount : Z
}.

(** The same call with [retryCount + 1]. *)
Definition retried (c : Call) : Call :=
  mkCall (call_protocol c) (commandType c) (commandName c) (call_payload c)
    (retryCount c + 1).

Definition commandFrame (c : Call) : list Z :=
  match call_protocol c with
  | StandardProtocol => createCommandMessage (commandType c) (call_payload c)
  | MeterIPProtocol => createMeterIPMessage (commandType c) (call_payload c)
  end.

(** The callbacks the command path hands to [setTimeout]. *)
Inductive LinkTimerAction : Type :=
| ResponseCheck (c : Call)       (* after a write: [setTimeout(async () => ..., 3000)] *)
| Resend (c : Call)              (* after a failed write: [setTimeout(() => ..., 1000)] *)
| ActivationTimeout (p : nat).   (* [sendOTAActivate]: [setTimeout(() => ..., 5000)] *)

(** What the command path asks of its surroundings: whether the UI reports a
    connection, whether a writable characteristic is known, and whether the
    [n]-th call of [writeValueWithoutResponse] succeeds ([false]: it
    throws). *)
Record Env : Type := mkEnv {
  isConnected : bool;
  hasWriteChar : bool;
  write_ok : nat -> bool
}.

(** The engine with the state of the command path: [window.lastCommandTime],
    the timers of the command path, the number of calls of
    [writeValueWithoutResponse], and the frames written with the time of the
    write.  A write is taken to complete at once. *)
Record Link : Type := mkLink {
  engine : Engine;
  lastCommandTime : Z;
  link_timers : list (Z * LinkTimerAction);
  write_calls : nat;
  written : list (Z * list Z)
}.

Definition set_engine (e : Engine) (l : Link) : Link :=
  mkLink e (lastCommandTime l) (link_timers l) (write_calls l) (written l).

Definition set_link_timers (ts : list (Z * LinkTimerAction)) (l : Link) : Link :=
  mkLink (engine l) (lastCommandTime l) ts (write_calls l) (written l).

Fixpoint insert_link_timer (t : Z * LinkTimerAction) (ts : list (Z * LinkTimerAction))
  : list (Z * LinkTimerAction) :=
  match ts with
  | [] => [t]
  | u :: rest =>
      if fst t <? fst u then t :: u :: rest else u :: insert_link_timer t rest
  end.

Definition link_setTimeout (a : LinkTimerAction) (ms : Z) (l : Link) : Link :=
  set_link_timers (insert_link_timer (clock (engine l) + ms, a) (link_timers l)) l.

(** [writeChar.writeValueWithoutResponse(command)]: [true] when it
    succeeded. *)
Definition writeValueWithoutResponse (env : Env) (frame : list Z) (l : Link)
  : bool * Link :=
  let n := write_calls l in
  if write_ok env n then
    (true, mkLink (engine l) (lastCommandTime l) (link_timers l) (S n)
             (written l ++ [(clock (engine l), frame)]))
  else
    (false, mkLink (engine l) (lastCommandTime l) (link_timers l) (S n) (written l)).

(** The body shared by [sendCommand] and [sendMeterIPCommand]. *)
Definition send (env : Env) (c : Call) (l : Link) : Link :=
  if negb (isConnected env) then l
  else
    let command := commandFrame c in
    let e := set_currentCommand (Some (CmdName (commandName c))) (engine l) in
    let l := mkLink e (clock e) (link_timers l) (write_calls l) (written l) in
    if negb (hasWriteChar env) then l
    else
      let '(ok, l) := writeValueWithoutResponse env command l in
      if ok then link_setTimeout (ResponseCheck c) 3000 l
      else if retryCount c <? 2 then link_setTimeout (Resend c) 1000 l
      else l.

Definition sendCommand (env : Env) (commandType : Z) (commandName : String.string)
  (payload : option (list Z)) (retryCount : Z) (l : Link) : Link :=
  send env (mkCall StandardProtocol commandType commandName payload retryCount) l.

Definition sendMeterIPCommand (env : Env) (commandType : Z)
  (commandName : String.string) (payload : option (list Z)) (retryCount : Z)
  (l : Link) : Link :=
  send env (mkCall MeterIPProtocol commandType commandName payload retryCount) l.

(** [window.currentCommand === commandName]. *)
Definition marker_is (name : String.string) (e : Engine) : bool :=
  match currentCommand e with
  | Some (CmdName n) => String.eqb n name
  | _ => false
  end.

(** Running a timer callback of the command path. *)
Definition link_fire (env : Env) (a : LinkTimerAction) (l : Link) : Link :=
  match a with
  | ResponseCheck c =>
      if marker_is (commandName c) (engine l)
         && (2900 <? clock (engine l) - lastCommandTime l)
      then
        if retryCount c <? 2 then send env (retried c) l
        else set_engine (set_currentCommand None (engine l)) l
      else l
  | Resend c => send env (retried c) l
  | ActivationTimeout p =>
      match otaActivationResolve (engine l) with
      | Some _ =>
          set_engine
            (call_resolve p (Activated false)
               (set_otaActivationResolve None (engine l))) l
      | None => l
      end
  end.

(** Letting [ms] milliseconds pass: the timers of the mailbox and those of
    the command path that have fallen due run in order.  The two kinds of
    callbacks touch different parts of the state (the pending acknowledgment
    here, the marker, the activation resolver and the writes there) and
    never call the same promise's resolve, so running the mailbox's first
    loses nothing.  A callback only sets timers that are due later. *)
Definition link_elapse (env : Env) (ms : Z) (l : Link) : Link :=
  let e := elapse ms (engine l) in
  let now := clock e in
  let due_now := filter (fun t => fst t <=? now) (link_timers l) in
  let later := filter (fun t => negb (fst t <=? now)) (link_timers l) in
  fold_left (fun l t => link_fire env (snd t) l) due_now
    (set_link_timers later (set_engine e l)).

(** A notification reaching the handler of [createNotificationHandler]. *)
Definition link_notify (value : list Z) (l : Link) : Link :=
  set_engine (notificationHandler value (engine l)) l.

Definition link_react (env : Env) (l : Link) (s : Stimulus) : Link :=
  match s with
  | Notification value => link_notify value l
  | Elapse ms => link_elapse env ms l
  end.

Definition link_run (env : Env) (ss : list Stimulus) (l : Link) : Link :=
  fold_left (link_react env) ss l.

(** [sendOTAActivate]: the promise it returns and the state it leaves. *)
Definition sendOTAActivate (env : Env) (l : Link) : nat * Link :=
  let '(p, e) := new_promise (engine l) in
  let e := set_otaActivationResolve (Some p) e in
  let e := set_currentCommand (Some (CmdNumber 0x1F)) e in
  let l := sendCommand env 0x1F Names.UpgradeModeActivation
             (Some [0x0A; 0x0B; 0x0C]) 0 (set_engine e l) in
  (p, link_setTimeout (ActivationTimeout p) 5000 l).

(** Only time passes. *)
Definition only_time (ss : list Stimulus) : bool :=
  forallb (fun s => match s with Elapse ms => 0 <=? ms | Notification _ => false end) ss.

(** No notification of the sequence has the shape of an OTA
    acknowledgment: none is handed to [handleOTAAck]. *)
Definition no_ack_shape (ss : list Stimulus) : bool :=
  forallb (fun s => match s with
                    | Notification value => negb (looks_like_ota_ack value)
                    | Elapse _ => true
                    end) ss.

(** No command is in flight. *)
Definition idle (l : Link) : Prop :=
  currentCommand (engine l) = None /\ link_timers l = [].

(** Times that are at least 3000 ms apart. *)
Fixpoint spaced (ts : list Z) : Prop :=
  match ts with
  | a :: (b :: _) as rest => a + 3000 <= b /\ spaced rest
  | _ => True
  end.

(** Call [c] with another retry count. *)
Definition with_retryCount (c : Call) (n : Z) : Call :=
  mkCall (call_protocol c) (commandType c) (commandName c) (call_payload c) n.

(** The marker is clear and the command path has nothing but response
    checks left to run. *)
Definition released (l : Link) : Prop :=
  currentCommand (engine l) = None
  /\ Forall (fun t => exists c, snd t = ResponseCheck c) (link_timers l).

(** The marker holds [name] and the command path has no timer left. *)
Definition stuck (name : String.string) (l : Link) : Prop :=
  currentCommand (engine l) = Some (CmdName name) /\ link_timers l = [].

(** The write of call [c] has failed at [since] and its repetition is the
    only timer of the command path. *)
Definition resending (c : Call) (since : Z) (l : Link) : Prop :=
  currentCommand (engine l) = Some (CmdName (commandName c))
  /\ link_timers l = [(since + 1000, Resend c)]
  /\ since <= clock (engine l).

(** What a command whose writes fail looks like as time passes: nothing is
    written, [n0] counts the calls of [writeValueWithoutResponse] before
    it. *)
Definition failing (c : Call) (base : list (Z * list Z)) (n0 : nat) (l : Link) : Prop :=
  written l = base
  /\ currentCommand (engine l) = Some (CmdName (commandName c))
  /\ ((exists k since,
          (k < 2)%nat
          /\ resending (with_retryCount c (Z.of_nat k)) since l
          /\ write_calls l = (n0 + k + 1)%nat)
      \/ (link_timers l = [] /\ write_calls l = (n0 + 3)%nat)).

(** Nothing is outstanding: no command in flight, no activation and no
    acknowledgment waited for, no timer of the mailbox, and no repetition of
    a failed write among the timers of the command path. *)
Definition quiescent (l : Link) : Prop :=
  currentCommand (engine l) = None
  /\ otaActivationResolve (engine l) = None
  /\ pendingAckResolve (engine l) = None
  /\ timers (engine l) = []
  /\ Forall (fun t => forall c, snd t <> Resend c) (link_timers l).

(** The frame [sendOTAActivate] sends. *)
Definition activationCall : Call :=
  mkCall StandardProtocol 0x1F Names.UpgradeModeActivation (Some [0x0A; 0x0B; 0x0C]) 0.

(** Response checks left over from commands whose names are in [old], all
    due by [by_]. *)
Definition stale_checks (old : list String.string) (by_ : Z)
  (ts : list (Z * LinkTimerAction)) : Prop :=
  Forall (fun t => fst t <= by_
                   /\ exists c, snd t = ResponseCheck c /\ In (commandName c) old) ts.

(** The command of call [c] is in flight since [since], and besides its
    response check only checks of the commands [old] are pending. *)
Definition awaiting_over (old : list String.string) (c : Call) (since : Z) (l : Link)
  : Prop :=
  currentCommand (engine l) = Some (CmdName (commandName c))
  /\ lastCommandTime l = since
  /\ (exists stale,
         link_timers l = stale ++ [(since + 3000, ResponseCheck c)]
         /\ stale_checks old (since + 3000) stale)
  /\ ~ In (commandName c) old
  /\ since <= clock (engine l).

(** What the newest command looks like after some time without a response,
    when commands [old] were sent before it. *)
Definition unanswered_over (old : list String.string) (c : Call)
  (base : list (Z * list Z)) (t0 : Z) (l : Link) : Prop :=
  exists times : list Z,
    written l = base ++ map (fun t => (t, commandFrame c)) times
    /\ hd 0 times = t0
    /\ spaced times
    /\ ((awaiting_over old (with_retryCount c (Z.of_nat (length times) - 1))
           (last times 0) l
         /\ (1 <= length times <= 3)%nat)
        \/ (idle l /\ length times = 3%nat)).

(** The commands of [runAllTests]. *)
Module Tests.
Import String.
Local Open Scope string_scope.
Definition commands : list (Z * string * option (list Z)) :=
  [(0x03, "Runtime Info", None);
   (0x04, "Device Info", None);
   (0x08, "WiFi Info", None);
   (0x0D, "System Data", None);
   (0x13, "Error Codes", None);
   (0x14, "BMS Data", None);
   (0x1A, "Config Data", None);
   (0x1C, "Event Log", None);
   (0x21, "Read Meter IP", Some [0x0B]);
   (0x24, "Network Info", None)].
End Tests.

(** One round of the loop of [runAllTests]: the command is sent and one
    second passes. *)
Definition runTest (env : Env) (l : Link) (test : Z * String.string * option (list Z))
  : Link :=
  let '(cmd, name, payload) := test in
  link_elapse env 1000 (sendCommand env cmd name payload 0 l).

Definition runAllTests (env : Env) (l : Link) : Link :=
  if negb (isConnected env) then l
  else fold_left (runTest env) Tests.commands l.

(** The call [sendCommand] makes for a test. *)
Definition testCall (test : Z * String.string * option (list Z)) : Call :=
  let '(cmd, name, payload) := test in
  mkCall StandardProtocol cmd name payload 0.

(** The writes of a run of tests that starts at [t0] on a working link: one
    frame per test, a second apart. *)
Fixpoint test_writes (t0 : Z) (tests : list (Z * String.string * option (list Z)))
  : list (Z * list Z) :=
  match tests with
  | [] => []
  | test :: rest => (t0, commandFrame (testCall test)) :: test_writes (t0 + 1000) rest
  end.

(** The names of a list of tests, latest first. *)
Definition test_names (tests : list (Z * String.string * option (list Z)))
  : list String.string :=
  rev (map (fun test => commandName (testCall test)) tests).

(** ** Formatting *)

(** The digit [d] of [Number.prototype.toString(16)], as a UTF-16 code unit:
    ['0'..'9'], ['a'..'f'].  Strings are lists of code units. *)
Definition hexDigit (d : Z) : Z := if d <? 10 then 48 + d else 87 + d.

(** [n.toString(16)] for a non-negative integer [n]. *)
Fixpoint toString16_digits (fuel : nat) (n : Z) (acc : list Z) : list Z :=
  match fuel with
  | O => acc
  | S fuel' =>
      let acc := hexDigit (n mod 16) :: acc in
      if n / 16 =? 0 then acc else toString16_digits fuel' (n / 16) acc
  end.

Definition toString16 (n : Z) : list Z :=
  toString16_digits (S (Z.to_nat (Z.log2 n))) n [].

(** [s.padStart(targetLength, pad)] for a one-unit [pad]. *)
Definition padStart (s : list Z) (targetLength : nat) (pad : Z) : list Z :=
  repeat pad (targetLength - length s) ++ s.

(** [parts.join(sep)]. *)
Fixpoint join (sep : list Z) (parts : list (list Z)) : list Z :=
  match parts with
  | [] => []
  | [p] => p
  | p :: rest => p ++ sep ++ join sep rest
  end.

(** [formatBytes], on the bytes of the buffer. *)
Definition formatBytes (data : list Z) : list Z :=
  join [32] (map (fun b => [48; 120] ++ padStart (toString16 b) 2 48) (JS.Uint8Array data)).

Definition byte_token (b : Z) : list Z :=
  [48; 120; hexDigit (b / 16); hexDigit (b mod 16)].

(** * Properties *)

(** ** The JavaScript operators *)

Lemma to_int32_eqm z : JS.to_int32 z = z - 2 ^ 32 * ((z + 2 ^ 31) / 2 ^ 32).
Proof.
  unfold JS.to_int32.
  pose proof (Z.div_mod (z + 2 ^ 31) (2 ^ 32) ltac:(lia)). lia.
Qed.

Lemma to_int32_mod z : JS.to_int32 z mod 2 ^ 32 = z mod 2 ^ 32.
Proof.
  rewrite to_int32_eqm.
  replace (z - 2 ^ 32 * ((z + 2 ^ 31) / 2 ^ 32))
    with (z + (- ((z + 2 ^ 31) / 2 ^ 32)) * 2 ^ 32) by lia.
  apply Z.mod_add. lia.
Qed.

Lemma to_int32_testbit z i :
  0 <= i < 32 -> Z.testbit (JS.to_int32 z) i = Z.testbit z i.
Proof.
  intros Hi.
  rewrite <- (Z.mod_pow2_bits_low (JS.to_int32 z) 32 i) by lia.
  rewrite <- (Z.mod_pow2_bits_low z 32 i) by lia.
  now rewrite to_int32_mod.
Qed.

Lemma to_int32_small z : - 2 ^ 31 <= z < 2 ^ 31 -> JS.to_int32 z = z.
Proof.
  intros H. unfold JS.to_int32. rewrite Z.mod_small; lia.
Qed.

Lemma to_int32_range z : - 2 ^ 31 <= JS.to_int32 z < 2 ^ 31.
Proof.
  unfold JS.to_int32.
  pose proof (Z.mod_pos_bound (z + 2 ^ 31) (2 ^ 32) ltac:(lia)). lia.
Qed.

Lemma to_uint8_bits z : JS.to_uint8 z = Z.land z (Z.ones 8).
Proof. unfold JS.to_uint8. now rewrite Z.land_ones by lia. Qed.

Lemma to_uint8_byte b : is_byte b -> JS.to_uint8 b = b.
Proof. unfold is_byte, JS.to_uint8. intros H. apply Z.mod_small. lia. Qed.

Lemma to_uint8_is_byte z : is_byte (JS.to_uint8 z).
Proof. unfold is_byte, JS.to_uint8. apply Z.mod_pos_bound. lia. Qed.

Lemma to_uint8_bxor a b :
  JS.to_uint8 (JS.bxor a b) = Z.lxor (JS.to_uint8 a) (JS.to_uint8 b).
Proof.
  rewrite !to_uint8_bits. unfold JS.bxor.
  Z.bitblast. rewrite !to_int32_testbit by lia.
  now rewrite !andb_true_r.
Qed.

Lemma lxor_mod256 a b : Z.lxor a b mod 256 = Z.lxor (a mod 256) (b mod 256).
Proof.
  change 256 with (2 ^ 8). rewrite <- !Z.land_ones by lia.
  Z.bitblast.
Qed.

Lemma lxor_is_byte a b : is_byte a -> is_byte b -> is_byte (Z.lxor a b).
Proof.
  unfold is_byte. intros Ha Hb.
  rewrite <- (Z.mod_small a 256), <- (Z.mod_small b 256), <- lxor_mod256 by lia.
  apply Z.mod_pos_bound. lia.
Qed.

Lemma fold_bxor_to_uint8 l a :
  JS.to_uint8 (fold_left JS.bxor l a)
  = fold_left Z.lxor (map JS.to_uint8 l) (JS.to_uint8 a).
Proof.
  revert a. induction l as [|b l IH]; intros a; simpl; [reflexivity|].
  now rewrite IH, to_uint8_bxor.
Qed.

Lemma Uint8Array_bytes l : bytes l -> JS.Uint8Array l = l.
Proof.
  unfold bytes, JS.Uint8Array. induction 1 as [|b l Hb _ IH]; simpl; [reflexivity|].
  now rewrite IH, to_uint8_byte.
Qed.

Lemma Uint8Array_app l1 l2 :
  JS.Uint8Array (l1 ++ l2) = JS.Uint8Array l1 ++ JS.Uint8Array l2.
Proof. apply map_app. Qed.

Lemma fold_lxor_is_byte l a : bytes l -> is_byte a -> is_byte (fold_left Z.lxor l a).
Proof.
  intros Hl. revert a. induction Hl as [|b l Hb _ IH]; intros a Ha; simpl; [assumption|].
  apply IH. now apply lxor_is_byte.
Qed.

(** The checksum byte stored at the end of a frame: reducing the JavaScript
    XOR of the array to a byte gives the XOR of the stored bytes. *)
Lemma stored_checksum l :
  JS.to_uint8 (fold_left JS.bxor l 0) = xor_bytes (JS.Uint8Array l).
Proof. unfold xor_bytes. now rewrite fold_bxor_to_uint8. Qed.

(** ** Byte sequences *)

Lemma bytes_app l1 l2 : bytes l1 -> bytes l2 -> bytes (l1 ++ l2).
Proof. unfold bytes. intros. apply Forall_app. now split. Qed.

Lemma bytes_cons b l : is_byte b -> bytes l -> bytes (b :: l).
Proof. unfold bytes. now constructor. Qed.

Lemma bytes_nil : bytes [].
Proof. constructor. Qed.

Lemma mod256_is_byte z : is_byte (z mod 256).
Proof. unfold is_byte. apply Z.mod_pos_bound. lia. Qed.

Create HintDb bytes.
#[local] Hint Resolve bytes_app bytes_cons bytes_nil to_uint8_is_byte
  mod256_is_byte : bytes.
#[local] Hint Extern 2 (is_byte _) => unfold is_byte; lia : bytes.

(** ** The frame encoders *)

(** A frame is stored as its bytes followed by the XOR of those bytes. *)
Lemma Uint8Array_with_checksum m :
  JS.Uint8Array (m ++ [fold_left JS.bxor m 0])
  = JS.Uint8Array m ++ [xor_bytes (JS.Uint8Array m)].
Proof.
  rewrite Uint8Array_app. cbn [JS.Uint8Array map]. now rewrite stored_checksum.
Qed.

(** C4 (amended).  For every command byte and every payload (the absent
    payload included), [createCommandMessage] returns
    [0x73][totalLen][0x23][cmd][payload...][xor], where [totalLen] is 5 plus
    the payload length, the byte count of the whole frame, stored modulo 256,
    and [xor] is the XOR of every byte of the frame before it. *)
Theorem createCommandMessage_frame (cmd : Z) (payload : option (list Z)) :
  is_byte cmd ->
  bytes (payload_or_empty payload) ->
  let p := payload_or_empty payload in
  let totalLen := (5 + Z.of_nat (length p)) mod 256 in
  let body := [0x73; totalLen; 0x23; cmd] ++ p in
  createCommandMessage cmd payload = body ++ [xor_bytes body].
Proof.
  intros Hc Hp p totalLen body.
  unfold createCommandMessage. fold p.
  rewrite Uint8Array_with_checksum.
  assert (Hbody : JS.Uint8Array
            (set_index [START_BYTE; 0; IDENTIFIER_BYTE; cmd] 1
               (Z.of_nat (length [START_BYTE; 0; IDENTIFIER_BYTE; cmd])
                + Z.of_nat (length p) + 1) ++ p) = body).
  { unfold body, totalLen. rewrite Uint8Array_app, (Uint8Array_bytes p Hp).
    f_equal. cbn [set_index firstn skipn app length JS.Uint8Array map].
    rewrite (to_uint8_byte cmd Hc).
    replace (Z.of_nat 4 + Z.of_nat (length p) + 1) with (5 + Z.of_nat (length p)) by lia.
    reflexivity. }
  now rewrite Hbody.
Qed.

(** The activation command: command 0x1F with the payload [0x0A, 0x0B, 0x0C]. *)
Lemma createCommandMessage_frame_witness :
  is_byte 0x1F /\ bytes (payload_or_empty (Some [0x0A; 0x0B; 0x0C]))
  /\ createCommandMessage 0x1F (Some [0x0A; 0x0B; 0x0C])
     = [0x73; 8; 0x23; 0x1F; 0x0A; 0x0B; 0x0C; 0x4A].
Proof.
  assert (Hc : is_byte 0x1F) by auto with bytes.
  assert (Hp : bytes (payload_or_empty (Some [0x0A; 0x0B; 0x0C])))
    by (cbn [payload_or_empty]; auto 6 with bytes).
  split; [exact Hc|]. split; [exact Hp|].
  exact (createCommandMessage_frame 0x1F (Some [0x0A; 0x0B; 0x0C]) Hc Hp).
Defined.

(** C4 as stated fails for a command without payload: the length byte is 5,
    not 4. *)
Lemma standard_frame_length_is_five_not_four :
  ~ standard_frame_as_claimed 0x01 None.
Proof. unfold standard_frame_as_claimed. vm_compute. discriminate. Qed.

Lemma xor_bytes_acc l a : fold_left Z.lxor l a = Z.lxor a (xor_bytes l).
Proof.
  unfold xor_bytes. revert a. induction l as [|b l IH]; intros a; simpl.
  - now rewrite Z.lxor_0_r.
  - rewrite IH, (IH b). now rewrite Z.lxor_assoc.
Qed.

Lemma xor_bytes_cons b l : xor_bytes (b :: l) = Z.lxor b (xor_bytes l).
Proof. unfold xor_bytes at 1. simpl. apply xor_bytes_acc. Qed.

Lemma xor_bytes_app l1 l2 : xor_bytes (l1 ++ l2) = Z.lxor (xor_bytes l1) (xor_bytes l2).
Proof.
  unfold xor_bytes at 1. rewrite fold_left_app. fold (xor_bytes l1).
  apply xor_bytes_acc.
Qed.

Lemma xor_bytes_is_byte l : bytes l -> is_byte (xor_bytes l).
Proof. intros H. apply fold_lxor_is_byte; [assumption | unfold is_byte; lia]. Qed.

(** C9 (amended).  For every command byte and every payload (the absent
    payload included), [createMeterIPMessage] returns
    [0x73][len][0x23][cmd][payload...][xor], where [len] is 4 plus the payload
    length, stored modulo 256, and [xor] is the XOR of 0x23, the command and
    the payload bytes only.  The header 0x73 and the length byte are not part
    of it: the XOR over the Standard frame's scope differs from it by exactly
    these two bytes. *)
Theorem createMeterIPMessage_frame (cmd : Z) (payload : option (list Z)) :
  is_byte cmd ->
  bytes (payload_or_empty payload) ->
  let p := payload_or_empty payload in
  let len := (4 + Z.of_nat (length p)) mod 256 in
  createMeterIPMessage cmd payload
  = [0x73; len; 0x23; cmd] ++ p ++ [xor_bytes (0x23 :: cmd :: p)]
  /\ xor_bytes ([0x73; len; 0x23; cmd] ++ p)
     = Z.lxor (Z.lxor 0x73 len) (xor_bytes (0x23 :: cmd :: p)).
Proof.
  intros Hc Hp p len. split.
  - unfold createMeterIPMessage. fold p.
    rewrite !Uint8Array_app, (Uint8Array_bytes p Hp).
    cbn [JS.Uint8Array map]. rewrite (to_uint8_byte cmd Hc).
    rewrite fold_bxor_to_uint8, to_uint8_bxor.
    fold (JS.Uint8Array p). rewrite (Uint8Array_bytes p Hp), (to_uint8_byte cmd Hc).
    reflexivity.
  - change ([0x73; len; 0x23; cmd] ++ p) with (0x73 :: len :: 0x23 :: cmd :: p).
    rewrite (xor_bytes_cons 0x73), (xor_bytes_cons len). now rewrite Z.lxor_assoc.
Qed.

(** A Meter-IP command with a two-byte payload. *)
Lemma createMeterIPMessage_frame_witness :
  is_byte 0x21 /\ bytes (payload_or_empty (Some [1; 2])) /\
  createMeterIPMessage 0x21 (Some [1; 2]) = [0x73; 6; 0x23; 0x21; 1; 2; 1].
Proof.
  assert (Hc : is_byte 0x21) by auto with bytes.
  assert (Hp : bytes (payload_or_empty (Some [1; 2])))
    by (cbn [payload_or_empty]; auto with bytes).
  split; [exact Hc | split; [exact Hp |]].
  exact (proj1 (createMeterIPMessage_frame 0x21 (Some [1; 2]) Hc Hp)).
Defined.

(** C9 as stated fails for a payload of 252 bytes: 4 + 252 does not fit the
    length byte, which holds 0. *)
Lemma meter_frame_length_byte_wraps :
  ~ meter_frame_as_claimed 0x21 (Some (repeat 0 252)).
Proof. unfold meter_frame_as_claimed. vm_compute. discriminate. Qed.

(** ** Bytes under the JavaScript operators *)

Lemma byte_int32 b : is_byte b -> JS.to_int32 b = b.
Proof. unfold is_byte. intros H. apply to_int32_small. lia. Qed.

Lemma bxor_bytes a b : is_byte a -> is_byte b -> JS.bxor a b = Z.lxor a b.
Proof. intros Ha Hb. unfold JS.bxor. now rewrite !byte_int32. Qed.

Lemma fold_bxor_bytes l a :
  bytes l -> is_byte a -> fold_left JS.bxor l a = fold_left Z.lxor l a.
Proof.
  intros Hl. revert a. induction Hl as [|b l Hb _ IH]; intros a Ha; simpl; [reflexivity|].
  rewrite (bxor_bytes a b Ha Hb). apply IH. now apply lxor_is_byte.
Qed.

Lemma testbit_above_pow2 a k i :
  0 <= a < 2 ^ k -> 0 <= k <= i -> Z.testbit a i = false.
Proof.
  intros Ha Hk. rewrite <- (Z.mod_small a (2 ^ k)) by lia.
  apply Z.mod_pow2_bits_high. lia.
Qed.

Lemma lor_shiftl_add a b k :
  0 <= a < 2 ^ k -> 0 <= k -> Z.lor a (Z.shiftl b k) = a + b * 2 ^ k.
Proof.
  intros Ha Hk. rewrite <- Z.shiftl_mul_pow2 by lia.
  rewrite <- Z.add_lor_land.
  assert (E : Z.land a (Z.shiftl b k) = 0).
  { apply Z.bits_inj'. intros i Hi. rewrite Z.land_spec, Z.bits_0.
    destruct (Z.ltb_spec i k).
    - rewrite Z.shiftl_spec_low by lia. apply andb_false_r.
    - rewrite (testbit_above_pow2 a k i) by lia. reflexivity. }
  rewrite E. lia.
Qed.

(** [(x >> k) & 0xFF] picks byte [k / 8] of [x], whatever the sign ToInt32
    gives it. *)
Lemma band_sar_byte x k :
  0 <= k <= 24 -> JS.band (JS.sar x k) 0xFF = (x / 2 ^ k) mod 256.
Proof.
  intros Hk. unfold JS.band, JS.sar.
  rewrite (Z.mod_small k 32) by lia.
  rewrite (to_int32_small 0xFF) by lia.
  rewrite (to_int32_small (Z.shiftr _ k)).
  - change 0xFF with (Z.ones 8). rewrite Z.land_ones by lia.
    change 256 with (2 ^ 8). rewrite <- Z.shiftr_div_pow2 by lia.
    rewrite <- !Z.land_ones by lia.
    Z.bitblast. rewrite to_int32_testbit by lia. reflexivity.
  - pose proof (to_int32_range x) as Hr. rewrite Z.shiftr_div_pow2 by lia.
    assert (0 < 2 ^ k) by (apply Z.pow_pos_nonneg; lia).
    change (2 ^ 31) with 2147483648 in *.
    split.
    + apply Z.div_le_lower_bound; [lia | nia].
    + apply Z.div_lt_upper_bound; [lia | nia].
Qed.

Lemma band_low_byte x : JS.band x 0xFF = x mod 256.
Proof.
  unfold JS.band. rewrite (to_int32_small 0xFF) by lia.
  change 0xFF with (Z.ones 8). rewrite Z.land_ones by lia.
  change 256 with (2 ^ 8). rewrite <- !Z.land_ones by lia.
  Z.bitblast. rewrite to_int32_testbit by lia. reflexivity.
Qed.

Lemma le32_bytes x :
  le32 x = [x mod 256; (x / 2 ^ 8) mod 256; (x / 2 ^ 16) mod 256; (x / 2 ^ 24) mod 256].
Proof.
  unfold le32. now rewrite band_low_byte, !band_sar_byte by lia.
Qed.

Lemma le32_is_bytes x : bytes (le32 x).
Proof.
  rewrite le32_bytes. repeat constructor; apply Z.mod_pos_bound; lia.
Qed.

Lemma shl_byte b k : is_byte b -> 0 <= k <= 16 -> JS.shl b k = b * 2 ^ k.
Proof.
  intros Hb Hk. unfold JS.shl. rewrite (byte_int32 b Hb), (Z.mod_small k 32) by lia.
  rewrite Z.shiftl_mul_pow2 by lia. apply to_int32_small.
  unfold is_byte in Hb.
  assert (0 < 2 ^ k) by (apply Z.pow_pos_nonneg; lia).
  assert (2 ^ k <= 2 ^ 16) by (apply Z.pow_le_mono_r; lia).
  change (2 ^ 16) with 65536 in *. nia.
Qed.

Lemma bor_byte_shl a b :
  is_byte a -> is_byte b -> JS.bor a (JS.shl b 8) = a + 256 * b.
Proof.
  intros Ha Hb. unfold JS.bor. rewrite (shl_byte b 8 Hb) by lia.
  rewrite (byte_int32 a Ha). unfold is_byte in *.
  rewrite to_int32_small by lia.
  rewrite <- Z.shiftl_mul_pow2 by lia.
  rewrite (lor_shiftl_add a b 8) by lia. lia.
Qed.

(** ** Indexing and slicing *)

Lemma index_num_nth v i : JS.index_num v i = nth i v 0.
Proof.
  unfold JS.index_num, JS.index. revert i.
  induction v as [|b v IH]; intros [|i]; simpl; auto.
Qed.

Lemma index_is_true v i k : JS.index_is v i k = true <-> nth_error v i = Some k.
Proof.
  unfold JS.index_is, JS.index. destruct (nth_error v i) as [b|].
  - rewrite Z.eqb_eq. split; congruence.
  - split; discriminate.
Qed.

Lemma nth_is_byte v i : bytes v -> is_byte (nth i v 0).
Proof.
  intros Hv. destruct (Nat.lt_ge_cases i (length v)) as [Hi|Hi].
  - unfold bytes in Hv. rewrite Forall_forall in Hv. apply Hv. now apply nth_In.
  - rewrite nth_overflow by assumption. unfold is_byte. lia.
Qed.

Lemma declaredLength_bytes v :
  bytes v -> declaredLength v = nth 1 v 0 + 256 * nth 2 v 0.
Proof.
  intros Hv. unfold declaredLength. rewrite !index_num_nth.
  apply bor_byte_shl; now apply nth_is_byte.
Qed.

Lemma bytes_firstn n v : bytes v -> bytes (firstn n v).
Proof.
  unfold bytes. intros Hv. revert n.
  induction Hv as [|b v Hb _ IH]; intros [|n]; simpl; constructor; auto.
Qed.

Lemma bytes_skipn n v : bytes v -> bytes (skipn n v).
Proof.
  unfold bytes. intros Hv. revert n.
  induction Hv as [|b v Hb Hv IH]; intros [|n]; simpl; try constructor; auto.
Qed.

Lemma xor_all_but_last_bytes v :
  bytes v -> xor_all_but_last v = xor_bytes (removelast v).
Proof.
  intros Hv. unfold xor_all_but_last, xor_bytes.
  rewrite removelast_firstn_len, Nat.sub_1_r.
  apply fold_bxor_bytes; [now apply bytes_firstn | unfold is_byte; lia].
Qed.

Lemma nth_pred_length_last (v : list Z) : nth (length v - 1) v 0 = last v 0.
Proof.
  induction v as [|b v IH]; [reflexivity|].
  destruct v as [|c v]; [reflexivity|].
  change (last (b :: c :: v) 0) with (last (c :: v) 0). rewrite <- IH.
  simpl. now rewrite Nat.sub_0_r.
Qed.

Lemma last_byte_last v : last_byte v = last v 0.
Proof. unfold last_byte. rewrite index_num_nth. apply nth_pred_length_last. Qed.

(** [value.slice(5, -1)] of a frame of at least six bytes. *)
Lemma slice_payload (v : list Z) :
  (6 <= length v)%nat ->
  JS.slice v 5 (-1) = firstn (length v - 6) (skipn 5 v).
Proof.
  intros Hv. unfold JS.slice.
  change (5 <? 0) with false. change (-1 <? 0) with true. cbv iota.
  rewrite Z.min_l, Z.max_l by lia.
  f_equal. lia.
Qed.

(** ** The OTA notification decoder *)

(** The frames the decoder accepts. *)
Lemma parseNotification_accepts value :
  bytes value ->
  (6 <= length value)%nat ->
  nth_error value 0 = Some 0x73 ->
  nth 1 value 0 + 256 * nth 2 value 0 = Z.of_nat (length value) ->
  xor_bytes (removelast value) = last value 0 ->
  parseNotification value
  = Ok (mkAck (nth 3 value 0) (nth 4 value 0)
          (firstn (length value - 6) (skipn 5 value))).
Proof.
  intros Hv Hlen Hhead Hdecl Hxor. unfold parseNotification.
  rewrite (declaredLength_bytes value Hv), (xor_all_but_last_bytes value Hv),
    last_byte_last, !index_num_nth, (slice_payload value Hlen).
  replace (Z.of_nat (length value) <? 6) with false by (symmetry; apply Z.ltb_ge; lia).
  replace (JS.index_is value 0 0x73) with true by (symmetry; now apply index_is_true).
  rewrite Hdecl, Hxor, !Z.eqb_refl. reflexivity.
Qed.

Lemma header_test value :
  (Z.of_nat (length value) <? 6) || negb (JS.index_is value 0 0x73) = true
  <-> header_bad value.
Proof.
  unfold header_bad. rewrite orb_true_iff, Z.ltb_lt, negb_true_iff.
  rewrite <- (index_is_true value 0 0x73).
  destruct (JS.index_is value 0 115); intuition congruence.
Qed.

(** C5.  The OTA notification decoder tests, in this order: the header
    (rejected exactly when fewer than 6 bytes were received or the first byte
    is not 0x73), the declared 16-bit little-endian length against the number
    of bytes received, and the XOR of all bytes but the last against the last
    byte.  When all three pass, the result is cmd = byte 3, reserved = byte 4
    and payload = bytes 5 through the second-to-last. *)
Theorem parseNotification_cases (value : list Z) :
  bytes value ->
  let n := Z.of_nat (length value) in
  let declared := nth 1 value 0 + 256 * nth 2 value 0 in
  let x := xor_bytes (removelast value) in
  (parseNotification value = Err BadNotificationHeader <-> header_bad value)
  /\ (~ header_bad value -> declared <> n ->
      parseNotification value = Err (LengthMismatch declared n))
  /\ (~ header_bad value -> declared = n -> x <> last value 0 ->
      parseNotification value = Err (BadXORChecksum x (last value 0)))
  /\ (~ header_bad value -> declared = n -> x = last value 0 ->
      parseNotification value
      = Ok (mkAck (nth 3 value 0) (nth 4 value 0)
              (firstn (length value - 6) (skipn 5 value)))).
Proof.
  intros Hv n declared x.
  unfold parseNotification.
  rewrite (declaredLength_bytes value Hv), (xor_all_but_last_bytes value Hv),
    last_byte_last, !index_num_nth.
  fold n declared x.
  pose proof (header_test value) as Hh. fold n in Hh.
  destruct ((n <? 6) || negb (JS.index_is value 0 115)) eqn:Eh.
  - assert (Hbad : header_bad value) by now apply Hh.
    repeat split; intros; try reflexivity; try assumption; contradiction.
  - assert (Hgood : ~ header_bad value).
    { intros Hbad. apply Hh in Hbad. discriminate. }
    assert (Hlen : (6 <= length value)%nat).
    { unfold header_bad in Hgood. fold n in Hgood. lia. }
    rewrite (slice_payload value Hlen).
    split; [|split; [|split]].
    + split; [|contradiction].
      destruct (declared =? n); [destruct (x =? last value 0)|]; discriminate.
    + intros _ Hd. apply Z.eqb_neq in Hd. now rewrite Hd.
    + intros _ Hd Hx. apply Z.eqb_eq in Hd. apply Z.eqb_neq in Hx.
      now rewrite Hd, Hx.
    + intros _ Hd Hx. apply Z.eqb_eq in Hd. apply Z.eqb_eq in Hx.
      now rewrite Hd, Hx.
Qed.

(** A finalize acknowledgment with status byte 0x01. *)
Lemma parseNotification_cases_witness :
  bytes [0x73; 7; 0; 0x52; 0x10; 0x01; 0x37]
  /\ parseNotification [0x73; 7; 0; 0x52; 0x10; 0x01; 0x37]
     = Ok (mkAck 0x52 0x10 [0x01]).
Proof.
  assert (Hv : bytes [0x73; 7; 0; 0x52; 0x10; 0x01; 0x37]) by auto 10 with bytes.
  split; [exact Hv|].
  apply (proj2 (proj2 (proj2 (parseNotification_cases _ Hv)))).
  - unfold header_bad. simpl. intros [H|H]; [lia | congruence].
  - reflexivity.
  - reflexivity.
Defined.

(** ** The OTA frame and the decoder *)

Lemma ota_body_bytes cmd reserved payload :
  is_byte cmd -> is_byte reserved -> bytes payload ->
  bytes (ota_body cmd reserved payload).
Proof.
  intros Hc Hr Hp. unfold ota_body. auto 10 with bytes.
Qed.

Lemma createBLEOTAFrame_layout cmd reserved payload :
  is_byte cmd -> is_byte reserved -> bytes payload ->
  createBLEOTAFrame cmd reserved payload
  = ota_body cmd reserved payload ++ [xor_bytes (ota_body cmd reserved payload)].
Proof.
  intros Hc Hr Hp. unfold createBLEOTAFrame.
  rewrite Uint8Array_with_checksum.
  assert (E : ((((([0x73] ++ [JS.band (1 + 1 + Z.of_nat (length payload) + 1) 0xFF])
                 ++ [JS.band (JS.sar (1 + 1 + Z.of_nat (length payload) + 1) 8) 0xFF])
                ++ [cmd]) ++ [reserved]) ++ payload)
              = ota_body cmd reserved payload).
  { unfold ota_body. rewrite band_low_byte, band_sar_byte by lia.
    replace (1 + 1 + Z.of_nat (length payload) + 1)
      with (Z.of_nat (length payload) + 3) by lia.
    reflexivity. }
  rewrite E.
  now rewrite (Uint8Array_bytes _ (ota_body_bytes cmd reserved payload Hc Hr Hp)).
Qed.

Lemma firstn_length_app (l l' : list Z) : firstn (length l) (l ++ l') = l.
Proof. induction l as [|b l IH]; simpl; [reflexivity | now rewrite IH]. Qed.

Lemma removelast_snoc (l : list Z) x : removelast (l ++ [x]) = l.
Proof. apply removelast_last. Qed.

Lemma last_snoc (l : list Z) x : last (l ++ [x]) 0 = x.
Proof. apply last_last. Qed.

(** C1 (amended).  For every command byte, reserved byte and payload (of
    length 0 through 250, and up to 65532), the OTA frame encoder produces
    [0x73][lenLo][lenHi][cmd][reserved][payload...][xor], where the 16-bit
    little-endian length is the payload length plus 3 (cmd, reserved,
    payload, checksum) and [xor] is taken over the entire frame before it,
    the two length bytes included.  Feeding these bytes to the OTA
    notification decoder does not succeed: the decoder compares the declared
    length with the number of bytes received, which is the payload length
    plus 6, and reports a length mismatch.  The decoder's checksum test on
    the same bytes passes, and bytes 3, 4 and 5..-1 are the command, the
    reserved byte and the payload. *)
Theorem createBLEOTAFrame_rejected_by_decoder (cmd reserved : Z) (payload : list Z) :
  is_byte cmd -> is_byte reserved -> bytes payload ->
  Z.of_nat (length payload) <= 65532 ->
  let n := Z.of_nat (length payload) in
  let frame := createBLEOTAFrame cmd reserved payload in
  let body := [0x73; (n + 3) mod 256; (n + 3) / 256; cmd; reserved] ++ payload in
  frame = body ++ [xor_bytes body]
  /\ declaredLength frame = n + 3
  /\ Z.of_nat (length frame) = n + 6
  /\ parseNotification frame = Err (LengthMismatch (n + 3) (n + 6))
  /\ xor_all_but_last frame = last_byte frame
  /\ JS.index_num frame 3 = cmd
  /\ JS.index_num frame 4 = reserved
  /\ JS.slice frame 5 (-1) = payload.
Proof.
  intros Hc Hr Hp Hn n frame body.
  assert (Hbody : ota_body cmd reserved payload = body).
  { unfold ota_body, body. fold n. rewrite (Z.mod_small ((n + 3) / 256)); [reflexivity|].
    split; [apply Z.div_pos; lia | apply Z.div_lt_upper_bound; lia]. }
  assert (Hframe : frame = body ++ [xor_bytes body]).
  { unfold frame. now rewrite createBLEOTAFrame_layout, Hbody. }
  assert (Hbb : bytes body) by (rewrite <- Hbody; now apply ota_body_bytes).
  assert (Hfb : bytes frame).
  { rewrite Hframe. auto using xor_bytes_is_byte with bytes. }
  assert (Hlen : Z.of_nat (length frame) = n + 6).
  { rewrite Hframe. unfold body. rewrite !length_app. cbn [length]. lia. }
  assert (Hdecl : declaredLength frame = n + 3).
  { rewrite (declaredLength_bytes frame Hfb), Hframe. unfold body.
    cbn [nth app].
    pose proof (Z.div_mod (n + 3) 256 ltac:(lia)). lia. }
  assert (Hxor : xor_all_but_last frame = last_byte frame).
  { rewrite (xor_all_but_last_bytes frame Hfb), last_byte_last, Hframe.
    now rewrite removelast_snoc, last_snoc. }
  repeat split; try assumption.
  - unfold parseNotification. rewrite Hdecl, Hlen.
    replace (n + 6 <? 6) with false by (symmetry; apply Z.ltb_ge; lia).
    replace (JS.index_is frame 0 0x73) with true
      by (symmetry; apply index_is_true; now rewrite Hframe).
    replace (n + 3 =? n + 6) with false by (symmetry; apply Z.eqb_neq; lia).
    reflexivity.
  - now rewrite Hframe.
  - now rewrite Hframe.
  - rewrite slice_payload by lia.
    replace (length frame - 6)%nat with (length payload) by lia.
    rewrite Hframe. unfold body. cbn [skipn app].
    apply firstn_length_app.
Qed.

(** The finalize frame [createBLEOTAFrame(0x52, 0x10, [])]. *)
Lemma createBLEOTAFrame_rejected_by_decoder_witness :
  is_byte 0x52 /\ is_byte 0x10 /\ bytes [] /\ Z.of_nat (length (@nil Z)) <= 65532
  /\ parseNotification (createBLEOTAFrame 0x52 0x10 []) = Err (LengthMismatch 3 6).
Proof.
  assert (Hc : is_byte 0x52) by auto with bytes.
  assert (Hr : is_byte 0x10) by auto with bytes.
  assert (Hn : Z.of_nat (length (@nil Z)) <= 65532) by (simpl; lia).
  split; [exact Hc|]. split; [exact Hr|]. split; [exact bytes_nil|]. split; [exact Hn|].
  exact (proj1 (proj2 (proj2 (proj2
    (createBLEOTAFrame_rejected_by_decoder 0x52 0x10 [] Hc Hr bytes_nil Hn))))).
Defined.

(** C1 as stated fails on the finalize frame: the decoder does not return an
    acknowledgment for it. *)
Lemma ota_roundtrip_fails : ~ ota_roundtrip_as_claimed 0x52 0x10 [].
Proof.
  intros [a [H _]]. vm_compute in H. discriminate.
Qed.

(** The decoder returns the command, the reserved byte and the payload of
    every frame whose length field counts the whole frame. *)
Lemma ack_frame_decodes cmd reserved payload :
  is_byte cmd -> is_byte reserved -> bytes payload ->
  Z.of_nat (length payload) <= 65529 ->
  parseNotification (ack_frame cmd reserved payload) = Ok (mkAck cmd reserved payload).
Proof.
  intros Hc Hr Hp Hn.
  set (n := Z.of_nat (length payload)).
  set (body := [0x73; (n + 6) mod 256; (n + 6) / 256; cmd; reserved] ++ payload).
  assert (Hframe : ack_frame cmd reserved payload = body ++ [xor_bytes body]) by reflexivity.
  assert (Hhi : is_byte ((n + 6) / 256)).
  { unfold is_byte. split; [apply Z.div_pos; lia | apply Z.div_lt_upper_bound; lia]. }
  assert (Hbb : bytes body) by (unfold body; auto 10 with bytes).
  assert (Hfb : bytes (body ++ [xor_bytes body]))
    by auto using xor_bytes_is_byte with bytes.
  assert (Hlen : length (body ++ [xor_bytes body]) = (length payload + 6)%nat).
  { unfold body. rewrite !length_app. cbn [length]. lia. }
  rewrite Hframe, parseNotification_accepts; try assumption.
  - rewrite Hlen. replace (length payload + 6 - 6)%nat with (length payload) by lia.
    unfold body. cbn [nth app skipn]. now rewrite firstn_length_app.
  - lia.
  - reflexivity.
  - rewrite Hlen. unfold body. cbn [nth app].
    pose proof (Z.div_mod (n + 6) 256 ltac:(lia)). unfold n in *. lia.
  - now rewrite removelast_snoc, last_snoc.
Qed.

(** ** The firmware checksum *)

Lemma byte_sum_acc l a : fold_left Z.add l a = a + sum_of l.
Proof.
  revert a. induction l as [|b l IH]; intros a; simpl; [lia|].
  rewrite IH. lia.
Qed.

Lemma byte_sum_sum_of l : byte_sum l = sum_of l.
Proof. unfold byte_sum. now rewrite byte_sum_acc. Qed.

Lemma lnot_opp x : Z.lnot x = - x - 1.
Proof. unfold Z.lnot. lia. Qed.

Lemma ushr0_bnot_uint32 s :
  0 <= s < 2 ^ 32 -> JS.ushr0 (JS.bnot s) = 2 ^ 32 - 1 - s.
Proof.
  intros Hs. unfold JS.ushr0, JS.to_uint32, JS.bnot.
  rewrite lnot_opp.
  replace (- JS.to_int32 s - 1) with (2 ^ 32 - 1 - s + ((s + 2 ^ 31) / 2 ^ 32 - 1) * 2 ^ 32)
    by (rewrite to_int32_eqm; lia).
  rewrite Z.mod_add by lia. apply Z.mod_small. lia.
Qed.

Lemma firmware_checksum_formula fw :
  firmware_checksum fw = 2 ^ 32 - 1 - sum_of fw mod 2 ^ 32.
Proof.
  unfold firmware_checksum. rewrite byte_sum_sum_of.
  unfold JS.ushr0 at 2. unfold JS.to_uint32.
  apply ushr0_bnot_uint32. apply Z.mod_pos_bound. lia.
Qed.

Lemma firmware_checksum_range fw : 0 <= firmware_checksum fw < 2 ^ 32.
Proof.
  rewrite firmware_checksum_formula.
  pose proof (Z.mod_pos_bound (sum_of fw) (2 ^ 32) ltac:(lia)). lia.
Qed.

(** C7.  The firmware checksum is the 32-bit ones' complement of the sum of
    all bytes: the sum is reduced modulo 2^32 and complemented modulo 2^32.
    For the bytes [0x01, 0x02, 0x03] the sum is 6 and the checksum
    0xFFFFFFF9. *)
Theorem analyzeFirmware_checksum :
  (forall fw : list Z,
      let sum := sum_of fw mod 2 ^ 32 in
      an_checksum (analyzeFirmware fw) = Z.lnot sum mod 2 ^ 32
      /\ an_checksum (analyzeFirmware fw) = 2 ^ 32 - 1 - sum
      /\ 0 <= an_checksum (analyzeFirmware fw) < 2 ^ 32)
  /\ byte_sum [0x01; 0x02; 0x03] = 6
  /\ an_checksum (analyzeFirmware [0x01; 0x02; 0x03]) = 0xFFFFFFF9.
Proof.
  split; [|split; reflexivity].
  intros fw sum.
  assert (E : an_checksum (analyzeFirmware fw) = firmware_checksum fw).
  { unfold analyzeFirmware. now destruct (firmware_type fw). }
  rewrite E. pose proof (firmware_checksum_range fw) as Hr.
  pose proof (firmware_checksum_formula fw) as Hf. fold sum in Hf.
  split; [|split; assumption].
  rewrite Hf, lnot_opp.
  replace (- sum - 1) with (2 ^ 32 - 1 - sum + (-1) * 2 ^ 32) by lia.
  rewrite Z.mod_add by lia. symmetry. apply Z.mod_small.
  pose proof (Z.mod_pos_bound (sum_of fw) (2 ^ 32) ltac:(lia)). fold sum in H. lia.
Qed.

(** ** The echoed checksum of [sendFirmwareSize] *)

(** [b << 24] of a byte: the byte lands in the sign position. *)
Lemma shl24_byte b :
  is_byte b ->
  JS.shl b 24 = Z.shiftl (if b <? 128 then b else b - 256) 24.
Proof.
  intros Hb. unfold JS.shl. rewrite (byte_int32 b Hb).
  change (24 mod 32) with 24. rewrite !Z.shiftl_mul_pow2 by lia.
  unfold is_byte in Hb. unfold JS.to_int32.
  change (2 ^ 24) with 16777216. change (2 ^ 31) with 2147483648.
  change (2 ^ 32) with 4294967296.
  destruct (Z.ltb_spec b 128).
  - rewrite Z.mod_small by lia. lia.
  - replace (b * 16777216 + 2147483648)
      with (b * 16777216 - 2147483648 + 1 * 4294967296) by lia.
    rewrite Z.mod_add, Z.mod_small by lia. lia.
Qed.

Lemma echoedChecksum_bytes payload :
  bytes payload ->
  let b0 := nth 4 payload 0 in
  let b1 := nth 5 payload 0 in
  let b2 := nth 6 payload 0 in
  let b3 := nth 7 payload 0 in
  echoedChecksum payload
  = b0 + 2 ^ 8 * b1 + 2 ^ 16 * b2 + 2 ^ 24 * (if b3 <? 128 then b3 else b3 - 256).
Proof.
  intros Hp b0 b1 b2 b3. unfold echoedChecksum. rewrite !index_num_nth.
  fold b0 b1 b2 b3.
  assert (H0 : is_byte b0) by now apply nth_is_byte.
  assert (H1 : is_byte b1) by now apply nth_is_byte.
  assert (H2 : is_byte b2) by now apply nth_is_byte.
  assert (H3 : is_byte b3) by now apply nth_is_byte.
  rewrite (bor_byte_shl b0 b1 H0 H1), (shl_byte b2 16 H2), (shl24_byte b3 H3) by lia.
  set (b3' := if b3 <? 128 then b3 else b3 - 256).
  unfold is_byte in *.
  assert (Hb3' : -128 <= b3' < 128) by (unfold b3'; destruct (Z.ltb_spec b3 128); lia).
  assert (Einner : JS.bor (b0 + 256 * b1) (b2 * 2 ^ 16) = b0 + 256 * b1 + b2 * 2 ^ 16).
  { unfold JS.bor. rewrite !to_int32_small by lia.
    rewrite <- Z.shiftl_mul_pow2 by lia.
    rewrite lor_shiftl_add by lia. rewrite Z.shiftl_mul_pow2 by lia. reflexivity. }
  rewrite Einner.
  unfold JS.bor. rewrite (to_int32_small (b0 + 256 * b1 + b2 * 2 ^ 16)) by lia.
  rewrite (to_int32_small (Z.shiftl b3' 24)) by (rewrite Z.shiftl_mul_pow2; lia).
  rewrite lor_shiftl_add by lia. lia.
Qed.

(** The four bytes of an unsigned 32-bit value add up to it again. *)
Lemma le32_recompose c :
  0 <= c < 2 ^ 32 ->
  c mod 256 + 2 ^ 8 * ((c / 2 ^ 8) mod 256) + 2 ^ 16 * ((c / 2 ^ 16) mod 256)
  + 2 ^ 24 * ((c / 2 ^ 24) mod 256) = c
  /\ (c / 2 ^ 24) mod 256 = c / 2 ^ 24
  /\ ((c / 2 ^ 24 <? 128) = (c <? 2 ^ 31)).
Proof.
  intros Hc.
  change (2 ^ 8) with 256. change (2 ^ 16) with 65536.
  change (2 ^ 24) with 16777216. change (2 ^ 31) with 2147483648.
  change (2 ^ 32) with 4294967296 in Hc.
  pose proof (Z.div_mod c 256 ltac:(lia)) as D0.
  pose proof (Z.mod_pos_bound c 256 ltac:(lia)) as B0.
  pose proof (Z.div_mod (c / 256) 256 ltac:(lia)) as D1.
  pose proof (Z.mod_pos_bound (c / 256) 256 ltac:(lia)) as B1.
  pose proof (Z.div_mod (c / 65536) 256 ltac:(lia)) as D2.
  pose proof (Z.mod_pos_bound (c / 65536) 256 ltac:(lia)) as B2.
  assert (E1 : c / 256 / 256 = c / 65536) by (rewrite Z.div_div by lia; reflexivity).
  assert (E2 : c / 65536 / 256 = c / 16777216) by (rewrite Z.div_div by lia; reflexivity).
  rewrite E1 in D1. rewrite E2 in D2.
  assert (R : 0 <= c / 16777216 < 256).
  { split; [apply Z.div_pos; lia | apply Z.div_lt_upper_bound; lia]. }
  split; [|split].
  - rewrite (Z.mod_small (c / 16777216)) by lia. lia.
  - apply Z.mod_small. lia.
  - destruct (Z.ltb_spec (c / 16777216) 128), (Z.ltb_spec c 2147483648);
      try reflexivity; exfalso; lia.
Qed.

(** C10.  [sendFirmwareSize] rebuilds the echoed checksum from bytes 4 to 7
    of the acknowledgment payload as a signed 32-bit number and compares it
    with the unsigned checksum of [analyzeFirmware].  When the acknowledgment
    echoes exactly the checksum bytes that were sent, the comparison fails,
    and a mismatch is reported, for every firmware whose checksum has its top
    bit set, that is, whose byte sum modulo 2^32 is below 0x80000000; it
    succeeds for every checksum below 0x80000000. *)
Theorem echoed_checksum_compares_signed (fw payload : list Z) :
  bytes payload ->
  (8 <= length payload)%nat ->
  let c := an_checksum (analyzeFirmware fw) in
  firstn 4 (skipn 4 payload)
  = firstn 4 (skipn 4 (sizePayload (Z.of_nat (length fw)) c)) ->
  (0x80000000 <= c <-> byte_sum fw mod 2 ^ 32 < 0x80000000)
  /\ (0x80000000 <= c ->
      forall cmd reserved,
        sendFirmwareSize_after_ack c (AckOk (mkAck cmd reserved payload))
        = (true, Some (ChecksumMismatch c (c - 2 ^ 32))))
  /\ (c < 0x80000000 ->
      forall cmd reserved,
        sendFirmwareSize_after_ack c (AckOk (mkAck cmd reserved payload))
        = (true, Some (ChecksumVerified c))).
Proof.
  intros Hp Hlen c Hecho. cbn [sendFirmwareSize_after_ack ack_payload].
  assert (Ec : c = firmware_checksum fw).
  { unfold c, analyzeFirmware. now destruct (firmware_type fw). }
  pose proof (firmware_checksum_range fw) as Hr. rewrite <- Ec in Hr.
  pose proof (firmware_checksum_formula fw) as Hf. rewrite <- Ec in Hf.
  rewrite <- byte_sum_sum_of in Hf.
  assert (Hbytes : firstn 4 (skipn 4 payload) = le32 c).
  { rewrite Hecho. unfold sizePayload. rewrite le32_bytes at 1. reflexivity. }
  clear Hecho. rewrite le32_bytes in Hbytes.
  assert (Hnth : nth 4 payload 0 = c mod 256
                 /\ nth 5 payload 0 = (c / 2 ^ 8) mod 256
                 /\ nth 6 payload 0 = (c / 2 ^ 16) mod 256
                 /\ nth 7 payload 0 = (c / 2 ^ 24) mod 256).
  { do 8 (destruct payload as [|? payload]; [simpl in Hlen; lia|]).
    simpl in Hbytes. simpl. inversion Hbytes. auto. }
  destruct Hnth as (N0 & N1 & N2 & N3).
  pose proof (echoedChecksum_bytes payload Hp) as He. cbv zeta in He.
  rewrite N0, N1, N2, N3 in He.
  destruct (le32_recompose c Hr) as (R0 & R1 & R2).
  rewrite R1 in He, R0. rewrite R2 in He.
  change (2 ^ 31) with 2147483648 in *. change (2 ^ 32) with 4294967296 in *.
  split; [lia|].
  unfold verifyEchoedChecksum.
  replace (8 <=? Z.of_nat (length payload)) with true by (symmetry; apply Z.leb_le; lia).
  split; intros Hc _ _.
  - replace (c <? 2147483648) with false in He by (symmetry; apply Z.ltb_ge; lia).
    assert (E : echoedChecksum payload = c - 4294967296) by lia.
    rewrite E. replace (c - 4294967296 =? c) with false by (symmetry; apply Z.eqb_neq; lia).
    reflexivity.
  - replace (c <? 2147483648) with true in He by (symmetry; apply Z.ltb_lt; lia).
    assert (E : echoedChecksum payload = c) by lia.
    rewrite E, Z.eqb_refl. reflexivity.
Qed.

(** The firmware [1, 2, 3], whose checksum is 0xFFFFFFF9. *)
Lemma echoed_checksum_compares_signed_witness :
  bytes [3; 0; 0; 0; 0xF9; 0xFF; 0xFF; 0xFF]
  /\ (8 <= length [3; 0; 0; 0; 0xF9; 0xFF; 0xFF; 0xFF])%nat
  /\ sendFirmwareSize_after_ack (an_checksum (analyzeFirmware [1; 2; 3]))
       (AckOk (mkAck 0x50 0x10 [3; 0; 0; 0; 0xF9; 0xFF; 0xFF; 0xFF]))
     = (true, Some (ChecksumMismatch 0xFFFFFFF9 (-7))).
Proof.
  assert (Hp : bytes [3; 0; 0; 0; 0xF9; 0xFF; 0xFF; 0xFF]) by auto 10 with bytes.
  assert (Hl : (8 <= length [3; 0; 0; 0; 0xF9; 0xFF; 0xFF; 0xFF])%nat) by (simpl; lia).
  split; [exact Hp|]. split; [exact Hl|].
  apply (proj1 (proj2 (echoed_checksum_compares_signed [1; 2; 3]
                         [3; 0; 0; 0; 0xF9; 0xFF; 0xFF; 0xFF] Hp Hl eq_refl))).
  vm_compute. discriminate.
Defined.

(** ** What the decoded text contains *)

Lemma starts_with_before_separator n x b y :
  forallb ascii n = true ->
  ascii b = false ->
  starts_with n (x ++ b :: y) = starts_with n x.
Proof.
  intros Hn Hb. revert x.
  induction n as [|n0 n IH]; intros x; [now destruct x|].
  simpl in Hn. apply andb_true_iff in Hn. destruct Hn as [Hn0 Hn].
  destruct x as [|a x]; simpl.
  - unfold ascii in *. destruct (Z.eqb_spec n0 b); [subst; congruence | reflexivity].
  - now rewrite (IH Hn).
Qed.

Lemma includes_nil n : n <> [] -> includes [] n = false.
Proof. destruct n; [contradiction | reflexivity]. Qed.

Section Includes.

Variable needle : list Z.
Hypothesis needle_ascii : forallb ascii needle = true.
Hypothesis needle_nonempty : needle <> [].

Lemma includes_around_separator x b y :
  ascii b = false ->
  includes (x ++ b :: y) needle = includes x needle || includes y needle.
Proof using needle_ascii needle_nonempty.
  intros Hb. induction x as [|a x IH].
  - pose proof (includes_nil needle needle_nonempty) as Hnil.
    rewrite Hnil. cbn [includes] in Hnil. apply orb_false_iff in Hnil.
    pose proof (starts_with_before_separator needle [] b y needle_ascii Hb) as E.
    cbn [app] in E. cbn [app includes]. rewrite E.
    destruct Hnil as [-> _]. reflexivity.
  - pose proof (starts_with_before_separator needle (a :: x) b y needle_ascii Hb) as E.
    cbn [app] in E. cbn [app includes]. rewrite IH, E.
    now rewrite orb_assoc.
Qed.

Lemma existsb_flush cur :
  existsb (fun w => includes w needle) (flush cur) = includes (rev cur) needle.
Proof using needle_nonempty.
  destruct cur as [|c cur]; cbn [flush existsb rev].
  - now rewrite includes_nil.
  - now rewrite orb_false_r.
Qed.

(** Whether a sequence includes the needle is decided by its ASCII runs. *)
Lemma includes_words_acc cur l :
  includes (rev cur ++ l) needle
  = existsb (fun w => includes w needle) (words_acc cur l).
Proof using needle_ascii needle_nonempty.
  revert cur. induction l as [|b l IH]; intros cur.
  - rewrite app_nil_r. cbn [words_acc]. now rewrite existsb_flush.
  - cbn [words_acc]. destruct (ascii b) eqn:Hb.
    + rewrite <- IH. cbn [rev]. now rewrite <- app_assoc.
    + rewrite existsb_app, existsb_flush, <- (IH []).
      now apply includes_around_separator.
Qed.

Lemma includes_words l :
  includes l needle = existsb (fun w => includes w needle) (words l).
Proof using needle_ascii needle_nonempty. apply (includes_words_acc [] l). Qed.

End Includes.

(** ** The decoder keeps the ASCII runs *)

Lemma words_acc_separator cur b l :
  ascii b = false -> words_acc cur (b :: l) = flush cur ++ words_acc [] l.
Proof. intros Hb. cbn [words_acc]. now rewrite Hb. Qed.

Lemma words_acc_ascii cur b l :
  ascii b = true -> words_acc cur (b :: l) = words_acc (b :: cur) l.
Proof. intros Hb. cbn [words_acc]. now rewrite Hb. Qed.

Lemma words_utf16 l : forall cur,
  words_acc cur (flat_map utf16_units l) = words_acc cur l.
Proof.
  induction l as [|cp l IH]; intros cur; [reflexivity|].
  cbn [flat_map]. unfold utf16_units at 1.
  destruct (ascii cp) eqn:Ha.
  - replace (cp <? 0x10000) with true
      by (symmetry; apply Z.ltb_lt; unfold ascii in Ha; apply Z.leb_le in Ha; lia).
    cbn [app]. now rewrite !words_acc_ascii, IH by assumption.
  - destruct (Z.ltb_spec cp 0x10000) as [Hlt|Hge].
    + cbn [app]. now rewrite !words_acc_separator, IH by assumption.
    + cbn [app].
      rewrite (words_acc_separator cur), (words_acc_separator []), (words_acc_separator cur cp).
      * now rewrite IH.
      * assumption.
      * unfold ascii. apply Z.leb_gt.
        assert (0 <= Z.land (cp - 0x10000) 0x3FF) by (apply Z.land_nonneg; lia). lia.
      * unfold ascii. apply Z.leb_gt.
        assert (0 <= Z.shiftr (cp - 0x10000) 10) by (apply Z.shiftr_nonneg; lia). lia.
Qed.

Lemma words_strip_bom l : words (strip_bom l) = words l.
Proof.
  unfold words, strip_bom. destruct l as [|cp l]; [reflexivity|].
  destruct (Z.eqb_spec cp 0xFEFF) as [->|]; [|reflexivity].
  now rewrite words_acc_separator by reflexivity.
Qed.

Lemma land_low_bits b k base :
  0 <= k -> base mod 2 ^ k = 0 -> base <= b < base + 2 ^ k ->
  Z.land b (Z.ones k) = b - base.
Proof.
  intros Hk Hbase Hb. rewrite Z.land_ones by assumption.
  assert (0 < 2 ^ k) by (apply Z.pow_pos_nonneg; lia).
  apply Z.mod_divide in Hbase; [|lia]. destruct Hbase as [q Hq].
  replace b with (b - base + q * 2 ^ k) at 1 by lia.
  rewrite Z.mod_add by lia. apply Z.mod_small. lia.
Qed.

(** What a byte does to an idle decoder. *)
Lemma utf8_lead_cases b :
  (ascii b = true /\ utf8_lead b = (utf8_idle, [b]))
  \/ (ascii b = false /\ utf8_lead b = (utf8_idle, [REPLACEMENT]))
  \/ (ascii b = false /\ exists s, utf8_lead b = (s, []) /\ pending s
                                   /\ bytes_needed s <> 0).
Proof.
  unfold utf8_lead, ascii.
  destruct (Z.leb_spec b 0x7F) as [Ha|Ha]; [now left|].
  right.
  destruct ((0xC2 <=? b) && (b <=? 0xDF)) eqn:E2.
  { apply andb_true_iff in E2. destruct E2 as [H1 H2].
    apply Z.leb_le in H1. apply Z.leb_le in H2.
    right. split; [reflexivity|]. eexists. split; [reflexivity|].
    change 0x1F with (Z.ones 5). rewrite (land_low_bits b 5 0xC0) by (cbn; lia).
    unfold pending.
    cbn [code_point bytes_seen bytes_needed lower_boundary upper_boundary].
    split; [|lia]. repeat (split; [lia|]). left. lia. }
  destruct ((0xE0 <=? b) && (b <=? 0xEF)) eqn:E3.
  { apply andb_true_iff in E3. destruct E3 as [H1 H2].
    apply Z.leb_le in H1. apply Z.leb_le in H2.
    right. split; [reflexivity|]. eexists. split; [reflexivity|].
    change 0xF with (Z.ones 4). rewrite (land_low_bits b 4 0xE0) by (cbn; lia).
    unfold pending.
    cbn [code_point bytes_seen bytes_needed lower_boundary upper_boundary].
    split; [|lia].
    destruct (Z.eqb_spec b 0xE0), (Z.eqb_spec b 0xED);
      repeat (split; [lia|]); right; left; lia. }
  destruct ((0xF0 <=? b) && (b <=? 0xF4)) eqn:E4.
  { apply andb_true_iff in E4. destruct E4 as [H1 H2].
    apply Z.leb_le in H1. apply Z.leb_le in H2.
    right. split; [reflexivity|]. eexists. split; [reflexivity|].
    change 0x7 with (Z.ones 3). rewrite (land_low_bits b 3 0xF0) by (cbn; lia).
    unfold pending.
    cbn [code_point bytes_seen bytes_needed lower_boundary upper_boundary].
    split; [|lia].
    destruct (Z.eqb_spec b 0xF0), (Z.eqb_spec b 0xF4);
      repeat (split; [lia|]); right; right; lia. }
  left. now split.
Qed.

Lemma pending_needs_bytes s : pending s -> (bytes_needed s =? 0) = false.
Proof.
  intros Hp. unfold pending in Hp. cbv zeta in Hp.
  destruct Hp as (Hs & _ & _ & _ & Hr). apply Z.eqb_neq. lia.
Qed.

(** What a continuation byte does to an open sequence. *)
Lemma utf8_continue s b :
  pending s ->
  lower_boundary s <= b <= upper_boundary s ->
  let cp := Z.lor (Z.shiftl (code_point s) 6) (Z.land b 0x3F) in
  ascii b = false
  /\ ((bytes_seen s + 1 =? bytes_needed s) = true -> ascii cp = false)
  /\ ((bytes_seen s + 1 =? bytes_needed s) = false ->
      pending (mkUtf8 cp (bytes_seen s + 1) (bytes_needed s) 0x80 0xBF)).
Proof.
  intros Hp Hb cp. unfold pending in Hp. cbv zeta in Hp.
  destruct Hp as (Hs & Hlow & Hup & Hcp & Hr).
  assert (Ecp : cp = code_point s * 64 + (b - 0x80)).
  { unfold cp. rewrite Z.lor_comm.
    change 0x3F with (Z.ones 6). rewrite (land_low_bits b 6 0x80) by (cbn; lia).
    rewrite (lor_shiftl_add (b - 0x80) (code_point s) 6) by (cbn; lia).
    change (2 ^ 6) with 64. lia. }
  split; [unfold ascii; apply Z.leb_gt; lia|].
  split.
  - intros Hdone. apply Z.eqb_eq in Hdone. unfold ascii. apply Z.leb_gt. lia.
  - intros Hmore. apply Z.eqb_neq in Hmore. unfold pending.
    cbn [code_point bytes_seen bytes_needed lower_boundary upper_boundary].
    repeat (split; [lia|]).
    destruct Hr as [[Hr H]|[[Hr H]|[Hr H]]]; [lia | left; lia | right; left; lia].
Qed.

Lemma words_acc_utf8_run input :
  forall s cur,
    (bytes_needed s = 0 ->
     words_acc cur (utf8_run s input) = words_acc cur input)
    /\ (pending s ->
        words_acc cur (utf8_run s input) = flush cur ++ words_acc [] input).
Proof.
  induction input as [|b rest IH]; intros s cur.
  - split.
    + intros Hs. cbn [utf8_run]. now rewrite Hs.
    + intros Hs. cbn [utf8_run]. rewrite (pending_needs_bytes s Hs).
      now rewrite words_acc_separator by reflexivity.
  - assert (Hlead : forall cur',
              words_acc cur' (snd (utf8_lead b) ++ utf8_run (fst (utf8_lead b)) rest)
              = words_acc cur' (b :: rest)).
    { intros cur'.
      destruct (utf8_lead_cases b) as [[Ha E]|[[Ha E]|[Ha [s' [E [Hp _]]]]]];
        rewrite E; cbn [fst snd app].
      - rewrite !words_acc_ascii by assumption.
        now apply (proj1 (IH utf8_idle (b :: cur'))).
      - rewrite !words_acc_separator by (assumption || reflexivity).
        f_equal. now apply (proj1 (IH utf8_idle [])).
      - rewrite words_acc_separator by assumption.
        now apply (proj2 (IH s' cur')). }
    split.
    + intros Hs. cbn [utf8_run]. unfold utf8_step. rewrite Hs. cbn [Z.eqb].
      specialize (Hlead cur). destruct (utf8_lead b) as [s' out]. exact Hlead.
    + intros Hs. cbn [utf8_run]. unfold utf8_step.
      rewrite (pending_needs_bytes s Hs).
      destruct ((b <? lower_boundary s) || (upper_boundary s <? b)) eqn:Hout.
      * specialize (Hlead []). destruct (utf8_lead b) as [s' out].
        cbn [fst snd] in Hlead. cbn [app].
        rewrite words_acc_separator by reflexivity. now rewrite Hlead.
      * apply orb_false_iff in Hout. destruct Hout as [H1 H2].
        apply Z.ltb_ge in H1. apply Z.ltb_ge in H2.
        destruct (utf8_continue s b Hs (conj H1 H2)) as (Hb & Hdone & Hmore).
        rewrite (words_acc_separator [] b rest Hb). cbn [flush app].
        destruct (bytes_seen s + 1 =? bytes_needed s) eqn:E.
        -- cbn [app]. rewrite words_acc_separator by now apply Hdone.
           f_equal. now apply (proj1 (IH utf8_idle [])).
        -- cbn [app]. apply (proj2 (IH _ cur)). now apply Hmore.
Qed.

(** The decoded text has the ASCII runs of the bytes. *)
Lemma words_TextDecoder input : words (TextDecoder_decode input) = words input.
Proof.
  unfold TextDecoder_decode, words. rewrite words_utf16.
  fold (words (strip_bom (utf8_run utf8_idle input))). rewrite words_strip_bom.
  now apply (proj1 (words_acc_utf8_run input utf8_idle [])).
Qed.

(** [signatureStr.includes(needle)], for an ASCII needle, asks whether the
    bytes themselves include it. *)
Lemma TextDecoder_includes_ascii needle input :
  forallb ascii needle = true -> needle <> [] ->
  includes (TextDecoder_decode input) needle = includes input needle.
Proof.
  intros Ha Hne.
  rewrite (includes_words needle Ha Hne (TextDecoder_decode input)).
  rewrite (includes_words needle Ha Hne input).
  now rewrite words_TextDecoder.
Qed.

Lemma TextDecoder_includes_VenusC input :
  includes (TextDecoder_decode input) VenusC = includes input VenusC.
Proof. apply TextDecoder_includes_ascii; [reflexivity | discriminate]. Qed.

(** ** Firmware classification *)

Lemma hasData_true w : hasData w = true <-> Exists is_data w.
Proof.
  unfold hasData. rewrite existsb_exists, Exists_exists.
  split; intros [b [Hin Hb]]; exists b; (split; [assumption|]).
  - apply andb_true_iff in Hb. destruct Hb as [H0 H1].
    apply negb_true_iff, Z.eqb_neq in H0. apply negb_true_iff, Z.eqb_neq in H1.
    now split.
  - destruct Hb as [H0 H1]. apply andb_true_iff.
    split; apply negb_true_iff, Z.eqb_neq; assumption.
Qed.

Lemma hasData_false w : hasData w = false <-> Forall (fun b => b = 0x00 \/ b = 0xFF) w.
Proof.
  unfold hasData. induction w as [|b w IH]; simpl.
  - split; [constructor | reflexivity].
  - rewrite orb_false_iff, IH. split.
    + intros [Hb Hw]. constructor; [|assumption].
      destruct (Z.eqb_spec b 0); [now left|].
      destruct (Z.eqb_spec b 255); [now right | discriminate].
    + intros H. inversion H as [|? ? Hb Hw]; subst. split; [|assumption].
      destruct Hb as [-> | ->]; reflexivity.
Qed.

(** The ten bytes at the signature offset of a buffer that has them. *)
Lemma signatureBytes_at (pre window post : list Z) :
  Z.of_nat (length pre) = signatureOffset ->
  length window = 10%nat ->
  signatureBytes (pre ++ window ++ post) = window.
Proof.
  intros Hpre Hw. unfold signatureBytes, JS.slice.
  rewrite !length_app, !Nat2Z.inj_add, Hpre, Hw.
  unfold signatureOffset.
  change (327684 <? 0) with false. change (327684 + 10 <? 0) with false. cbv iota.
  rewrite !Z.min_l by lia.
  replace (327684 + 10 - 327684) with 10 by lia.
  replace (Z.to_nat 327684) with (length pre) by (unfold signatureOffset in Hpre; lia).
  rewrite skipn_app, Nat.sub_diag, skipn_all. cbn [app skipn].
  change (Z.to_nat 10) with 10%nat. rewrite <- Hw. apply firstn_length_app.
Qed.

(** C8.  The classification of a firmware buffer, in priority order.  Above
    the threshold 0x50004 + 10, the 10-byte window at 0x50004 decides: text
    containing VenusC (which is to say: the window's bytes include the six
    bytes of VenusC) gives EMS/Control; otherwise a byte other than 0x00 and
    0xFF in the window gives BMS (no signature); otherwise Unknown (signature
    area empty).  Up to the threshold the size decides: at least 32768 bytes
    gives BMS (by size), at least 1024 gives Unknown (small) with a warning,
    less gives Unknown (very small) with the stronger warning.  A buffer of
    0x50010 bytes with VenusC0000 at 0x50004 is EMS/Control; with that window
    zeroed it is Unknown (signature area empty). *)
Theorem analyzeFirmware_classification :
  (forall fw : list Z,
      let len := Z.of_nat (length fw) in
      let window := signatureBytes fw in
      let found := includes (TextDecoder_decode window) VenusC in
      let verdict := (an_type (analyzeFirmware fw), an_warning (analyzeFirmware fw)) in
      found = includes window VenusC
      /\ (threshold < len -> found = true ->
          verdict = (EMS_Control_signature_found, NoWarning))
      /\ (threshold < len -> found = false -> Exists is_data window ->
          verdict = (BMS_no_signature, NoWarning))
      /\ (threshold < len -> found = false ->
          Forall (fun b => b = 0x00 \/ b = 0xFF) window ->
          verdict = (Unknown_signature_area_empty, NoWarning))
      /\ (len <= threshold -> 32768 <= len -> verdict = (BMS_by_size, NoWarning))
      /\ (1024 <= len < 32768 -> verdict = (Unknown_small, UnusuallySmall))
      /\ (len < 1024 -> verdict = (Unknown_very_small, VerySmall)))
  /\ (forall pre post : list Z,
         Z.of_nat (length pre) = 0x50004 -> length post = 2%nat ->
         Z.of_nat (length (pre ++ literal Literals.VenusC0000 ++ post)) = 0x50010
         /\ an_type (analyzeFirmware (pre ++ literal Literals.VenusC0000 ++ post))
            = EMS_Control_signature_found
         /\ an_type (analyzeFirmware (pre ++ repeat 0 10 ++ post))
            = Unknown_signature_area_empty).
Proof.
  split.
  - intros fw len window found verdict.
    assert (Ev : verdict = firmware_type fw).
    { unfold verdict, analyzeFirmware. now destruct (firmware_type fw). }
    rewrite Ev. unfold firmware_type. fold len window found.
    change (signatureOffset + 10) with threshold.
    unfold threshold, signatureOffset.
    split; [apply TextDecoder_includes_VenusC|].
    repeat split.
    + intros Hl Hf. apply Z.ltb_lt in Hl. now rewrite Hl, Hf.
    + intros Hl Hf Hd. apply Z.ltb_lt in Hl. apply hasData_true in Hd.
      now rewrite Hl, Hf, Hd.
    + intros Hl Hf Hd. apply Z.ltb_lt in Hl. apply hasData_false in Hd.
      now rewrite Hl, Hf, Hd.
    + intros Hl Hs. apply Z.ltb_ge in Hl. apply Z.leb_le in Hs. now rewrite Hl, Hs.
    + intros [Hlo Hhi].
      replace (327684 + 10 <? len) with false by (symmetry; apply Z.ltb_ge; lia).
      replace (32768 <=? len) with false by (symmetry; apply Z.leb_gt; lia).
      replace (1024 <=? len) with true by (symmetry; apply Z.leb_le; lia).
      reflexivity.
    + intros Hl.
      replace (327684 + 10 <? len) with false by (symmetry; apply Z.ltb_ge; lia).
      replace (32768 <=? len) with false by (symmetry; apply Z.leb_gt; lia).
      replace (1024 <=? len) with false by (symmetry; apply Z.leb_gt; lia).
      reflexivity.
  - intros pre post Hpre Hpost.
    assert (Hlen : forall w : list Z, length w = 10%nat ->
                     Z.of_nat (length (pre ++ w ++ post)) = 0x50010).
    { intros w Hw. rewrite !length_app, !Nat2Z.inj_add, Hpre, Hw, Hpost. reflexivity. }
    assert (Htype : forall w : list Z, length w = 10%nat ->
              an_type (analyzeFirmware (pre ++ w ++ post))
              = fst (if includes (TextDecoder_decode w) VenusC
                     then (EMS_Control_signature_found, NoWarning)
                     else if hasData w then (BMS_no_signature, NoWarning)
                          else (Unknown_signature_area_empty, NoWarning))).
    { intros w Hw. unfold analyzeFirmware, firmware_type.
      rewrite (signatureBytes_at pre w post Hpre Hw), (Hlen w Hw).
      change (signatureOffset + 10 <? 327696) with true. cbv iota.
      now destruct (includes (TextDecoder_decode w) VenusC); [|destruct (hasData w)]. }
    split; [now apply Hlen|]. split.
    + now rewrite Htype.
    + now rewrite Htype.
Qed.

(** A three-byte buffer, and a buffer of 0x50010 bytes carrying the
    signature. *)
Lemma analyzeFirmware_classification_witness :
  (Z.of_nat (length [1; 2; 3]) < 1024
   /\ (an_type (analyzeFirmware [1; 2; 3]), an_warning (analyzeFirmware [1; 2; 3]))
      = (Unknown_very_small, VerySmall))
  /\ (Z.of_nat (length (repeat 0 (Z.to_nat 0x50004))) = 0x50004
      /\ length [0; 0] = 2%nat
      /\ an_type (analyzeFirmware
                    (repeat 0 (Z.to_nat 0x50004) ++ literal Literals.VenusC0000 ++ [0; 0]))
         = EMS_Control_signature_found).
Proof.
  assert (H3 : Z.of_nat (length [1; 2; 3]) < 1024) by (simpl; lia).
  assert (Hpre : Z.of_nat (length (repeat 0 (Z.to_nat 0x50004))) = 0x50004)
    by (rewrite repeat_length; apply Z2Nat.id; lia).
  split.
  - split; [exact H3|].
    exact (proj2 (proj2 (proj2 (proj2 (proj2 (proj2
             (proj1 analyzeFirmware_classification [1; 2; 3])))))) H3).
  - split; [exact Hpre|]. split; [reflexivity|].
    exact (proj1 (proj2 (proj2 analyzeFirmware_classification
                           (repeat 0 (Z.to_nat 0x50004)) [0; 0] Hpre eq_refl))).
Defined.

(** ** The chunk transfer *)

Lemma chunk_index_lt fw (k : nat) :
  otaChunkSize * Z.of_nat k < Z.of_nat (length fw) <-> Z.of_nat k < totalChunks fw.
Proof.
  unfold totalChunks, otaChunkSize. split; intros H.
  - assert (Z.of_nat k + 1 <= (Z.of_nat (length fw) + 128 - 1) / 128); [|lia].
    apply Z.div_le_lower_bound; lia.
  - assert (128 * (Z.of_nat k + 1) <= Z.of_nat (length fw) + 128 - 1); [|lia].
    etransitivity; [|apply (Z.mul_div_le _ 128); lia].
    apply Z.mul_le_mono_nonneg_l; lia.
Qed.

Lemma totalChunks_le fw : 0 <= totalChunks fw <= Z.of_nat (length fw).
Proof.
  unfold totalChunks, otaChunkSize. split.
  - apply Z.div_pos; lia.
  - destruct (length fw) as [|n]; [reflexivity|].
    apply Z.div_le_upper_bound; lia.
Qed.

Lemma slice_window (fw : list Z) (a b : Z) :
  0 <= a <= b -> b <= Z.of_nat (length fw) ->
  JS.slice fw a b = firstn (Z.to_nat (b - a)) (skipn (Z.to_nat a) fw).
Proof.
  intros Ha Hb. unfold JS.slice.
  replace (a <? 0) with false by (symmetry; apply Z.ltb_ge; lia).
  replace (b <? 0) with false by (symmetry; apply Z.ltb_ge; lia).
  now rewrite !Z.min_l by lia.
Qed.

(** Chunk [k] of the plan carries [min(128, remaining)] bytes, and the next
    chunk starts where it ends. *)
Lemma planned_chunk_advances fw (k : nat) :
  Z.of_nat k < totalChunks fw ->
  Z.of_nat (length (sent_data (planned_chunk fw k)))
  = Z.min otaChunkSize (Z.of_nat (length fw) - sent_offset (planned_chunk fw k))
  /\ (Z.of_nat (S k) < totalChunks fw ->
      sent_offset (planned_chunk fw (S k))
      = sent_offset (planned_chunk fw k)
        + Z.of_nat (length (sent_data (planned_chunk fw k)))).
Proof.
  intros Hk. apply chunk_index_lt in Hk.
  assert (Hlen : Z.of_nat (length (sent_data (planned_chunk fw k)))
                 = Z.min otaChunkSize
                     (Z.of_nat (length fw) - sent_offset (planned_chunk fw k))).
  { cbn [planned_chunk sent_data sent_offset].
    rewrite length_firstn, length_skipn. unfold otaChunkSize in *. lia. }
  split; [exact Hlen|].
  intros Hk'. apply chunk_index_lt in Hk'. rewrite Hlen.
  cbn [planned_chunk sent_offset]. unfold otaChunkSize in *. lia.
Qed.

Lemma retry_loop_first_ok ok attempt c :
  ok attempt = true -> retry_loop 3 ok attempt c = (true, S attempt, [c]).
Proof. intros H. simpl. now rewrite H. Qed.

Lemma transfer_loop_all_ok ok fw :
  (forall n, ok n = true) ->
  forall fuel (k : nat) offset chunkIndex attempt,
    offset = Z.min (otaChunkSize * Z.of_nat k) (Z.of_nat (length fw)) ->
    chunkIndex = Z.of_nat k ->
    (Z.to_nat (totalChunks fw) - k <= fuel)%nat ->
    transfer_loop fuel ok fw otaChunkSize offset chunkIndex attempt
    = (TransferDone,
       map (planned_chunk fw) (seq k (Z.to_nat (totalChunks fw) - k))).
Proof.
  intros Hok fuel.
  induction fuel as [|fuel IH]; intros k offset chunkIndex attempt Hoff Hidx Hfuel.
  - pose proof (chunk_index_lt fw k) as Hk.
    assert (Hdone : Z.of_nat (length fw) <= otaChunkSize * Z.of_nat k) by lia.
    replace (Z.to_nat (totalChunks fw) - k)%nat with 0%nat by lia.
    simpl. replace (offset <? Z.of_nat (length fw)) with false
      by (symmetry; apply Z.ltb_ge; lia).
    reflexivity.
  - pose proof (chunk_index_lt fw k) as Hk.
    cbn [transfer_loop].
    destruct (Z.ltb_spec offset (Z.of_nat (length fw))) as [Hlt|Hge].
    + assert (Ho : offset = otaChunkSize * Z.of_nat k) by lia.
      assert (Hkt : Z.of_nat k < totalChunks fw) by (apply Hk; lia).
      rewrite retry_loop_first_ok by apply Hok.
      set (chunk := JS.slice fw offset
                      (Z.min (offset + otaChunkSize) (Z.of_nat (length fw)))).
      assert (Hchunk : chunk
                = firstn (Z.to_nat (Z.min otaChunkSize (Z.of_nat (length fw) - offset)))
                    (skipn (Z.to_nat offset) fw)).
      { unfold chunk. rewrite slice_window by (unfold otaChunkSize in *; lia).
        f_equal. lia. }
      assert (Hclen : Z.of_nat (length chunk)
                      = Z.min otaChunkSize (Z.of_nat (length fw) - offset)).
      { rewrite Hchunk, length_firstn, length_skipn. unfold otaChunkSize in *. lia. }
      rewrite (IH (S k) (offset + Z.of_nat (length chunk)) (chunkIndex + 1) (S attempt)).
      * replace (Z.to_nat (totalChunks fw) - k)%nat
          with (S (Z.to_nat (totalChunks fw) - S k)) by lia.
        cbn [seq map app]. f_equal. f_equal.
        unfold planned_chunk, chunkFrame, chunkPayload.
        rewrite le32_bytes, Hchunk, Ho, Hidx. reflexivity.
      * rewrite Hclen. unfold otaChunkSize in *. lia.
      * lia.
      * lia.
    + assert (Hdone : ~ Z.of_nat k < totalChunks fw) by (unfold otaChunkSize in *; lia).
      replace (Z.to_nat (totalChunks fw) - k)%nat with 0%nat by lia.
      reflexivity.
Qed.

(** C6.  When every chunk is acknowledged, the chunk loop ends and has sent
    exactly the planned chunks, one after the other: chunk [k] at offset
    [128 * k] with [min(128, remaining)] bytes, in an OTA frame of command
    0x51 and reserved byte 0x10 whose payload is the 4-byte little-endian
    offset followed by the chunk.  A 300-byte firmware gives 3 chunks at
    offsets 0, 128, 256 of sizes 128, 128, 44. *)
Theorem transferChunks_follows_plan :
  (forall (ok : nat -> bool) (fw : list Z),
      (forall n, ok n = true) ->
      transferChunks ok fw = (TransferDone, planned_transfer fw))
  /\ (forall (fw : list Z) (k : nat),
         Z.of_nat k < totalChunks fw ->
         Z.of_nat (length (sent_data (planned_chunk fw k)))
         = Z.min otaChunkSize (Z.of_nat (length fw) - sent_offset (planned_chunk fw k))
         /\ (Z.of_nat (S k) < totalChunks fw ->
             sent_offset (planned_chunk fw (S k))
             = sent_offset (planned_chunk fw k)
               + Z.of_nat (length (sent_data (planned_chunk fw k)))))
  /\ (forall (ok : nat -> bool) (fw : list Z),
         (forall n, ok n = true) ->
         length fw = 300%nat ->
         map sent_offset (snd (transferChunks ok fw)) = [0; 128; 256]
         /\ map (fun c => length (sent_data c)) (snd (transferChunks ok fw))
            = [128; 128; 44]%nat
         /\ map sent_index (snd (transferChunks ok fw)) = [1; 2; 3]).
Proof.
  assert (Hplan : forall ok fw, (forall n, ok n = true) ->
            transferChunks ok fw = (TransferDone, planned_transfer fw)).
  { intros ok fw Hok. unfold transferChunks, planned_transfer.
    rewrite (transfer_loop_all_ok ok fw Hok (length fw) 0 0 0 0).
    - now rewrite Nat.sub_0_r.
    - unfold otaChunkSize. lia.
    - reflexivity.
    - pose proof (totalChunks_le fw). lia. }
  split; [exact Hplan|]. split; [exact planned_chunk_advances|].
  intros ok fw Hok Hlen. rewrite (Hplan ok fw Hok). cbn [snd].
  unfold planned_transfer, totalChunks. rewrite Hlen.
  change (Z.to_nat ((Z.of_nat 300 + otaChunkSize - 1) / otaChunkSize)) with 3%nat.
  cbn [seq map planned_chunk sent_offset sent_data sent_index].
  rewrite !length_firstn, !length_skipn, Hlen.
  repeat split.
Qed.

(** A firmware of 300 zero bytes, every chunk acknowledged at once. *)
Lemma transferChunks_follows_plan_witness :
  (forall n : nat, (fun _ : nat => true) n = true)
  /\ length (repeat 0 300) = 300%nat
  /\ map sent_offset (snd (transferChunks (fun _ => true) (repeat 0 300))) = [0; 128; 256].
Proof.
  assert (Hok : forall n : nat, (fun _ : nat => true) n = true) by reflexivity.
  assert (Hlen : length (repeat 0 300) = 300%nat) by reflexivity.
  split; [exact Hok|]. split; [exact Hlen|].
  exact (proj1 (proj2 (proj2 transferChunks_follows_plan)
                  (fun _ => true) (repeat 0 300) Hok Hlen)).
Defined.

(** The retries of the loop, on a firmware of 300 bytes: when the second
    chunk is acknowledged only at its third attempt the transfer completes
    after five calls of [sendFirmwareChunk]; when it is never acknowledged
    the transfer fails at chunk 2, after the third attempt. *)
Example second_chunk_acknowledged_at_third_attempt :
  let ok := fun n => negb (Nat.eqb n 1 || Nat.eqb n 2) in
  let '(outcome, sent) := transferChunks ok (repeat 0 300) in
  outcome = TransferDone
  /\ map sent_offset sent = [0; 128; 128; 128; 256].
Proof. vm_compute. split; reflexivity. Qed.

Example second_chunk_never_acknowledged :
  let ok := fun n => Nat.eqb n 0 in
  let '(outcome, sent) := transferChunks ok (repeat 0 300) in
  outcome = TransferFailed 2
  /\ map sent_offset sent = [0; 128; 128; 128].
Proof. vm_compute. split; reflexivity. Qed.

(** ** The acknowledgment mailbox *)

Lemma deliver_without_waiter ack st :
  pendingAckResolve st = None -> deliver ack st = st.
Proof. unfold deliver. now intros ->. Qed.

Lemma handleNotification_slot_closed p vs value st :
  slot_closed p vs st -> slot_closed p vs (handleNotification value st).
Proof.
  intros [Hp Hc]. unfold handleNotification.
  destruct (parseNotification value) as [ack|e].
  - rewrite deliver_without_waiter by assumption. now split.
  - now split.
Qed.

Lemma run_due_slot_closed p vs now ts st :
  slot_closed p vs st -> slot_closed p vs (run_due now ts st).
Proof.
  revert st. induction ts as [|t ts IH]; intros st [Hp Hc]; simpl.
  - now split.
  - destruct (due t <=? now); [|now split].
    apply IH. destruct (action t) as [q]. simpl. rewrite Hp. now split.
Qed.

Lemma elapse_slot_closed p vs ms st :
  slot_closed p vs st -> slot_closed p vs (elapse ms st).
Proof. intros [Hp Hc]. unfold elapse. apply run_due_slot_closed. now split. Qed.

Lemma run_slot_closed p vs l st :
  slot_closed p vs st -> slot_closed p vs (run l st).
Proof.
  unfold run. revert st. induction l as [|s l IH]; intros st H; simpl; [assumption|].
  apply IH.
  destruct s; [now apply handleNotification_slot_closed | now apply elapse_slot_closed].
Qed.

(** A wait with no older timer around: an acknowledgment that arrives before
    the timeout resolves it once, and nothing that follows resolves it
    again. *)
Lemma lone_wait_acknowledged expected ms dt value ack l :
  0 <= dt < ms ->
  parseNotification value = Ok ack ->
  calls_of 0
    (run l (handleNotification value (elapse dt (snd (waitForAck expected ms initial)))))
  = [if ack_cmd ack =? expected then AckOk ack
     else UnexpectedCmd expected (ack_cmd ack)].
Proof.
  intros Hdt Hparse.
  apply (run_slot_closed 0). unfold handleNotification. rewrite Hparse.
  unfold waitForAck, elapse. cbn.
  replace (ms <=? dt) with false by (symmetry; apply Z.leb_gt; lia).
  unfold deliver, call_pendingAckResolve. cbn.
  destruct (ack_cmd ack =? expected); split; reflexivity.
Qed.

(** A wait with no older timer around and no acknowledgment: it resolves
    once, with the timeout failure, when the time has passed. *)
Lemma lone_wait_times_out expected ms l :
  0 <= ms ->
  calls_of 0 (run l (elapse ms (snd (waitForAck expected ms initial)))) = [Timeout].
Proof.
  intros Hms. apply (run_slot_closed 0).
  unfold waitForAck, elapse. cbn. rewrite Z.leb_refl. split; reflexivity.
Qed.

(** Two sequential waits at any timing: whenever the first wait is
    acknowledged in time and a second wait is registered before the first
    timer is due, with a timer of its own that is not due earlier, the first
    timer takes the second wait's slot and the second wait is never
    resolved. *)
Lemma stale_timer_starves_next_wait expected ms dt1 dt2 value ack expected2 ms2 :
  0 <= dt1 -> 0 <= dt2 -> dt1 + dt2 < ms ->
  ms <= dt1 + dt2 + ms2 ->
  parseNotification value = Ok ack ->
  let acked :=
    handleNotification value (elapse dt1 (snd (waitForAck expected ms initial))) in
  let waiting := waitForAck expected2 ms2 (elapse dt2 acked) in
  let st := elapse (ms - dt1 - dt2) (snd waiting) in
  fst waiting = 1%nat
  /\ clock st = ms
  /\ forall l : list Stimulus, settled 1 (run l st) = None.
Proof.
  intros H1 H2 Hlt Hle Hparse acked waiting st.
  assert (Hclosed : fst waiting = 1%nat /\ clock st = ms /\ slot_closed 1 [] st).
  { set (v := if ack_cmd ack =? expected then AckOk ack
              else UnexpectedCmd expected (ack_cmd ack)).
    set (t0 := mkTimer ms (AckTimeout 0)).
    set (t1 := mkTimer (dt1 + dt2 + ms2) (AckTimeout 1)).
    assert (E1 : snd (waitForAck expected ms initial)
                 = mkEngine 0 1 [] (Some (mkResolver expected 0)) None None [t0] [] [])
      by reflexivity.
    assert (E2 : elapse dt1 (snd (waitForAck expected ms initial))
                 = mkEngine dt1 1 [] (Some (mkResolver expected 0)) None None [t0] [] []).
    { rewrite E1. unfold elapse. cbn -[Z.leb Z.add].
      rewrite Z.add_0_l.
      replace (ms <=? dt1) with false by (symmetry; apply Z.leb_gt; lia).
      reflexivity. }
    assert (E3 : acked
                 = mkEngine dt1 1 [(0%nat, v)] None None None [t0] []
                     [LogReceivedAck ack]).
    { unfold acked, handleNotification. rewrite Hparse, E2.
      unfold deliver, call_pendingAckResolve, v. cbn -[Z.eqb].
      now destruct (ack_cmd ack =? expected). }
    assert (E4 : elapse dt2 acked
                 = mkEngine (dt1 + dt2) 1 [(0%nat, v)] None None None [t0] []
                     [LogReceivedAck ack]).
    { rewrite E3. unfold elapse. cbn -[Z.leb Z.add].
      replace (ms <=? dt1 + dt2) with false by (symmetry; apply Z.leb_gt; lia).
      reflexivity. }
    assert (E5 : snd waiting
                 = mkEngine (dt1 + dt2) 2 [(0%nat, v)] (Some (mkResolver expected2 1))
                     None None [t0; t1] [] [LogReceivedAck ack]).
    { unfold waiting. rewrite E4. unfold waitForAck, setTimeout.
      cbn -[Z.ltb Z.add].
      replace (dt1 + dt2 + ms2 <? ms) with false by (symmetry; apply Z.ltb_ge; lia).
      reflexivity. }
    split; [unfold waiting; now rewrite E4|].
    unfold st. rewrite E5. unfold elapse. cbn -[Z.leb Z.add Z.sub].
    replace (dt1 + dt2 + (ms - dt1 - dt2)) with ms by lia.
    rewrite Z.leb_refl. cbn -[Z.leb Z.add Z.sub].
    destruct (dt1 + dt2 + ms2 <=? ms); cbn; repeat split. }
  destruct Hclosed as (Hfst & Hclock & Hclosed).
  split; [exact Hfst|]. split; [exact Hclock|].
  intros l. unfold settled.
  destruct (run_slot_closed 1 [] l st Hclosed) as [_ Hc]. now rewrite Hc.
Qed.

(** C2.  Two sequential waits for command 0x51 with a 1500 ms timeout, the
    second registered after the first has resolved with its acknowledgment.
    When the clock reaches 1500 ms the timer of the first wait finds the slot
    occupied (by the second wait), empties it and calls the first promise's
    resolve once more, which has no effect.  From then on the second wait is
    never resolved: not by its own timer, not by its acknowledgment, not by
    anything that arrives later. *)
Theorem second_wait_never_resolves :
  fst first_wait = 0%nat
  /\ settled 0 first_acked = Some (AckOk (mkAck 0x51 0x10 [0; 0; 0; 0]))
  /\ pendingAckResolve first_acked = None
  /\ fst second_wait = 1%nat
  /\ pendingAckResolve (snd second_wait) = Some (mkResolver 0x51 1)
  /\ clock stale_timer_fired = 1500
  /\ calls_of 0 stale_timer_fired = [AckOk (mkAck 0x51 0x10 [0; 0; 0; 0]); Timeout]
  /\ pendingAckResolve stale_timer_fired = None
  /\ (forall l : list Stimulus, settled 1 (run l stale_timer_fired) = None)
  /\ settled 1 (run [Elapse 100000] stale_timer_fired) = None
  /\ settled 1 (run [Notification chunk_ack] stale_timer_fired) = None.
Proof.
  assert (Hlost : forall l, settled 1 (run l stale_timer_fired) = None).
  { intros l. unfold settled.
    destruct (run_slot_closed 1 [] l stale_timer_fired) as [_ Hc];
      [split; reflexivity | now rewrite Hc]. }
  repeat split; try reflexivity; apply Hlost.
Qed.

(** ** The notification router *)

Lemma index_is_functional v i a b :
  JS.index_is v i a = true -> JS.index_is v i b = true -> a = b.
Proof. rewrite !index_is_true. congruence. Qed.

Lemma looks_like_ota_ack_fields value :
  looks_like_ota_ack value = true ->
  6 <= Z.of_nat (length value)
  /\ JS.index_is value 0 0x73 = true
  /\ 5 < declaredLength value
  /\ JS.index_is value 3 0xFF = true
  /\ JS.index_is value 4 0x01 = true.
Proof.
  unfold looks_like_ota_ack.
  destruct ((6 <=? Z.of_nat (length value)) && JS.index_is value 0 0x73) eqn:E;
    [|discriminate].
  apply andb_true_iff in E. destruct E as [E1 E2].
  intros H. apply andb_true_iff in H. destruct H as [H H3].
  apply andb_true_iff in H. destruct H as [H1 H2].
  apply Z.leb_le in E1. apply Z.ltb_lt in H1. auto.
Qed.

Lemma ota_ack_is_no_activation_reply value st :
  looks_like_ota_ack value = true -> activation_waiter value st = None.
Proof.
  intros H. apply looks_like_ota_ack_fields in H. destruct H as (_ & _ & _ & H3 & _).
  unfold activation_waiter. destruct (otaActivationResolve st); [|reflexivity].
  destruct (JS.index_is value 3 0x1F) eqn:E.
  - pose proof (index_is_functional value 3 _ _ H3 E). discriminate.
  - now rewrite !andb_false_r.
Qed.

(** * More properties *)

(** ** Checksums of whole frames *)

Lemma calculateXORChecksum_bytes l : bytes l -> calculateXORChecksum l = xor_bytes l.
Proof.
  intros Hl. unfold calculateXORChecksum, xor_bytes.
  apply fold_bxor_bytes; auto with bytes.
Qed.

Lemma xor_bytes_snoc_self l : xor_bytes (l ++ [xor_bytes l]) = 0.
Proof.
  rewrite xor_bytes_app, (xor_bytes_cons _ []).
  change (xor_bytes []) with 0. rewrite Z.lxor_0_r. apply Z.lxor_nilpotent.
Qed.

(** The frame of [createCommandMessage], as a helper for what follows. *)
Lemma createCommandMessage_layout cmd payload :
  is_byte cmd ->
  bytes (payload_or_empty payload) ->
  let p := payload_or_empty payload in
  let body := [0x73; (5 + Z.of_nat (length p)) mod 256; 0x23; cmd] ++ p in
  createCommandMessage cmd payload = body ++ [xor_bytes body] /\ bytes body.
Proof.
  intros Hc Hp p body.
  assert (Hb : bytes body) by (unfold body; auto 10 with bytes).
  split; [|exact Hb].
  unfold createCommandMessage. fold p. rewrite Uint8Array_with_checksum.
  replace (JS.Uint8Array _) with body; [reflexivity|].
  rewrite Uint8Array_app, (Uint8Array_bytes p Hp).
  unfold body. f_equal.
  cbn [set_index firstn skipn app length JS.Uint8Array map].
  rewrite (to_uint8_byte cmd Hc).
  replace (Z.of_nat 4 + Z.of_nat (length p) + 1) with (5 + Z.of_nat (length p)) by lia.
  reflexivity.
Qed.

(** X1.  The XOR of all bytes of a Standard frame and of an OTA frame,
    checksum included, is 0: [calculateXORChecksum] of what
    [createCommandMessage] or [createBLEOTAFrame] returns is 0, for every
    command byte and payload. *)
Theorem whole_frame_xor_is_zero (cmd reserved : Z) (payload : list Z) :
  is_byte cmd -> is_byte reserved -> bytes payload ->
  calculateXORChecksum (createCommandMessage cmd (Some payload)) = 0
  /\ calculateXORChecksum (createCommandMessage cmd None) = 0
  /\ calculateXORChecksum (createBLEOTAFrame cmd reserved payload) = 0.
Proof.
  intros Hc Hr Hp.
  assert (Hstd : forall q, bytes (payload_or_empty q) ->
                   calculateXORChecksum (createCommandMessage cmd q) = 0).
  { intros q Hq. destruct (createCommandMessage_layout cmd q Hc Hq) as [E Hb].
    rewrite E, calculateXORChecksum_bytes.
    - apply xor_bytes_snoc_self.
    - auto using xor_bytes_is_byte with bytes. }
  split; [now apply Hstd|]. split; [apply Hstd; apply bytes_nil|].
  rewrite createBLEOTAFrame_layout by assumption.
  pose proof (ota_body_bytes cmd reserved payload Hc Hr Hp) as Hb.
  rewrite calculateXORChecksum_bytes by auto using xor_bytes_is_byte with bytes.
  apply xor_bytes_snoc_self.
Qed.

Lemma whole_frame_xor_is_zero_witness :
  is_byte 0x1F /\ is_byte 0x10 /\ bytes [0x0A; 0x0B; 0x0C]
  /\ calculateXORChecksum (createCommandMessage 0x1F (Some [0x0A; 0x0B; 0x0C])) = 0.
Proof.
  assert (Hc : is_byte 0x1F) by auto with bytes.
  assert (Hr : is_byte 0x10) by auto with bytes.
  assert (Hp : bytes [0x0A; 0x0B; 0x0C]) by auto with bytes.
  split; [exact Hc|]. split; [exact Hr|]. split; [exact Hp|].
  exact (proj1 (whole_frame_xor_is_zero 0x1F 0x10 [0x0A; 0x0B; 0x0C] Hc Hr Hp)).
Defined.

(** ** The HM frame *)

Lemma partial_checksum cmd p :
  is_byte cmd -> bytes p ->
  JS.to_uint8 (fold_left JS.bxor p (JS.bxor 0x23 cmd)) = xor_bytes (0x23 :: cmd :: p).
Proof.
  intros Hc Hp.
  rewrite fold_bxor_to_uint8, to_uint8_bxor.
  fold (JS.Uint8Array p). rewrite (Uint8Array_bytes p Hp), (to_uint8_byte cmd Hc).
  reflexivity.
Qed.

Lemma createMeterIPMessage_layout cmd payload :
  is_byte cmd ->
  bytes (payload_or_empty payload) ->
  let p := payload_or_empty payload in
  createMeterIPMessage cmd payload
  = [0x73; (4 + Z.of_nat (length p)) mod 256; 0x23; cmd] ++ p
    ++ [xor_bytes (0x23 :: cmd :: p)].
Proof.
  intros Hc Hp p. unfold createMeterIPMessage, IDENTIFIER_BYTE, START_BYTE. fold p.
  rewrite !Uint8Array_app, (Uint8Array_bytes p Hp).
  cbn [JS.Uint8Array map]. rewrite (to_uint8_byte cmd Hc), (partial_checksum cmd p Hc Hp).
  reflexivity.
Qed.

Lemma createHMFrame_layout cmd p :
  is_byte cmd -> bytes p ->
  createHMFrame cmd p
  = [0x73; (2 + Z.of_nat (length p)) mod 256; 0x23; cmd] ++ p
    ++ [xor_bytes (0x23 :: cmd :: p)].
Proof.
  intros Hc Hp. unfold createHMFrame.
  rewrite !Uint8Array_app, (Uint8Array_bytes p Hp).
  cbn [JS.Uint8Array map app]. rewrite (to_uint8_byte cmd Hc), (partial_checksum cmd p Hc Hp).
  reflexivity.
Qed.

(** X2.  [createHMFrame] returns [0x73][len][0x23][cmd][payload...][xor] with
    [len] = 2 plus the payload length (stored modulo 256) and [xor] the XOR of
    0x23, the command and the payload.  It is the frame of
    [createMeterIPMessage] for the same command and payload with another
    length byte: the two frames have the same number of bytes and agree
    everywhere but at index 1. *)
Theorem createHMFrame_frame (cmd : Z) (payload : list Z) :
  is_byte cmd -> bytes payload ->
  let n := Z.of_nat (length payload) in
  createHMFrame cmd payload
  = [0x73; (2 + n) mod 256; 0x23; cmd] ++ payload ++ [xor_bytes (0x23 :: cmd :: payload)]
  /\ length (createHMFrame cmd payload) = (length payload + 5)%nat
  /\ createMeterIPMessage cmd (Some payload)
     = set_index (createHMFrame cmd payload) 1 ((4 + n) mod 256)
  /\ (forall i, i <> 1%nat ->
        nth_error (createHMFrame cmd payload) i
        = nth_error (createMeterIPMessage cmd (Some payload)) i).
Proof.
  intros Hc Hp n.
  pose proof (createHMFrame_layout cmd payload Hc Hp) as Eh.
  pose proof (createMeterIPMessage_layout cmd (Some payload) Hc Hp) as Em.
  cbn [payload_or_empty] in Em. cbv zeta in Em. fold n in Eh, Em.
  split; [exact Eh|]. rewrite Eh, Em.
  split; [|split].
  - cbn [app length]. rewrite length_app. cbn [length]. lia.
  - reflexivity.
  - intros [|[|i]] Hi; [reflexivity | contradiction | reflexivity].
Qed.

Lemma createHMFrame_frame_witness :
  is_byte 0x1F /\ bytes [0x0A; 0x0B; 0x0C]
  /\ createHMFrame 0x1F [0x0A; 0x0B; 0x0C]
     = [0x73; 5; 0x23; 0x1F; 0x0A; 0x0B; 0x0C; 0x31].
Proof.
  assert (Hc : is_byte 0x1F) by auto with bytes.
  assert (Hp : bytes [0x0A; 0x0B; 0x0C]) by auto with bytes.
  split; [exact Hc|]. split; [exact Hp|].
  exact (proj1 (createHMFrame_frame 0x1F [0x0A; 0x0B; 0x0C] Hc Hp)).
Defined.

(** X3.  A Meter-IP frame and an HM frame do not XOR to 0 as a whole: the
    checksum leaves out the header and the length byte, so
    [calculateXORChecksum] of the complete frame is 0x73 XOR the length byte,
    which is 0 only for the length byte 0x73. *)
Theorem partial_scope_frame_xor (cmd : Z) (payload : list Z) :
  is_byte cmd -> bytes payload ->
  let n := Z.of_nat (length payload) in
  calculateXORChecksum (createMeterIPMessage cmd (Some payload))
  = Z.lxor 0x73 ((4 + n) mod 256)
  /\ calculateXORChecksum (createHMFrame cmd payload)
     = Z.lxor 0x73 ((2 + n) mod 256)
  /\ (calculateXORChecksum (createMeterIPMessage cmd (Some payload)) = 0
      <-> (4 + n) mod 256 = 0x73).
Proof.
  intros Hc Hp n.
  assert (Hx : forall len, is_byte len ->
            let f := [0x73; len; 0x23; cmd] ++ payload
                     ++ [xor_bytes (0x23 :: cmd :: payload)] in
            calculateXORChecksum f = Z.lxor 0x73 len).
  { intros len Hl f.
    assert (Hf : bytes f).
    { unfold f. auto 10 using xor_bytes_is_byte with bytes. }
    rewrite (calculateXORChecksum_bytes f Hf). unfold f.
    change ([0x73; len; 0x23; cmd] ++ payload ++ [xor_bytes (0x23 :: cmd :: payload)])
      with (0x73 :: len :: ((0x23 :: cmd :: payload)
                            ++ [xor_bytes (0x23 :: cmd :: payload)])).
    rewrite (xor_bytes_cons 0x73), (xor_bytes_cons len), xor_bytes_snoc_self.
    now rewrite Z.lxor_0_r. }
  pose proof (createHMFrame_layout cmd payload Hc Hp) as Eh.
  pose proof (createMeterIPMessage_layout cmd (Some payload) Hc Hp) as Em.
  cbn [payload_or_empty] in Em. cbv zeta in Em. fold n in Eh, Em.
  rewrite Eh, Em, !Hx by auto with bytes.
  split; [reflexivity|]. split; [reflexivity|].
  rewrite Z.lxor_eq_0_iff. split; congruence.
Qed.

Lemma partial_scope_frame_xor_witness :
  is_byte 0x21 /\ bytes [1; 2]
  /\ calculateXORChecksum (createMeterIPMessage 0x21 (Some [1; 2])) = 0x75.
Proof.
  assert (Hc : is_byte 0x21) by auto with bytes.
  assert (Hp : bytes [1; 2]) by auto with bytes.
  split; [exact Hc|]. split; [exact Hp|].
  exact (proj1 (partial_scope_frame_xor 0x21 [1; 2] Hc Hp)).
Defined.

(** ** What the decoder accepts *)

Lemma parseNotification_Ok_inv value a :
  bytes value ->
  parseNotification value = Ok a ->
  (6 <= length value)%nat
  /\ nth_error value 0 = Some 0x73
  /\ nth 1 value 0 + 256 * nth 2 value 0 = Z.of_nat (length value)
  /\ xor_bytes (removelast value) = last value 0
  /\ a = mkAck (nth 3 value 0) (nth 4 value 0)
           (firstn (length value - 6) (skipn 5 value)).
Proof.
  intros Hv. unfold parseNotification.
  rewrite (declaredLength_bytes value Hv), (xor_all_but_last_bytes value Hv),
    last_byte_last, !index_num_nth.
  destruct (Z.ltb_spec (Z.of_nat (length value)) 6) as [Hl|Hl]; [discriminate|].
  destruct (JS.index_is value 0 0x73) eqn:Eh; [|discriminate].
  cbn [orb negb].
  destruct (Z.eqb_spec (nth 1 value 0 + 256 * nth 2 value 0) (Z.of_nat (length value)))
    as [Hd|Hd]; [|discriminate].
  destruct (Z.eqb_spec (xor_bytes (removelast value)) (last value 0)) as [Hx|Hx];
    [|discriminate].
  cbn [negb]. intros E. inversion E.
  rewrite slice_payload by lia.
  apply index_is_true in Eh. repeat split; try assumption. lia.
Qed.

Lemma rejected_is_error value :
  (forall a, parseNotification value <> Ok a) -> exists e, parseNotification value = Err e.
Proof.
  intros H. destruct (parseNotification value) as [a|e]; [now destruct (H a) | now exists e].
Qed.

Lemma removelast_cons (b c : Z) (l : list Z) :
  removelast (b :: c :: l) = b :: removelast (c :: l).
Proof. reflexivity. Qed.

Lemma firstn_pred_removelast (l : list Z) :
  firstn (length l - 1) l = removelast l.
Proof. rewrite removelast_firstn_len. f_equal. lia. Qed.

(** X4.  The decoder accepts exactly the frames
    [0x73][lenLo][lenHi][cmd][reserved][payload...][xor] whose 16-bit
    little-endian length field is the byte count of the whole frame and whose
    last byte is the XOR of all bytes before it, and it returns their [cmd],
    [reserved] and [payload]: decoding is one-to-one between accepted frames
    and acknowledgments. *)
Theorem parseNotification_accepts_exactly (value : list Z) (a : Ack) :
  bytes value ->
  parseNotification value = Ok a
  <-> value = ack_frame (ack_cmd a) (ack_reserved a) (ack_payload a)
      /\ Z.of_nat (length (ack_payload a)) <= 65529.
Proof.
  intros Hv. split.
  - intros Hok.
    destruct (parseNotification_Ok_inv value a Hv Hok) as (Hlen & Hhead & Hdecl & Hxor & Ea).
    destruct value as [|v0 value]; [simpl in Hlen; lia|].
    destruct value as [|v1 value]; [simpl in Hlen; lia|].
    destruct value as [|v2 value]; [simpl in Hlen; lia|].
    destruct value as [|v3 value]; [simpl in Hlen; lia|].
    destruct value as [|v4 value]; [simpl in Hlen; lia|].
    destruct value as [|v5 rest]; [simpl in Hlen; lia|].
    rewrite !removelast_cons in Hxor.
    change (last (v0 :: v1 :: v2 :: v3 :: v4 :: v5 :: rest) 0)
      with (last (v5 :: rest) 0) in Hxor.
    set (tail := v5 :: rest) in *.
    assert (Htail : tail <> []) by discriminate.
    cbn [nth_error] in Hhead. injection Hhead as ->.
    cbn [nth] in Hdecl, Ea. cbn [skipn length] in Ea.
    replace (S (S (S (S (S (length tail))))) - 6)%nat with (length tail - 1)%nat in Ea by lia.
    rewrite firstn_pred_removelast in Ea. subst a. cbn [ack_cmd ack_reserved ack_payload].
    assert (Hbz : is_byte v1 /\ is_byte v2).
    { unfold bytes in Hv. inversion Hv as [|? ? _ Hv1]; subst.
      inversion Hv1 as [|? ? Hz Hv2]; subst. inversion Hv2; subst. now split. }
    destruct Hbz as [Hz Hz0]. unfold is_byte in Hz, Hz0.
    assert (Hl : Z.of_nat (length (removelast tail)) + 6
                 = Z.of_nat (length (115 :: v1 :: v2 :: v3 :: v4 :: tail))).
    { rewrite (app_removelast_last 0 Htail) at 2. cbn [length].
      rewrite length_app. cbn [length]. lia. }
    split; [|lia].
    unfold ack_frame. rewrite Hl, <- Hdecl.
    replace ((v1 + 256 * v2) mod 256) with v1
      by (apply (Z.mod_unique (v1 + 256 * v2) 256 v2 v1); lia).
    replace ((v1 + 256 * v2) / 256) with v2
      by (apply (Z.div_unique (v1 + 256 * v2) 256 v2 v1); lia).
    cbn [app]. do 5 f_equal.
    rewrite (app_removelast_last 0 Htail) at 1. do 2 f_equal.
    now rewrite <- Hxor.
  - intros [E Hn]. rewrite E.
    assert (Hf : bytes (ack_frame (ack_cmd a) (ack_reserved a) (ack_payload a)))
      by now rewrite <- E.
    unfold ack_frame, bytes in Hf. cbn [app] in Hf.
    inversion Hf as [|? ? _ H1]; subst. inversion H1 as [|? ? _ H2]; subst.
    inversion H2 as [|? ? _ H3]; subst. inversion H3 as [|? ? Hc H4]; subst.
    inversion H4 as [|? ? Hr H5]; subst.
    apply Forall_app in H5. destruct H5 as [Hp _].
    destruct a as [c r p]. cbn [ack_cmd ack_reserved ack_payload] in *.
    now apply ack_frame_decodes.
Qed.

Lemma parseNotification_accepts_exactly_witness :
  bytes chunk_ack
  /\ parseNotification chunk_ack = Ok (mkAck 0x51 0x10 [0; 0; 0; 0]).
Proof.
  assert (Hv : bytes chunk_ack) by (unfold chunk_ack; auto 12 with bytes).
  split; [exact Hv|].
  apply (proj2 (parseNotification_accepts_exactly chunk_ack
                  (mkAck 0x51 0x10 [0; 0; 0; 0]) Hv)).
  split; [reflexivity | simpl; lia].
Defined.

(** ** Corrupted frames *)

(** The decoder on a byte sequence, with the JavaScript operators computed. *)
Lemma parseNotification_eval value :
  bytes value ->
  parseNotification value
  = if (Z.of_nat (length value) <? 6) || negb (JS.index_is value 0 0x73) then
      Err BadNotificationHeader
    else if negb (nth 1 value 0 + 256 * nth 2 value 0 =? Z.of_nat (length value)) then
      Err (LengthMismatch (nth 1 value 0 + 256 * nth 2 value 0) (Z.of_nat (length value)))
    else if negb (xor_bytes (removelast value) =? last value 0) then
      Err (BadXORChecksum (xor_bytes (removelast value)) (last value 0))
    else Ok (mkAck (nth 3 value 0) (nth 4 value 0) (JS.slice value 5 (-1))).
Proof.
  intros Hv. unfold parseNotification.
  now rewrite (declaredLength_bytes value Hv), (xor_all_but_last_bytes value Hv),
    last_byte_last, !index_num_nth.
Qed.

Lemma set_index_length (l : list Z) i b :
  (i < length l)%nat -> length (set_index l i b) = length l.
Proof.
  intros Hi. unfold set_index. rewrite length_app. cbn [length].
  rewrite length_firstn, length_skipn. lia.
Qed.

Lemma set_index_bytes l i b : bytes l -> is_byte b -> bytes (set_index l i b).
Proof.
  intros Hl Hb. unfold set_index.
  auto using bytes_firstn, bytes_skipn with bytes.
Qed.

Lemma split_at (l : list Z) i :
  (i < length l)%nat -> l = firstn i l ++ nth i l 0 :: skipn (S i) l.
Proof.
  revert i. induction l as [|c l IH]; intros i Hi; [simpl in Hi; lia|].
  destruct i as [|i]; [reflexivity|].
  cbn [firstn nth skipn app]. f_equal. apply IH. simpl in Hi. lia.
Qed.

Lemma set_index_nth_same (l : list Z) i b :
  (i < length l)%nat -> nth i (set_index l i b) 0 = b.
Proof.
  intros Hi. unfold set_index.
  rewrite app_nth2; rewrite length_firstn; [|lia].
  replace (i - Nat.min i (length l))%nat with 0%nat by lia. reflexivity.
Qed.

Lemma set_index_nth_other (l : list Z) i j b :
  (i < length l)%nat -> i <> j -> nth j (set_index l i b) 0 = nth j l 0.
Proof.
  intros Hi Hij. rewrite (split_at l i Hi) at 2. unfold set_index.
  destruct (Nat.lt_ge_cases j i) as [Hlt|Hge].
  - rewrite !app_nth1 by (rewrite length_firstn; lia). reflexivity.
  - rewrite !app_nth2 by (rewrite length_firstn; lia).
    rewrite length_firstn.
    replace (j - Nat.min i (length l))%nat with (S (j - i - 1)) by lia.
    reflexivity.
Qed.

Lemma xor_bytes_set_index l i b :
  (i < length l)%nat ->
  xor_bytes (set_index l i b) = Z.lxor (xor_bytes l) (Z.lxor (nth i l 0) b).
Proof.
  intros Hi. rewrite (split_at l i Hi) at 2. unfold set_index.
  rewrite !xor_bytes_app, !xor_bytes_cons.
  set (x := xor_bytes (firstn i l)). set (y := xor_bytes (skipn (S i) l)).
  set (o := nth i l 0).
  apply Z.bits_inj'. intros k Hk. rewrite !Z.lxor_spec.
  destruct (Z.testbit x k), (Z.testbit y k), (Z.testbit o k), (Z.testbit b k);
    reflexivity.
Qed.

(** The checksum test, said of the whole frame. *)
Lemma checksum_test_whole (v : list Z) :
  v <> [] -> (xor_bytes (removelast v) = last v 0 <-> xor_bytes v = 0).
Proof.
  intros Hv. rewrite (app_removelast_last 0 Hv) at 3.
  rewrite xor_bytes_app, (xor_bytes_cons _ []).
  change (xor_bytes []) with 0. rewrite Z.lxor_0_r.
  apply iff_sym, Z.lxor_eq_0_iff.
Qed.

Lemma index_is_nth v i k :
  (i < length v)%nat -> JS.index_is v i k = (nth i v 0 =? k).
Proof.
  intros Hi. unfold JS.index_is, JS.index.
  rewrite (nth_error_nth' v 0 Hi). reflexivity.
Qed.

(** X5.  Changing one byte of a frame the decoder accepts makes the decoder
    reject it: at index 0 with the header error, at index 1 or 2 with a
    length mismatch, anywhere else with a checksum mismatch. *)
Theorem one_byte_corruption_is_rejected (value : list Z) (a : Ack) (i : nat) (b : Z) :
  bytes value ->
  parseNotification value = Ok a ->
  (i < length value)%nat ->
  is_byte b ->
  b <> nth i value 0 ->
  exists e,
    parseNotification (set_index value i b) = Err e
    /\ (i = 0%nat -> e = BadNotificationHeader)
    /\ (i = 1%nat \/ i = 2%nat -> exists d, e = LengthMismatch d (Z.of_nat (length value)))
    /\ ((3 <= i)%nat -> exists x g, e = BadXORChecksum x g).
Proof.
  intros Hv Hok Hi Hb Hne.
  destruct (parseNotification_Ok_inv value a Hv Hok) as (Hlen & Hhead & Hdecl & Hxor & _).
  set (v' := set_index value i b).
  assert (Hv' : bytes v') by now apply set_index_bytes.
  assert (Hl' : length v' = length value) by now apply set_index_length.
  assert (Hne' : v' <> []) by (intros E; rewrite E in Hl'; simpl in Hl'; lia).
  assert (Hnv : value <> []) by (intros E; rewrite E in Hlen; simpl in Hlen; lia).
  assert (Hh0 : nth 0 value 0 = 0x73).
  { destruct value; [discriminate | now injection Hhead]. }
  rewrite (parseNotification_eval v' Hv'), Hl'.
  replace (Z.of_nat (length value) <? 6) with false by (symmetry; apply Z.ltb_ge; lia).
  rewrite (index_is_nth v' 0 0x73) by lia. cbn [orb].
  assert (Hsame : forall j, i <> j -> nth j v' 0 = nth j value 0)
    by (intros j Hj; now apply set_index_nth_other).
  assert (Hat : nth i v' 0 = b) by now apply set_index_nth_same.
  assert (Hbi : is_byte (nth i value 0)) by now apply nth_is_byte.
  unfold is_byte in Hb, Hbi.
  destruct (Nat.eq_dec i 0) as [->|H0].
  { rewrite Hat. replace (b =? 115) with false by (symmetry; apply Z.eqb_neq; lia).
    exists BadNotificationHeader. repeat split; intros; try lia; reflexivity. }
  rewrite (Hsame 0%nat H0), Hh0. cbn [Z.eqb Pos.eqb negb].
  destruct (Nat.eq_dec i 1) as [->|H1].
  { rewrite Hat, (Hsame 2%nat) by lia.
    replace (b + 256 * nth 2 value 0 =? Z.of_nat (length value)) with false
      by (symmetry; apply Z.eqb_neq; lia).
    eexists. split; [reflexivity|].
    repeat split; intros; try lia; try discriminate. eexists; reflexivity. }
  destruct (Nat.eq_dec i 2) as [->|H2].
  { rewrite Hat, (Hsame 1%nat) by lia.
    replace (nth 1 value 0 + 256 * b =? Z.of_nat (length value)) with false
      by (symmetry; apply Z.eqb_neq; lia).
    eexists. split; [reflexivity|].
    repeat split; intros; try lia; try discriminate. eexists; reflexivity. }
  rewrite (Hsame 1%nat), (Hsame 2%nat), Hdecl, Z.eqb_refl by lia. cbn [negb].
  assert (Hbad : xor_bytes (removelast v') <> last v' 0).
  { rewrite (checksum_test_whole v' Hne'). unfold v'.
    rewrite xor_bytes_set_index by assumption.
    apply (checksum_test_whole value Hnv) in Hxor. rewrite Hxor, Z.lxor_0_l.
    rewrite Z.lxor_eq_0_iff. congruence. }
  apply Z.eqb_neq in Hbad. rewrite Hbad. cbn [negb].
  eexists. split; [reflexivity|].
  repeat split; intros; try lia. do 2 eexists; reflexivity.
Qed.

Lemma one_byte_corruption_is_rejected_witness :
  bytes chunk_ack
  /\ parseNotification chunk_ack = Ok (mkAck 0x51 0x10 [0; 0; 0; 0])
  /\ (5 < length chunk_ack)%nat /\ is_byte 1 /\ 1 <> nth 5 chunk_ack 0
  /\ exists e, parseNotification (set_index chunk_ack 5 1) = Err e.
Proof.
  assert (Hv : bytes chunk_ack) by (unfold chunk_ack; auto 12 with bytes).
  assert (Hok : parseNotification chunk_ack = Ok (mkAck 0x51 0x10 [0; 0; 0; 0]))
    by reflexivity.
  assert (Hi : (5 < length chunk_ack)%nat) by (simpl; lia).
  assert (Hb : is_byte 1) by auto with bytes.
  assert (Hne : 1 <> nth 5 chunk_ack 0) by (simpl; lia).
  split; [exact Hv|]. split; [exact Hok|]. split; [exact Hi|].
  split; [exact Hb|]. split; [exact Hne|].
  destruct (one_byte_corruption_is_rejected chunk_ack _ 5 1 Hv Hok Hi Hb Hne)
    as [e [He _]].
  now exists e.
Defined.

Lemma nth_removelast (l : list Z) j :
  (j < length l - 1)%nat -> nth j (removelast l) 0 = nth j l 0.
Proof.
  intros Hj. assert (Hl : l <> []) by (intros ->; simpl in Hj; lia).
  rewrite (app_removelast_last 0 Hl) at 2.
  rewrite app_nth1; [reflexivity|].
  rewrite removelast_firstn_len, length_firstn. lia.
Qed.

Lemma length_removelast (l : list Z) : length (removelast l) = (length l - 1)%nat.
Proof. rewrite removelast_firstn_len, length_firstn. lia. Qed.

Lemma bytes_removelast l : bytes l -> bytes (removelast l).
Proof. intros H. rewrite removelast_firstn_len. now apply bytes_firstn. Qed.

(** X6.  A frame the decoder accepts is rejected once a byte is appended to
    it or its last byte is cut off: with a length mismatch, or with the
    header error when cutting leaves fewer than six bytes. *)
Theorem one_byte_longer_or_shorter_is_rejected (value : list Z) (a : Ack) (b : Z) :
  bytes value ->
  parseNotification value = Ok a ->
  is_byte b ->
  let len := Z.of_nat (length value) in
  parseNotification (value ++ [b]) = Err (LengthMismatch len (len + 1))
  /\ (7 <= len -> parseNotification (removelast value) = Err (LengthMismatch len (len - 1)))
  /\ (len = 6 -> parseNotification (removelast value) = Err BadNotificationHeader).
Proof.
  intros Hv Hok Hb len.
  destruct (parseNotification_Ok_inv value a Hv Hok) as (Hlen & Hhead & Hdecl & _ & _).
  assert (Hh0 : nth 0 value 0 = 0x73).
  { destruct value; [discriminate | now injection Hhead]. }
  fold len in Hdecl.
  split; [|split].
  - rewrite parseNotification_eval by auto with bytes.
    rewrite length_app, index_is_nth by (rewrite length_app; simpl; lia).
    rewrite !app_nth1 by lia. rewrite Hh0, Hdecl.
    replace (Z.of_nat (length value + length [b])) with (len + 1)
      by (unfold len; cbn [length]; lia).
    replace (len + 1 <? 6) with false by (symmetry; apply Z.ltb_ge; lia).
    replace (len =? len + 1) with false by (symmetry; apply Z.eqb_neq; lia).
    reflexivity.
  - intros H7. rewrite parseNotification_eval by now apply bytes_removelast.
    rewrite length_removelast, index_is_nth by (rewrite length_removelast; lia).
    rewrite !nth_removelast by lia. rewrite Hh0, Hdecl.
    replace (Z.of_nat (length value - 1)) with (len - 1) by (unfold len; lia).
    replace (len - 1 <? 6) with false by (symmetry; apply Z.ltb_ge; lia).
    replace (len =? len - 1) with false by (symmetry; apply Z.eqb_neq; lia).
    reflexivity.
  - intros H6. rewrite parseNotification_eval by now apply bytes_removelast.
    rewrite length_removelast.
    replace (Z.of_nat (length value - 1) <? 6) with true
      by (symmetry; apply Z.ltb_lt; unfold len in H6; lia).
    reflexivity.
Qed.

Lemma one_byte_longer_or_shorter_is_rejected_witness :
  bytes chunk_ack
  /\ parseNotification chunk_ack = Ok (mkAck 0x51 0x10 [0; 0; 0; 0])
  /\ is_byte 0
  /\ parseNotification (chunk_ack ++ [0]) = Err (LengthMismatch 10 11).
Proof.
  assert (Hv : bytes chunk_ack) by (unfold chunk_ack; auto 12 with bytes).
  assert (Hok : parseNotification chunk_ack = Ok (mkAck 0x51 0x10 [0; 0; 0; 0]))
    by reflexivity.
  assert (Hb : is_byte 0) by auto with bytes.
  split; [exact Hv|]. split; [exact Hok|]. split; [exact Hb|].
  exact (proj1 (one_byte_longer_or_shorter_is_rejected chunk_ack _ 0 Hv Hok Hb)).
Defined.

(** ** The activation reply *)

Lemma slice_tail_payload (v : list Z) :
  (5 <= length v)%nat ->
  JS.slice v 4 (-1) = firstn (length v - 5) (skipn 4 v).
Proof.
  intros Hv. unfold JS.slice.
  change (4 <? 0) with false. change (-1 <? 0) with true. cbv iota.
  rewrite Z.min_l, Z.max_l by lia. f_equal. lia.
Qed.

Lemma activation_payload_test (v : list Z) :
  (5 <= length v)%nat ->
  (1 <=? Z.of_nat (length (JS.slice v 4 (-1)))) && JS.index_is (JS.slice v 4 (-1)) 0 0x01
  = (6 <=? Z.of_nat (length v)) && (nth 4 v 0 =? 0x01).
Proof.
  intros Hv. rewrite slice_tail_payload by assumption.
  do 4 (destruct v as [|? v]; [simpl in Hv; lia|]).
  destruct v as [|v4 v]; [simpl in Hv; lia|].
  destruct v as [|v5 v].
  - reflexivity.
  - cbn [skipn length nth Nat.sub firstn]. unfold JS.index_is, JS.index.
    cbn [nth_error].
    replace (1 <=? Z.of_nat (S (length (firstn (length v) (v5 :: v))))) with true
      by (symmetry; apply Z.leb_le; lia).
    replace (6 <=? Z.of_nat (S (S (S (S (S (S (length v)))))))) with true
      by (symmetry; apply Z.leb_le; lia).
    reflexivity.
Qed.

Lemma activation_reply_step (value : list Z) (st : Engine) (p : nat) :
  otaActivationResolve st = Some p ->
  (5 <= length value)%nat ->
  nth_error value 0 = Some 0x73 ->
  nth_error value 2 = Some 0x23 ->
  nth_error value 3 = Some 0x1F ->
  let armed := (6 <=? Z.of_nat (length value)) && (nth 4 value 0 =? 0x01) in
  notificationHandler value st
  = set_currentCommand None
      (set_otaActivationResolve None
         (call_resolve p (Activated armed)
            (add_log (if armed then LogActivationConfirmed else LogActivationFailed)
               (add_log (LogResponseReceived value) st)))).
Proof.
  intros Hp Hlen H0 H2 H3 armed.
  unfold notificationHandler, activation_waiter.
  cbn [add_log otaActivationResolve]. rewrite Hp.
  apply index_is_true in H0. apply index_is_true in H2. apply index_is_true in H3.
  rewrite H0, H2, H3.
  replace (5 <=? Z.of_nat (length value)) with true by (symmetry; apply Z.leb_le; lia).
  cbn [andb]. rewrite (activation_payload_test value Hlen). fold armed.
  destruct armed; reflexivity.
Qed.

(** X7.  While an activation wait is outstanding, a notification of at least
    5 bytes with bytes 0, 2, 3 equal to 0x73, 0x23, 0x1F resolves it, once:
    with [true] when the frame has at least 6 bytes and byte 4 is 0x01, with
    [false] otherwise.  Neither the length byte nor the checksum of the frame
    is looked at.  The handler clears the activation resolver and the
    outstanding command, and leaves the mailbox, the timers and the forwarded
    responses alone. *)
Theorem activation_reply_resolves (value : list Z) (st : Engine) (p : nat) :
  otaActivationResolve st = Some p ->
  (5 <= length value)%nat ->
  nth_error value 0 = Some 0x73 ->
  nth_error value 2 = Some 0x23 ->
  nth_error value 3 = Some 0x1F ->
  let armed := (6 <=? Z.of_nat (length value)) && (nth 4 value 0 =? 0x01) in
  let st' := notificationHandler value st in
  resolve_calls st' = resolve_calls st ++ [(p, Activated armed)]
  /\ otaActivationResolve st' = None
  /\ currentCommand st' = None
  /\ pendingAckResolve st' = pendingAckResolve st
  /\ timers st' = timers st
  /\ forwarded st' = forwarded st.
Proof.
  intros Hp Hlen H0 H2 H3 armed st'.
  unfold st'. rewrite (activation_reply_step value st p Hp Hlen H0 H2 H3).
  fold armed. cbn. repeat split.
Qed.

Lemma activation_reply_resolves_witness :
  otaActivationResolve (set_otaActivationResolve (Some 7%nat) initial) = Some 7%nat
  /\ (5 <= length [0x73; 6; 0x23; 0x1F; 0x01; 0x00])%nat
  /\ resolve_calls (notificationHandler [0x73; 6; 0x23; 0x1F; 0x01; 0x00]
                      (set_otaActivationResolve (Some 7%nat) initial))
     = [(7%nat, Activated true)].
Proof.
  assert (Hp : otaActivationResolve (set_otaActivationResolve (Some 7%nat) initial)
               = Some 7%nat) by reflexivity.
  assert (Hl : (5 <= length [0x73; 6; 0x23; 0x1F; 0x01; 0x00])%nat) by (simpl; lia).
  split; [exact Hp|]. split; [exact Hl|].
  exact (proj1 (activation_reply_resolves [0x73; 6; 0x23; 0x1F; 0x01; 0x00]
                  (set_otaActivationResolve (Some 7%nat) initial) 7
                  Hp Hl eq_refl eq_refl eq_refl)).
Defined.

(** ** Waiting on the mailbox *)

Lemma fire_keeps_command_state a st :
  currentCommand (fire a st) = currentCommand st
  /\ otaActivationResolve (fire a st) = otaActivationResolve st
  /\ clock (fire a st) = clock st
  /\ forwarded (fire a st) = forwarded st.
Proof.
  destruct a as [p]. cbn [fire]. destruct (pendingAckResolve st); cbn; auto.
Qed.

Lemma run_due_keeps_command_state now ts :
  forall st,
    currentCommand (run_due now ts st) = currentCommand st
    /\ otaActivationResolve (run_due now ts st) = otaActivationResolve st
    /\ clock (run_due now ts st) = clock st
    /\ forwarded (run_due now ts st) = forwarded st.
Proof.
  induction ts as [|t ts IH]; intros st; cbn [run_due].
  - cbn. auto.
  - destruct (due t <=? now).
    + destruct (IH (fire (action t) (set_timers ts st))) as (H1 & H2 & H3 & H4).
      destruct (fire_keeps_command_state (action t) (set_timers ts st))
        as (F1 & F2 & F3 & F4).
      rewrite H1, H2, H3, H4, F1, F2, F3, F4. cbn. auto.
    + cbn. auto.
Qed.

Lemma elapse_keeps_command_state ms st :
  currentCommand (elapse ms st) = currentCommand st
  /\ otaActivationResolve (elapse ms st) = otaActivationResolve st
  /\ clock (elapse ms st) = clock st + ms
  /\ forwarded (elapse ms st) = forwarded st.
Proof.
  unfold elapse.
  destruct (run_due_keeps_command_state (clock st + ms) (timers st)
              (set_clock (clock st + ms) st)) as (H1 & H2 & H3 & H4).
  rewrite H1, H2, H3, H4. cbn. auto.
Qed.

Lemma waitForAck_waiting expected ms st :
  timers st = [] ->
  calls_of (next_promise st) st = [] ->
  fst (waitForAck expected ms st) = next_promise st
  /\ clock (snd (waitForAck expected ms st)) = clock st
  /\ waiting expected (next_promise st) (clock st + ms) (snd (waitForAck expected ms st)).
Proof.
  intros Ht Hc. destruct st as [c n rc pa oa cc ts fw lg].
  cbn in Ht, Hc |- *. subst ts. repeat split. exact Hc.
Qed.

Lemma waiting_rejected expected p due value e st :
  parseNotification value = Err e ->
  waiting expected p due st ->
  waiting expected p due (handleNotification value st)
  /\ clock (handleNotification value st) = clock st.
Proof.
  intros He Hw. unfold handleNotification. rewrite He.
  destruct st; cbn in *. now split.
Qed.

Lemma waiting_elapse_early expected p due ms st :
  clock st + ms < due ->
  waiting expected p due st ->
  waiting expected p due (elapse ms st) /\ clock (elapse ms st) = clock st + ms.
Proof.
  intros Hlt (Hp & Ht & Hc). unfold elapse. rewrite Ht.
  cbn -[Z.leb Z.add].
  replace (due <=? clock st + ms) with false by (symmetry; apply Z.leb_gt; lia).
  destruct st; cbn in *. repeat split; assumption.
Qed.

Lemma waiting_elapse_due expected p due ms st :
  due <= clock st + ms ->
  waiting expected p due st ->
  slot_closed p [Timeout] (elapse ms st).
Proof.
  intros Hle (Hp & Ht & Hc). unfold elapse. rewrite Ht.
  cbn -[Z.leb Z.add].
  replace (due <=? clock st + ms) with true by (symmetry; apply Z.leb_le; lia).
  destruct st as [c n rc pa oa cc ts fw lg]. cbn in Hp, Hc |- *. subst pa.
  unfold slot_closed, calls_of in *. cbn.
  rewrite filter_app, map_app, Hc. cbn. now rewrite Nat.eqb_refl.
Qed.

Lemma waiting_acknowledged expected p due value ack st :
  parseNotification value = Ok ack ->
  waiting expected p due st ->
  slot_closed p [ack_outcome expected ack] (handleNotification value st).
Proof.
  intros Hok (Hp & Ht & Hc). unfold handleNotification. rewrite Hok.
  destruct st as [c n rc pa oa cc ts fw lg]. cbn in Hp, Hc |- *. subst pa.
  unfold deliver, call_pendingAckResolve, ack_outcome, slot_closed, calls_of in *. cbn.
  destruct (ack_cmd ack =? expected); cbn;
    rewrite filter_app, map_app, Hc; cbn; now rewrite Nat.eqb_refl.
Qed.

Lemma quiet_keeps_waiting expected p due l :
  forall st,
    quiet l = true ->
    clock st + elapsed l < due ->
    waiting expected p due st ->
    waiting expected p due (run l st).
Proof.
  unfold run. induction l as [|s l IH]; intros st Hq Hlt Hw; [exact Hw|].
  cbn [quiet forallb] in Hq. apply andb_true_iff in Hq. destruct Hq as [Hs Hq].
  cbn [fold_left]. destruct s as [value|ms]; cbn [is_quiet elapsed react] in *.
  - destruct (parseNotification value) as [a|e] eqn:E; [discriminate|].
    destruct (waiting_rejected expected p due value e st E Hw) as [Hw' Hc].
    apply IH; [exact Hq | rewrite Hc; lia | exact Hw'].
  - apply Z.leb_le in Hs.
    assert (He : 0 <= elapsed l).
    { clear -Hq. induction l as [|[v|m] l IH]; cbn [elapsed quiet forallb is_quiet] in *.
      - lia.
      - apply andb_true_iff in Hq. now apply IH.
      - apply andb_true_iff in Hq. destruct Hq as [Hm Hq]. apply Z.leb_le in Hm.
        specialize (IH Hq). lia. }
    destruct (waiting_elapse_early expected p due ms st ltac:(lia) Hw) as [Hw' Hc].
    apply IH; [exact Hq | rewrite Hc; lia | exact Hw'].
Qed.

Lemma quiet_until_timeout expected p due l :
  forall st,
    quiet l = true ->
    due <= clock st + elapsed l ->
    clock st < due ->
    waiting expected p due st ->
    slot_closed p [Timeout] (run l st).
Proof.
  induction l as [|s l IH]; intros st Hq Hle Hlt Hw.
  - cbn [elapsed] in Hle. lia.
  - cbn [quiet forallb] in Hq. apply andb_true_iff in Hq. destruct Hq as [Hs Hq].
    unfold run. cbn [fold_left]. fold (run l (react st s)).
    destruct s as [value|ms]; cbn [is_quiet elapsed react] in *.
    + destruct (parseNotification value) as [a|e] eqn:E; [discriminate|].
      destruct (waiting_rejected expected p due value e st E Hw) as [Hw' Hc].
      apply IH; [exact Hq | rewrite Hc; lia | rewrite Hc; lia | exact Hw'].
    + destruct (Z.lt_ge_cases (clock st + ms) due) as [Hearly|Hdue].
      * destruct (waiting_elapse_early expected p due ms st Hearly Hw) as [Hw' Hc].
        apply IH; [exact Hq | rewrite Hc; lia | rewrite Hc; lia | exact Hw'].
      * apply run_slot_closed. now apply (waiting_elapse_due expected p due ms st).
Qed.

(** ** Acknowledgments on the generic handler *)

Lemma index_is_index_num v i k : JS.index_is v i k = true -> JS.index_num v i = k.
Proof.
  unfold JS.index_is, JS.index_num. destruct (JS.index v i) as [b|]; [|discriminate].
  now intros H%Z.eqb_eq.
Qed.

(** What the decoder returns on a frame of acknowledgment shape: the command
    of a decoded acknowledgment is the sentinel 0xFF of the shape test, and
    the header test cannot be the one that fails. *)
Lemma parseNotification_ota_ack value :
  looks_like_ota_ack value = true ->
  match parseNotification value with
  | Ok ack =>
      ack_cmd ack = 0xFF /\ ack_reserved ack = 0x01
      /\ ack_payload ack = JS.slice value 5 (-1)
  | Err e => e <> BadNotificationHeader
  end.
Proof.
  intros Hshape.
  destruct (looks_like_ota_ack_fields value Hshape) as (Hlen & H0 & _ & H3 & H4).
  unfold parseNotification.
  replace (Z.of_nat (length value) <? 6) with false
    by (symmetry; apply Z.ltb_ge; lia).
  rewrite H0. cbn [orb negb].
  destruct (negb (declaredLength value =? Z.of_nat (length value))); [discriminate|].
  destruct (negb (xor_all_but_last value =? last_byte value)); [discriminate|].
  cbn [ack_cmd ack_reserved ack_payload].
  now rewrite (index_is_index_num _ _ _ H3), (index_is_index_num _ _ _ H4).
Qed.

(** C3.  For every inbound notification of OTA-acknowledgment shape (at
    least 6 bytes, first byte 0x73, declared 16-bit length above 5, byte 3
    equal to 0xFF, byte 4 equal to 0x01) the activation branch of the
    notification handler does not apply, whatever activation wait is
    outstanding, and the handler does what [handleOTAAck] does and stops:
    the outstanding generic command, what was forwarded to the data parser,
    the activation wait, the timers and the clock are as they were.

    If the decoder accepts the frame, the acknowledgment it decodes (command
    0xFF, reserved byte 0x01, payload from byte 5 to the checksum) is handed
    to the mailbox: the slot is empty afterwards, and the resolve function of
    the wait that was pending, if there was one, has been called once more,
    with the acknowledgment as compared with the command the wait expects; a
    pending wait with its timer still ahead is thereby settled for good, and
    nothing that follows resolves it again.

    If the decoder rejects the frame, the failure is a length or a checksum
    failure; it is logged after the frame and the frame is dropped: no
    resolve function has been called and the slot is as it was.  A pending
    wait goes on: the next frame the decoder accepts before the wait's timer
    is due resolves it, and if none arrives the timer resolves it as timed
    out. *)
Theorem notificationHandler_ota_ack (value : list Z) (st : Engine) :
  looks_like_ota_ack value = true ->
  let st0 := add_log (LogResponseReceived value) st in
  let st' := notificationHandler value st in
  activation_waiter value st0 = None
  /\ st' = handleOTAAck value st0
  /\ currentCommand st' = currentCommand st
  /\ forwarded st' = forwarded st
  /\ otaActivationResolve st' = otaActivationResolve st
  /\ timers st' = timers st
  /\ clock st' = clock st
  /\ match parseNotification value with
     | Ok ack =>
         ack_cmd ack = 0xFF /\ ack_reserved ack = 0x01
         /\ ack_payload ack = JS.slice value 5 (-1)
         /\ log st' = log st ++ [LogResponseReceived value]
         /\ pendingAckResolve st' = None
         /\ resolve_calls st'
            = resolve_calls st
              ++ match pendingAckResolve st with
                 | Some r => [(resolver_promise r, ack_outcome (expectedCmd r) ack)]
                 | None => []
                 end
         /\ forall expected p due after,
              waiting expected p due st ->
              calls_of p (run after st') = [ack_outcome expected ack]
     | Err e =>
         e <> BadNotificationHeader
         /\ log st' = log st ++ [LogResponseReceived value; LogParseError e]
         /\ pendingAckResolve st' = pendingAckResolve st
         /\ resolve_calls st' = resolve_calls st
         /\ forall expected p due before after,
              waiting expected p due st ->
              clock st < due ->
              quiet before = true ->
              (clock st + elapsed before < due ->
               forall value2 ack2,
                 parseNotification value2 = Ok ack2 ->
                 calls_of p (run after (handleNotification value2 (run before st')))
                 = [ack_outcome expected ack2])
              /\ (due <= clock st + elapsed before ->
                  calls_of p (run after (run before st')) = [Timeout])
     end.
Proof.
  intros Hshape st0 st'.
  assert (Hw : activation_waiter value st0 = None)
    by now apply ota_ack_is_no_activation_reply.
  assert (Hst : st' = handleOTAAck value st0).
  { unfold st', notificationHandler. fold st0. now rewrite Hw, Hshape. }
  pose proof (parseNotification_ota_ack value Hshape) as Hdec.
  split; [exact Hw|]. split; [exact Hst|].
  rewrite Hst. unfold handleOTAAck.
  destruct (parseNotification value) as [ack|e] eqn:Hparse.
  - destruct Hdec as (Hc & Hr & Hp).
    assert (Hcalls : resolve_calls (deliver ack st0)
                     = resolve_calls st
                       ++ match pendingAckResolve st with
                          | Some r =>
                              [(resolver_promise r, ack_outcome (expectedCmd r) ack)]
                          | None => []
                          end
                     /\ pendingAckResolve (deliver ack st0) = None).
    { unfold deliver, st0. cbn [add_log pendingAckResolve].
      destruct (pendingAckResolve st) as [r|] eqn:Hslot.
      - unfold call_pendingAckResolve, ack_outcome.
        destruct (ack_cmd ack =? expectedCmd r); cbn; now split.
      - cbn. rewrite app_nil_r. now split. }
    destruct Hcalls as [Hcalls Hnone].
    assert (Hrest : currentCommand (deliver ack st0) = currentCommand st
                    /\ forwarded (deliver ack st0) = forwarded st
                    /\ otaActivationResolve (deliver ack st0) = otaActivationResolve st
                    /\ timers (deliver ack st0) = timers st
                    /\ clock (deliver ack st0) = clock st
                    /\ log (deliver ack st0) = log st ++ [LogResponseReceived value]).
    { unfold deliver, st0. cbn [add_log pendingAckResolve].
      destruct (pendingAckResolve st) as [r|]; [|cbn; repeat split].
      unfold call_pendingAckResolve.
      destruct (ack_cmd ack =? expectedCmd r); cbn; repeat split. }
    destruct Hrest as (R1 & R2 & R3 & R4 & R5 & R6).
    repeat (split; [assumption|]).
    intros expected p due after (Hslot & _ & Hnocall).
    apply (run_slot_closed p _ after). split; [exact Hnone|].
    unfold calls_of in *. rewrite Hcalls, Hslot, filter_app, map_app, Hnocall.
    cbn. now rewrite Nat.eqb_refl.
  - unfold st0. cbn [add_log currentCommand forwarded otaActivationResolve timers
                     clock log pendingAckResolve resolve_calls].
    rewrite <- app_assoc. cbn [app].
    repeat (split; [reflexivity || assumption|]).
    intros expected p due before after Hwait Hdue Hq.
    set (st1 := add_log (LogParseError e) (add_log (LogResponseReceived value) st)).
    assert (Hwait1 : waiting expected p due st1) by exact Hwait.
    assert (Hclock1 : clock st1 = clock st) by reflexivity.
    split.
    + intros Hearly value2 ack2 Hok2.
      apply (run_slot_closed p _ after).
      apply (waiting_acknowledged expected p due value2 ack2 _ Hok2).
      apply quiet_keeps_waiting; [exact Hq | rewrite Hclock1; exact Hearly | exact Hwait1].
    + intros Hlate.
      apply (run_slot_closed p _ after).
      apply (quiet_until_timeout expected p due before st1 Hq);
        [rewrite Hclock1; exact Hlate | rewrite Hclock1; exact Hdue | exact Hwait1].
Qed.

(** An acknowledgment-shaped frame arriving while the wait of
    [sendFirmwareChunk] is pending: the wait is resolved with it, as an
    acknowledgment of an unexpected command.  The same frame with a wrong
    checksum is dropped, and the wait times out 1500 ms later. *)
Lemma notificationHandler_ota_ack_witness :
  let st := snd (waitForAck 0x51 1500 initial) in
  let corrupt := [0x73; 7; 0; 0xFF; 0x01; 0x00; 0x00] in
  looks_like_ota_ack ack_shaped = true
  /\ parseNotification ack_shaped = Ok (mkAck 0xFF 0x01 [0x00])
  /\ pendingAckResolve (notificationHandler ack_shaped st) = None
  /\ resolve_calls (notificationHandler ack_shaped st)
     = [(0%nat, UnexpectedCmd 0x51 0xFF)]
  /\ calls_of 0 (run [Notification chunk_ack; Elapse 5000]
                   (notificationHandler ack_shaped st))
     = [UnexpectedCmd 0x51 0xFF]
  /\ looks_like_ota_ack corrupt = true
  /\ parseNotification corrupt = Err (BadXORChecksum 0x8A 0x00)
  /\ pendingAckResolve (notificationHandler corrupt st) = pendingAckResolve st
  /\ calls_of 0 (run [] (handleNotification chunk_ack
                           (run [Elapse 700] (notificationHandler corrupt st))))
     = [AckOk (mkAck 0x51 0x10 [0; 0; 0; 0])]
  /\ calls_of 0 (run [] (run [Elapse 1500] (notificationHandler corrupt st)))
     = [Timeout].
Proof.
  intros st corrupt.
  assert (Hv : looks_like_ota_ack ack_shaped = true) by reflexivity.
  assert (Pv : parseNotification ack_shaped = Ok (mkAck 0xFF 0x01 [0x00]))
    by reflexivity.
  assert (Hc : looks_like_ota_ack corrupt = true) by reflexivity.
  assert (Pc : parseNotification corrupt = Err (BadXORChecksum 0x8A 0x00))
    by reflexivity.
  assert (Hwait : waiting 0x51 0 1500 st) by (repeat split).
  pose proof (notificationHandler_ota_ack ack_shaped st Hv) as Tv.
  pose proof (notificationHandler_ota_ack corrupt st Hc) as Tc.
  cbv zeta in Tv, Tc. rewrite Pv in Tv. rewrite Pc in Tc.
  destruct Tv as (_ & _ & _ & _ & _ & _ & _ & _ & _ & _ & _ & Vslot & Vcalls & Vwait).
  destruct Tc as (_ & _ & _ & _ & _ & _ & _ & _ & _ & Cslot & _ & Cwait).
  split; [exact Hv|]. split; [exact Pv|]. split; [exact Vslot|].
  split; [rewrite Vcalls; reflexivity|].
  split; [exact (Vwait 0x51 0%nat 1500 _ Hwait)|].
  split; [exact Hc|]. split; [exact Pc|]. split; [exact Cslot|].
  assert (Hdue : clock st < 1500) by (cbn; lia).
  split.
  - exact (proj1 (Cwait 0x51 0%nat 1500 [Elapse 700] [] Hwait Hdue eq_refl)
             ltac:(cbn; lia) chunk_ack _ eq_refl).
  - exact (proj2 (Cwait 0x51 0%nat 1500 [Elapse 1500] [] Hwait Hdue eq_refl)
             ltac:(cbn; lia)).
Defined.

(** ** Waits that end once, overlap, or starve *)

(** X8.  A wait registered while no timer is pending ends exactly once.
    Notifications the decoder rejects and the passing of time change nothing
    for it; the first frame the decoder accepts before the timeout resolves
    it, with the acknowledgment if its command is the expected one and with
    the unexpected-command failure otherwise; if the timeout passes first, it
    resolves with the timeout failure.  Nothing that happens afterwards
    resolves it again. *)
Theorem wait_without_older_timer_resolves_once (st : Engine) (expected ms : Z) :
  timers st = [] ->
  calls_of (next_promise st) st = [] ->
  0 < ms ->
  let p := fst (waitForAck expected ms st) in
  let st1 := snd (waitForAck expected ms st) in
  (forall before value ack after,
      quiet before = true -> elapsed before < ms ->
      parseNotification value = Ok ack ->
      calls_of p (run after (handleNotification value (run before st1)))
      = [ack_outcome expected ack])
  /\ (forall before after,
         quiet before = true -> ms <= elapsed before ->
         calls_of p (run after (run before st1)) = [Timeout]).
Proof.
  intros Ht Hc Hms p st1.
  destruct (waitForAck_waiting expected ms st Ht Hc) as (Hp & Hclock & Hw).
  fold p in Hp. fold st1 in Hclock, Hw. rewrite <- Hp in Hw.
  split.
  - intros before value ack after Hq Hel Hok.
    apply (run_slot_closed p).
    apply (waiting_acknowledged expected p (clock st + ms) value ack _ Hok).
    apply quiet_keeps_waiting; [exact Hq | rewrite Hclock; lia | exact Hw].
  - intros before after Hq Hel.
    apply (run_slot_closed p).
    apply (quiet_until_timeout expected p (clock st + ms));
      [exact Hq | rewrite Hclock; lia | rewrite Hclock; lia | exact Hw].
Qed.

Lemma wait_without_older_timer_resolves_once_witness :
  timers initial = [] /\ calls_of (next_promise initial) initial = [] /\ 0 < 1500
  /\ calls_of (fst (waitForAck 0x51 1500 initial))
       (run [Notification chunk_ack]
          (handleNotification chunk_ack
             (run [Elapse 20; Notification [0x73; 0; 1]] (snd (waitForAck 0x51 1500 initial)))))
     = [AckOk (mkAck 0x51 0x10 [0; 0; 0; 0])].
Proof.
  assert (Ht : timers initial = []) by reflexivity.
  assert (Hc : calls_of (next_promise initial) initial = []) by reflexivity.
  assert (Hms : 0 < 1500) by lia.
  split; [exact Ht|]. split; [exact Hc|]. split; [exact Hms|].
  exact (proj1 (wait_without_older_timer_resolves_once initial 0x51 1500 Ht Hc Hms)
           [Elapse 20; Notification [0x73; 0; 1]] chunk_ack
           (mkAck 0x51 0x10 [0; 0; 0; 0]) [Notification chunk_ack]
           eq_refl ltac:(simpl; lia) eq_refl).
Defined.

Lemma calls_of_call_resolve p q v st :
  calls_of p (call_resolve q v st)
  = calls_of p st ++ (if Nat.eqb q p then [v] else []).
Proof.
  unfold calls_of, call_resolve. cbn [resolve_calls].
  rewrite filter_app, map_app. cbn [filter fst]. now destruct (Nat.eqb q p).
Qed.

Lemma handleNotification_clock value st :
  clock (handleNotification value st) = clock st.
Proof.
  unfold handleNotification. destruct (parseNotification value) as [ack|e].
  - unfold deliver. cbn [add_log pendingAckResolve].
    destruct (pendingAckResolve st) as [r|]; [|reflexivity].
    unfold call_pendingAckResolve. destruct (ack_cmd ack =? expectedCmd r); reflexivity.
  - reflexivity.
Qed.

Lemma run_clock l : forall st, clock (run l st) = clock st + elapsed l.
Proof.
  unfold run. induction l as [|s l IH]; intros st; [cbn; lia|].
  cbn [fold_left]. rewrite IH. destruct s as [value|ms]; cbn [react elapsed].
  - now rewrite handleNotification_clock.
  - destruct (elapse_keeps_command_state ms st) as (_ & _ & E & _). rewrite E. lia.
Qed.

Lemma quiet_elapsed_nonneg l : quiet l = true -> 0 <= elapsed l.
Proof.
  induction l as [|[v|m] l IH]; cbn [elapsed quiet forallb is_quiet]; intros Hq.
  - lia.
  - apply andb_true_iff in Hq. now apply IH.
  - apply andb_true_iff in Hq. destruct Hq as [Hm Hq]. apply Z.leb_le in Hm.
    specialize (IH Hq). lia.
Qed.

Lemma sharing_rejected e2 p2 pa pb da db value e st :
  parseNotification value = Err e ->
  sharing e2 p2 pa pb da db st ->
  sharing e2 p2 pa pb da db (handleNotification value st).
Proof.
  intros He Hs. unfold handleNotification. rewrite He.
  destruct st; cbn in *. exact Hs.
Qed.

Lemma sharing_elapse_early e2 p2 pa pb da db ms st :
  clock st + ms < da ->
  sharing e2 p2 pa pb da db st ->
  sharing e2 p2 pa pb da db (elapse ms st).
Proof.
  intros Hlt (Hp & Ht & Hd & Hne & Hor & Ha & Hb). unfold elapse. rewrite Ht.
  cbn -[Z.leb Z.add].
  replace (da <=? clock st + ms) with false by (symmetry; apply Z.leb_gt; lia).
  destruct st; cbn in *. repeat split; assumption.
Qed.

Lemma sharing_elapse_due e2 p2 pa pb da db ms st :
  da <= clock st + ms ->
  sharing e2 p2 pa pb da db st ->
  slot_closed pa [Timeout] (elapse ms st) /\ slot_closed pb [] (elapse ms st).
Proof.
  intros Hle (Hp & Ht & Hd & Hne & Hor & Ha & Hb). unfold elapse. rewrite Ht.
  cbn -[Z.leb Z.add].
  replace (da <=? clock st + ms) with true by (symmetry; apply Z.leb_le; lia).
  destruct st as [c n rc pe oa cc ts fw lg]. cbn in Hp, Ha, Hb |- *. subst pe.
  assert (Hne' : Nat.eqb pa pb = false) by now apply Nat.eqb_neq.
  cbn -[Z.leb Z.add Nat.eqb].
  destruct (db <=? c + ms); cbn -[Nat.eqb]; unfold slot_closed, calls_of in *;
    cbn -[Nat.eqb]; rewrite !filter_app, !map_app, Ha, Hb; cbn -[Nat.eqb];
    rewrite Nat.eqb_refl, Hne'; split; split; reflexivity.
Qed.

Lemma sharing_acknowledged e2 p2 pa pb da db value ack st :
  parseNotification value = Ok ack ->
  sharing e2 p2 pa pb da db st ->
  let other := if Nat.eqb p2 pa then pb else pa in
  slot_closed p2 [ack_outcome e2 ack] (handleNotification value st)
  /\ slot_closed other [] (handleNotification value st).
Proof.
  intros Hok (Hp & Ht & Hd & Hne & Hor & Ha & Hb) other.
  unfold handleNotification. rewrite Hok.
  destruct st as [c n rc pe oa cc ts fw lg]. cbn in Hp, Ha, Hb |- *. subst pe.
  assert (Hab : Nat.eqb pa pb = false) by now apply Nat.eqb_neq.
  assert (Hba : Nat.eqb pb pa = false) by (apply Nat.eqb_neq; congruence).
  unfold deliver, call_pendingAckResolve, ack_outcome, slot_closed, calls_of in *.
  cbn -[Nat.eqb].
  unfold other. destruct Hor as [-> | ->].
  - rewrite Nat.eqb_refl.
    destruct (ack_cmd ack =? e2); cbn -[Nat.eqb];
      rewrite !filter_app, !map_app, Ha, Hb; cbn -[Nat.eqb];
      rewrite Nat.eqb_refl, Hab; split; split; reflexivity.
  - rewrite Hba.
    destruct (ack_cmd ack =? e2); cbn -[Nat.eqb];
      rewrite !filter_app, !map_app, Ha, Hb; cbn -[Nat.eqb];
      rewrite Nat.eqb_refl, Hba; split; split; reflexivity.
Qed.

Lemma quiet_keeps_sharing e2 p2 pa pb da db l :
  forall st,
    quiet l = true ->
    clock st + elapsed l < da ->
    sharing e2 p2 pa pb da db st ->
    sharing e2 p2 pa pb da db (run l st).
Proof.
  unfold run. induction l as [|s l IH]; intros st Hq Hlt Hs; [exact Hs|].
  pose proof (quiet_elapsed_nonneg _ Hq) as Hnn.
  cbn [quiet forallb] in Hq. apply andb_true_iff in Hq. destruct Hq as [H0 Hq].
  pose proof (quiet_elapsed_nonneg _ Hq) as Hnn'.
  cbn [fold_left]. destruct s as [value|ms]; cbn [is_quiet elapsed react] in *.
  - destruct (parseNotification value) as [a|e] eqn:E; [discriminate|].
    apply IH; [exact Hq | rewrite handleNotification_clock; lia |].
    now apply (sharing_rejected _ _ _ _ _ _ value e).
  - apply Z.leb_le in H0.
    apply IH; [exact Hq | |].
    + destruct (elapse_keeps_command_state ms st) as (_ & _ & E & _). rewrite E. lia.
    + apply sharing_elapse_early; [lia | exact Hs].
Qed.

Lemma quiet_until_first_timer e2 p2 pa pb da db l :
  forall st,
    quiet l = true ->
    da <= clock st + elapsed l ->
    clock st < da ->
    sharing e2 p2 pa pb da db st ->
    slot_closed pa [Timeout] (run l st) /\ slot_closed pb [] (run l st).
Proof.
  induction l as [|s l IH]; intros st Hq Hle Hlt Hs.
  - cbn [elapsed] in Hle. lia.
  - cbn [quiet forallb] in Hq. apply andb_true_iff in Hq. destruct Hq as [H0 Hq].
    unfold run. cbn [fold_left]. fold (run l (react st s)).
    destruct s as [value|ms]; cbn [is_quiet elapsed react] in *.
    + destruct (parseNotification value) as [a|e] eqn:E; [discriminate|].
      apply IH; [exact Hq | rewrite handleNotification_clock; lia
                | rewrite handleNotification_clock; lia |].
      now apply (sharing_rejected _ _ _ _ _ _ value e).
    + destruct (elapse_keeps_command_state ms st) as (_ & _ & E & _).
      destruct (Z.lt_ge_cases (clock st + ms) da) as [Hearly|Hdue].
      * apply IH; [exact Hq | rewrite E; lia | rewrite E; lia |].
        now apply sharing_elapse_early.
      * destruct (sharing_elapse_due _ _ _ _ _ _ ms st Hdue Hs) as [Ca Cb].
        split; now apply run_slot_closed.
Qed.

Lemma quiet_waiting_frame expected p due l :
  forall st,
    quiet l = true ->
    clock st + elapsed l < due ->
    waiting expected p due st ->
    resolve_calls (run l st) = resolve_calls st
    /\ next_promise (run l st) = next_promise st.
Proof.
  unfold run. induction l as [|s l IH]; intros st Hq Hlt Hw; [now split|].
  pose proof (quiet_elapsed_nonneg _ Hq) as Hnn.
  cbn [quiet forallb] in Hq. apply andb_true_iff in Hq. destruct Hq as [H0 Hq].
  pose proof (quiet_elapsed_nonneg _ Hq) as Hnn'.
  cbn [fold_left]. destruct s as [value|ms]; cbn [is_quiet elapsed react] in *.
  - destruct (parseNotification value) as [a|e] eqn:E; [discriminate|].
    destruct (waiting_rejected expected p due value e st E Hw) as [Hw' Hc].
    destruct (IH _ Hq ltac:(rewrite Hc; lia) Hw') as [R N].
    rewrite R, N. unfold handleNotification. rewrite E. now split.
  - apply Z.leb_le in H0.
    destruct (waiting_elapse_early expected p due ms st ltac:(lia) Hw) as [Hw' Hc].
    destruct (IH _ Hq ltac:(rewrite Hc; lia) Hw') as [R N].
    rewrite R, N. destruct Hw as (_ & Ht & _). unfold elapse. rewrite Ht.
    cbn -[Z.leb Z.add].
    replace (due <=? clock st + ms) with false by (symmetry; apply Z.leb_gt; lia).
    now split.
Qed.

Lemma second_wait_shares e1 e2 p1 d1 ms2 st :
  waiting e1 p1 d1 st ->
  next_promise st = S p1 ->
  calls_of (S p1) st = [] ->
  let w2 := waitForAck e2 ms2 st in
  let d2 := clock st + ms2 in
  fst w2 = S p1
  /\ clock (snd w2) = clock st
  /\ if d1 <=? d2
     then sharing e2 (S p1) p1 (S p1) d1 d2 (snd w2)
     else sharing e2 (S p1) (S p1) p1 d2 d1 (snd w2).
Proof.
  intros (Hp & Ht & Hc) Hn Hc2 w2 d2.
  destruct st as [c n rc pa oa cc ts fw lg]. cbn in Hp, Ht, Hc, Hn, Hc2. subst n ts.
  unfold w2, d2, waitForAck, setTimeout. cbn -[Z.leb Z.ltb Z.add].
  split; [reflexivity|].
  destruct (Z.leb_spec d1 (c + ms2)) as [Hle|Hgt].
  - replace (c + ms2 <? d1) with false by (symmetry; apply Z.ltb_ge; lia).
    split; [reflexivity|]. unfold sharing. cbn.
    repeat split; auto; lia.
  - replace (c + ms2 <? d1) with true by (symmetry; apply Z.ltb_lt; lia).
    split; [reflexivity|]. unfold sharing. cbn.
    repeat split; auto; lia.
Qed.

(** X9.  Two waits that overlap share the one slot.  A first wait is
    registered while no timer is pending, a second one before the first has
    been resolved.  If the decoder accepts a frame before either timer is
    due, the frame resolves the second wait, compared with the command the
    second wait expects, and the first wait is never resolved.  If no such
    frame arrives, the timer that is due first (the first wait's when both
    are due together) resolves its own wait as timed out and empties the
    slot, and the other wait is never resolved, neither by its own timer nor
    by any frame that follows. *)
Theorem overlapping_waits_share_one_slot (st : Engine) (e1 ms1 e2 ms2 : Z)
  (between : list Stimulus) :
  timers st = [] ->
  calls_of (next_promise st) st = [] ->
  calls_of (S (next_promise st)) st = [] ->
  quiet between = true ->
  elapsed between < ms1 ->
  0 < ms2 ->
  let w1 := waitForAck e1 ms1 st in
  let w2 := waitForAck e2 ms2 (run between (snd w1)) in
  let p1 := fst w1 in
  let p2 := fst w2 in
  let left1 := ms1 - elapsed between in
  p1 <> p2
  /\ (forall before value ack after,
         quiet before = true ->
         elapsed before < Z.min left1 ms2 ->
         parseNotification value = Ok ack ->
         let st' := run after (handleNotification value (run before (snd w2))) in
         calls_of p2 st' = [ack_outcome e2 ack] /\ calls_of p1 st' = [])
  /\ (forall before after,
         quiet before = true ->
         Z.min left1 ms2 <= elapsed before ->
         let st' := run after (run before (snd w2)) in
         if left1 <=? ms2
         then calls_of p1 st' = [Timeout] /\ calls_of p2 st' = []
         else calls_of p2 st' = [Timeout] /\ calls_of p1 st' = []).
Proof.
  intros Ht Hc1 Hc2 Hq Hel Hms2 w1 w2 p1 p2 left1.
  destruct (waitForAck_waiting e1 ms1 st Ht Hc1) as (Hp1 & Hclock1 & Hw1).
  fold w1 in Hp1, Hclock1, Hw1. fold p1 in Hp1. rewrite <- Hp1 in Hw1, Hc2.
  set (stb := run between (snd w1)) in *.
  assert (Hwb : waiting e1 p1 (clock st + ms1) stb)
    by (apply quiet_keeps_waiting; [exact Hq | rewrite Hclock1; lia | exact Hw1]).
  destruct (quiet_waiting_frame e1 p1 (clock st + ms1) between (snd w1) Hq
              ltac:(rewrite Hclock1; lia) Hw1) as [Hrc Hnp].
  fold stb in Hrc, Hnp.
  assert (Hclockb : clock stb = clock st + elapsed between)
    by (unfold stb; rewrite run_clock, Hclock1; reflexivity).
  assert (Hn1 : next_promise (snd w1) = S p1).
  { rewrite Hp1. unfold w1, waitForAck, setTimeout. destruct st; reflexivity. }
  assert (Hrc1 : resolve_calls (snd w1) = resolve_calls st).
  { unfold w1, waitForAck, setTimeout. destruct st; reflexivity. }
  assert (Hcb2 : calls_of (S p1) stb = []).
  { unfold calls_of in *. now rewrite Hrc, Hrc1. }
  destruct (second_wait_shares e1 e2 p1 _ ms2 stb Hwb ltac:(congruence) Hcb2)
    as (Hp2 & Hclock2 & Hshare).
  fold w2 in Hp2, Hclock2, Hshare. fold p2 in Hp2.
  rewrite Hclockb in Hshare.
  assert (Hcmp : (clock st + ms1 <=? clock st + elapsed between + ms2)
                 = (left1 <=? ms2)).
  { unfold left1. destruct (Z.leb_spec (clock st + ms1) (clock st + elapsed between + ms2)),
      (Z.leb_spec (ms1 - elapsed between) ms2); try reflexivity; lia. }
  rewrite Hcmp in Hshare.
  pose proof (quiet_elapsed_nonneg _ Hq) as Hnn.
  split; [rewrite Hp2; lia|]. split.
  - intros before value ack after Hqb Helb Hok st'.
    destruct (Z.leb_spec left1 ms2) as [Hle|Hgt].
    + assert (Hs : sharing e2 p2 p1 p2 (clock st + ms1)
                     (clock st + elapsed between + ms2) (run before (snd w2))).
      { rewrite Hp2. apply quiet_keeps_sharing; [exact Hqb | | exact Hshare].
        rewrite Hclock2, Hclockb. unfold left1 in *. lia. }
      destruct (sharing_acknowledged _ _ _ _ _ _ value ack _ Hok Hs) as [C2 C1].
      cbv zeta in C1.
      replace (Nat.eqb p2 p1) with false in C1
        by (symmetry; apply Nat.eqb_neq; rewrite Hp2; lia).
      split; [exact (proj2 (run_slot_closed _ _ after _ C2))
             | exact (proj2 (run_slot_closed _ _ after _ C1))].
    + assert (Hs : sharing e2 p2 p2 p1 (clock st + elapsed between + ms2)
                     (clock st + ms1) (run before (snd w2))).
      { rewrite Hp2. apply quiet_keeps_sharing; [exact Hqb | | exact Hshare].
        rewrite Hclock2, Hclockb. unfold left1 in *. lia. }
      destruct (sharing_acknowledged _ _ _ _ _ _ value ack _ Hok Hs) as [C2 C1].
      cbv zeta in C1. rewrite Nat.eqb_refl in C1.
      split; [exact (proj2 (run_slot_closed _ _ after _ C2))
             | exact (proj2 (run_slot_closed _ _ after _ C1))].
  - intros before after Hqb Helb st'.
    destruct (Z.leb_spec left1 ms2) as [Hle|Hgt].
    + destruct (quiet_until_first_timer e2 (S p1) p1 (S p1) (clock st + ms1)
                  (clock st + elapsed between + ms2) before (snd w2) Hqb)
        as [Ca Cb]; [| | exact Hshare |].
      * rewrite Hclock2, Hclockb. unfold left1 in *. lia.
      * rewrite Hclock2, Hclockb. unfold left1 in *. lia.
      * rewrite Hp2.
        split; [exact (proj2 (run_slot_closed _ _ after _ Ca))
               | exact (proj2 (run_slot_closed _ _ after _ Cb))].
    + destruct (quiet_until_first_timer e2 (S p1) (S p1) p1
                  (clock st + elapsed between + ms2) (clock st + ms1) before (snd w2) Hqb)
        as [Ca Cb]; [| | exact Hshare |].
      * rewrite Hclock2, Hclockb. unfold left1 in *. lia.
      * rewrite Hclock2, Hclockb. unfold left1 in *. lia.
      * rewrite Hp2.
        split; [exact (proj2 (run_slot_closed _ _ after _ Ca))
               | exact (proj2 (run_slot_closed _ _ after _ Cb))].
Qed.

(** The first wait for 1000 ms, the second for 1500 ms on its heels, and a
    device that answers too late: the first wait times out, the second is
    left unresolved although its acknowledgment arrives within its own
    1500 ms. *)
Lemma overlapping_waits_share_one_slot_witness :
  let w1 := waitForAck 0x50 1000 initial in
  let w2 := waitForAck 0x51 1500 (run [] (snd w1)) in
  let st' := run [Notification chunk_ack; Elapse 5000] (run [Elapse 1000] (snd w2)) in
  timers initial = []
  /\ calls_of (next_promise initial) initial = []
  /\ calls_of (S (next_promise initial)) initial = []
  /\ quiet [] = true
  /\ elapsed [] < 1000
  /\ 0 < 1500
  /\ quiet [Elapse 1000] = true
  /\ Z.min (1000 - elapsed []) 1500 <= elapsed [Elapse 1000]
  /\ calls_of (fst w1) st' = [Timeout]
  /\ calls_of (fst w2) st' = [].
Proof.
  intros w1 w2 st'.
  assert (Ht : timers initial = []) by reflexivity.
  assert (H1 : calls_of (next_promise initial) initial = []) by reflexivity.
  assert (H2 : calls_of (S (next_promise initial)) initial = []) by reflexivity.
  assert (Hq : quiet [] = true) by reflexivity.
  assert (He : elapsed [] < 1000) by (cbn; lia).
  assert (Hm : 0 < 1500) by lia.
  assert (Hqb : quiet [Elapse 1000] = true) by reflexivity.
  assert (Hd : Z.min (1000 - elapsed []) 1500 <= elapsed [Elapse 1000]) by (cbn; lia).
  repeat (split; [assumption|]).
  exact (proj2 (proj2 (overlapping_waits_share_one_slot initial 0x50 1000 0x51 1500 []
                         Ht H1 H2 Hq He Hm))
           [Elapse 1000] [Notification chunk_ack; Elapse 5000] Hqb Hd).
Defined.

(** X10.  A wait that is acknowledged leaves its timer behind.  When a
    second wait is registered before that timer is due, and is still pending
    when it fires, the timer of the first wait empties the slot and calls the
    resolve function of the first promise a second time.  The second wait is
    then never resolved: not by its own timer, not by an acknowledgment, not
    by anything later.  This holds from every state without pending timers,
    for every timing of the acknowledgment and of the second wait. *)
Theorem stale_timer_starves_later_wait (st : Engine) (e1 ms1 dt1 dt2 e2 ms2 dt3 : Z)
  (value : list Z) (ack : Ack) :
  timers st = [] ->
  calls_of (S (next_promise st)) st = [] ->
  0 <= dt1 -> 0 <= dt2 -> dt1 + dt2 < ms1 ->
  ms1 <= dt1 + dt2 + ms2 ->
  ms1 <= dt1 + dt2 + dt3 ->
  parseNotification value = Ok ack ->
  let acked := handleNotification value (elapse dt1 (snd (waitForAck e1 ms1 st))) in
  let later := waitForAck e2 ms2 (elapse dt2 acked) in
  let st' := elapse dt3 (snd later) in
  fst later = S (next_promise st)
  /\ calls_of (next_promise st) st'
     = calls_of (next_promise st) st ++ [ack_outcome e1 ack; Timeout]
  /\ forall l : list Stimulus, settled (fst later) (run l st') = None.
Proof.
  intros Ht Hfresh H1 H2 Hlt Hle Hdue Hparse acked later st'.
  destruct st as [c n rc pa oa cc ts fw lg]. cbn in Ht, Hfresh. subst ts.
  cbn [next_promise].
  set (v := ack_outcome e1 ack).
  set (t0 := mkTimer (c + ms1) (AckTimeout n)).
  set (t1 := mkTimer (c + dt1 + dt2 + ms2) (AckTimeout (S n))).
  assert (E2 : elapse dt1 (snd (waitForAck e1 ms1 (mkEngine c n rc pa oa cc [] fw lg)))
               = mkEngine (c + dt1) (S n) rc (Some (mkResolver e1 n)) oa cc [t0] fw lg).
  { unfold waitForAck, elapse. cbn -[Z.leb Z.add].
    replace (c + ms1 <=? c + dt1) with false by (symmetry; apply Z.leb_gt; lia).
    reflexivity. }
  assert (E3 : acked
               = mkEngine (c + dt1) (S n) (rc ++ [(n, v)]) None oa cc [t0] fw
                   (lg ++ [LogReceivedAck ack])).
  { unfold acked, handleNotification. rewrite Hparse, E2.
    unfold deliver, call_pendingAckResolve, v, ack_outcome. cbn -[Z.eqb].
    now destruct (ack_cmd ack =? e1). }
  assert (E4 : elapse dt2 acked
               = mkEngine (c + dt1 + dt2) (S n) (rc ++ [(n, v)]) None oa cc [t0] fw
                   (lg ++ [LogReceivedAck ack])).
  { rewrite E3. unfold elapse. cbn -[Z.leb Z.add].
    replace (c + ms1 <=? c + dt1 + dt2) with false by (symmetry; apply Z.leb_gt; lia).
    reflexivity. }
  assert (E5 : snd later
               = mkEngine (c + dt1 + dt2) (S (S n)) (rc ++ [(n, v)])
                   (Some (mkResolver e2 (S n))) oa cc [t0; t1] fw
                   (lg ++ [LogReceivedAck ack])).
  { unfold later. rewrite E4. unfold waitForAck, setTimeout.
    cbn -[Z.ltb Z.add].
    replace (c + dt1 + dt2 + ms2 <? c + ms1) with false by (symmetry; apply Z.ltb_ge; lia).
    reflexivity. }
  assert (Hfst : fst later = S n) by (unfold later; now rewrite E4).
  assert (E6 : resolve_calls st' = (rc ++ [(n, v)]) ++ [(n, Timeout)]
               /\ pendingAckResolve st' = None).
  { unfold st'. rewrite E5. unfold elapse. cbn -[Z.leb Z.add].
    replace (c + ms1 <=? c + dt1 + dt2 + dt3) with true by (symmetry; apply Z.leb_le; lia).
    cbn -[Z.leb Z.add].
    destruct (c + dt1 + dt2 + ms2 <=? c + dt1 + dt2 + dt3); cbn; split; reflexivity. }
  destruct E6 as [Er Ep].
  assert (Hne : Nat.eqb n (S n) = false) by (apply Nat.eqb_neq; lia).
  split; [exact Hfst|]. split.
  - unfold calls_of. rewrite Er, !filter_app, !map_app. cbn -[Nat.eqb].
    rewrite Nat.eqb_refl. cbn. now rewrite <- app_assoc.
  - intros l. rewrite Hfst. unfold settled.
    assert (Hclosed : slot_closed (S n) [] st').
    { split; [exact Ep|]. unfold calls_of in *. rewrite Er, !filter_app, !map_app, Hfresh.
      cbn -[Nat.eqb]. rewrite Hne. reflexivity. }
    now rewrite (proj2 (run_slot_closed _ _ l _ Hclosed)).
Qed.

Lemma stale_timer_starves_later_wait_witness :
  timers initial = [] /\ calls_of (S (next_promise initial)) initial = []
  /\ 0 <= 40 /\ 0 <= 10 /\ 40 + 10 < 1500 /\ 1500 <= 40 + 10 + 1500
  /\ 1500 <= 40 + 10 + 1450
  /\ parseNotification chunk_ack = Ok (mkAck 0x51 0x10 [0; 0; 0; 0])
  /\ forall l : list Stimulus,
       settled 1
         (run l (elapse 1450
                   (snd (waitForAck 0x51 1500
                           (elapse 10
                              (handleNotification chunk_ack
                                 (elapse 40 (snd (waitForAck 0x51 1500 initial)))))))))
       = None.
Proof.
  assert (Ht : timers initial = []) by reflexivity.
  assert (Hf : calls_of (S (next_promise initial)) initial = []) by reflexivity.
  assert (H1 : 0 <= 40) by lia.
  assert (H2 : 0 <= 10) by lia.
  assert (H3 : 40 + 10 < 1500) by lia.
  assert (H4 : 1500 <= 40 + 10 + 1500) by lia.
  assert (H5 : 1500 <= 40 + 10 + 1450) by lia.
  assert (Hok : parseNotification chunk_ack = Ok (mkAck 0x51 0x10 [0; 0; 0; 0]))
    by reflexivity.
  split; [exact Ht|]. split; [exact Hf|].
  split; [exact H1|]. split; [exact H2|]. split; [exact H3|]. split; [exact H4|].
  split; [exact H5|]. split; [exact Hok|].
  exact (proj2 (proj2 (stale_timer_starves_later_wait initial 0x51 1500 40 10 0x51 1500
                         1450 chunk_ack (mkAck 0x51 0x10 [0; 0; 0; 0])
                         Ht Hf H1 H2 H3 H4 H5 Hok))).
Defined.

(** ** The chunk transfer with retries *)

Lemma retry_loop_three ok attempt c :
  retry_loop 3 ok attempt c
  = if ok attempt then (true, S attempt, [c])
    else if ok (S attempt) then (true, S (S attempt), [c; c])
    else (ok (S (S attempt)), S (S (S attempt)), [c; c; c]).
Proof.
  cbn [retry_loop].
  destruct (ok attempt); [reflexivity|].
  destruct (ok (S attempt)); [reflexivity|].
  destruct (ok (S (S attempt))); reflexivity.
Qed.

Lemma attempts_plan_last_three fw counts :
  forall k, counts <> [] -> last counts 0%nat = 3%nat ->
            (3 <= length (attempts_plan fw k counts))%nat.
Proof.
  induction counts as [|c cs IH]; intros k Hne Hlast; [congruence|].
  cbn [attempts_plan]. rewrite length_app, repeat_length.
  destruct cs as [|c1 cs1].
  - cbn in Hlast. lia.
  - assert (3 <= length (attempts_plan fw (S k) (c1 :: cs1)))%nat
      by (apply IH; [discriminate | exact Hlast]).
    lia.
Qed.

Lemma transfer_loop_any_oracle ok fw :
  forall fuel (k : nat) offset chunkIndex attempt,
    offset = Z.min (otaChunkSize * Z.of_nat k) (Z.of_nat (length fw)) ->
    chunkIndex = Z.of_nat k ->
    (Z.to_nat (totalChunks fw) - k <= fuel)%nat ->
    let r := transfer_loop fuel ok fw otaChunkSize offset chunkIndex attempt in
    exists counts : list nat,
      snd r = attempts_plan fw k counts
      /\ Forall (fun c => (1 <= c <= 3)%nat) counts
      /\ ((fst r = TransferDone
           /\ length counts = (Z.to_nat (totalChunks fw) - k)%nat)
          \/ (fst r = TransferFailed (Z.of_nat (k + length counts))
              /\ (1 <= length counts <= Z.to_nat (totalChunks fw) - k)%nat
              /\ last counts 0%nat = 3%nat
              /\ forall i, (attempt + length (snd r) - 3 <= i < attempt + length (snd r))%nat ->
                           ok i = false)).
Proof.
  induction fuel as [|fuel IH]; intros k offset chunkIndex attempt Hoff Hidx Hfuel r.
  - pose proof (chunk_index_lt fw k) as Hk.
    assert (Hdone : Z.of_nat (length fw) <= otaChunkSize * Z.of_nat k) by lia.
    exists []. subst r. cbn [transfer_loop].
    replace (offset <? Z.of_nat (length fw)) with false
      by (symmetry; apply Z.ltb_ge; lia).
    cbn. split; [reflexivity|]. split; [constructor|]. left. split; [reflexivity|lia].
  - pose proof (chunk_index_lt fw k) as Hk.
    subst r. cbn [transfer_loop].
    destruct (Z.ltb_spec offset (Z.of_nat (length fw))) as [Hlt|Hge].
    + assert (Ho : offset = otaChunkSize * Z.of_nat k) by lia.
      assert (Hkt : Z.of_nat k < totalChunks fw) by (apply Hk; lia).
      set (chunk := JS.slice fw offset
                      (Z.min (offset + otaChunkSize) (Z.of_nat (length fw)))).
      assert (Hchunk : chunk
                = firstn (Z.to_nat (Z.min otaChunkSize (Z.of_nat (length fw) - offset)))
                    (skipn (Z.to_nat offset) fw)).
      { unfold chunk. rewrite slice_window by (unfold otaChunkSize in *; lia).
        f_equal. lia. }
      assert (Hclen : Z.of_nat (length chunk)
                      = Z.min otaChunkSize (Z.of_nat (length fw) - offset)).
      { rewrite Hchunk, length_firstn, length_skipn. unfold otaChunkSize in *. lia. }
      assert (Hc : mkSent offset chunk (chunkIndex + 1) (chunkFrame chunk offset)
                   = planned_chunk fw k).
      { unfold planned_chunk, chunkFrame, chunkPayload.
        rewrite le32_bytes, Hchunk, Ho, Hidx. reflexivity. }
      rewrite Hc, retry_loop_three.
      assert (Hnext : offset + Z.of_nat (length chunk)
                      = Z.min (otaChunkSize * Z.of_nat (S k)) (Z.of_nat (length fw)))
        by (rewrite Hclen; unfold otaChunkSize in *; lia).
      assert (Hidx' : chunkIndex + 1 = Z.of_nat (S k)) by lia.
      assert (Hfuel' : (Z.to_nat (totalChunks fw) - S k <= fuel)%nat) by lia.
      assert (Hsucc : forall n attempt',
                 (1 <= n <= 3)%nat ->
                 let r' := transfer_loop fuel ok fw otaChunkSize
                             (offset + Z.of_nat (length chunk)) (chunkIndex + 1) attempt' in
                 attempt' = (attempt + n)%nat ->
                 exists counts : list nat,
                   repeat (planned_chunk fw k) n ++ snd r' = attempts_plan fw k counts
                   /\ Forall (fun c => (1 <= c <= 3)%nat) counts
                   /\ ((fst r' = TransferDone
                        /\ length counts = (Z.to_nat (totalChunks fw) - k)%nat)
                       \/ (fst r' = TransferFailed (Z.of_nat (k + length counts))
                           /\ (1 <= length counts <= Z.to_nat (totalChunks fw) - k)%nat
                           /\ last counts 0%nat = 3%nat
                           /\ forall i,
                               (attempt + length (repeat (planned_chunk fw k) n ++ snd r') - 3
                                <= i
                                < attempt + length (repeat (planned_chunk fw k) n ++ snd r'))%nat ->
                               ok i = false))).
      { intros n attempt' Hn r' Ha.
        destruct (IH (S k) _ _ attempt' Hnext Hidx' Hfuel')
          as (counts & Hs & Hall & Hout).
        fold r' in Hs, Hout.
        exists (n :: counts). cbn [attempts_plan]. rewrite Hs.
        split; [reflexivity|]. split; [now constructor|].
        destruct Hout as [[Hd Hl]|(Hf & Hl & Hlast & Hno)].
        - left. split; [exact Hd|]. cbn [length]. lia.
        - right. split; [rewrite Hf; f_equal; cbn [length]; lia|].
          split; [cbn [length]; lia|].
          split.
          + destruct counts as [|c0 counts0]; [cbn in Hl; lia|exact Hlast].
          + intros i Hi. apply Hno. rewrite Hs.
            rewrite length_app, repeat_length in Hi.
            assert (3 <= length (attempts_plan fw (S k) counts))%nat
              by (apply attempts_plan_last_three; [intros ->; cbn in Hl; lia | exact Hlast]).
            lia. }
      destruct (ok attempt) eqn:E0.
      * destruct (transfer_loop fuel ok fw otaChunkSize
                    (offset + Z.of_nat (length chunk)) (chunkIndex + 1) (S attempt))
          as [outcome rest] eqn:ER.
        pose proof (Hsucc 1%nat (S attempt) ltac:(lia) ltac:(lia)) as H.
        cbv zeta in H. rewrite ER in H. exact H.
      * destruct (ok (S attempt)) eqn:E1.
        -- destruct (transfer_loop fuel ok fw otaChunkSize
                       (offset + Z.of_nat (length chunk)) (chunkIndex + 1) (S (S attempt)))
             as [outcome rest] eqn:ER.
           pose proof (Hsucc 2%nat (S (S attempt)) ltac:(lia) ltac:(lia)) as H.
           cbv zeta in H. rewrite ER in H. exact H.
        -- destruct (ok (S (S attempt))) eqn:E2.
           ++ destruct (transfer_loop fuel ok fw otaChunkSize
                          (offset + Z.of_nat (length chunk)) (chunkIndex + 1)
                          (S (S (S attempt))))
                as [outcome rest] eqn:ER.
              pose proof (Hsucc 3%nat (S (S (S attempt))) ltac:(lia) ltac:(lia)) as H.
              cbv zeta in H. rewrite ER in H. exact H.
           ++ exists [3%nat]. cbn [fst snd attempts_plan repeat app length last].
              split; [reflexivity|].
              split; [repeat constructor|].
              right. split; [f_equal; lia|]. split; [lia|]. split; [reflexivity|].
              intros i Hi.
              assert (Hcase : i = attempt \/ i = S attempt \/ i = S (S attempt)) by lia.
              destruct Hcase as [->|[->| ->]]; assumption.
    + assert (Hdone : ~ Z.of_nat k < totalChunks fw) by (unfold otaChunkSize in *; lia).
      exists []. cbn. split; [reflexivity|]. split; [constructor|].
      left. split; [reflexivity|lia].
Qed.

(** X11.  The retry discipline of the chunk loop, in a session in which
    every call of [sendFirmwareChunk] returns.  Whatever results the calls
    return, the loop ends as done or as failed, and the calls it has made are
    the planned chunks in order, each tried one, two or three times.  Either
    the transfer is done and every chunk of the plan has been tried, or it
    has failed at the chunk that was tried last: that chunk was tried three
    times and the last three calls were all refused.  A session in which a
    call does not return, as when a stale timer starves its wait (X10), is
    suspended at that call and is not covered. *)
Theorem transferChunks_retries (ok : nat -> bool) (fw : list Z) :
  exists counts : list nat,
    snd (transferChunks ok fw) = attempts_plan fw 0 counts
    /\ Forall (fun c => (1 <= c <= 3)%nat) counts
    /\ ((fst (transferChunks ok fw) = TransferDone
         /\ Z.of_nat (length counts) = totalChunks fw)
        \/ (fst (transferChunks ok fw) = TransferFailed (Z.of_nat (length counts))
            /\ 1 <= Z.of_nat (length counts) <= totalChunks fw
            /\ last counts 0%nat = 3%nat
            /\ forall i,
                (length (snd (transferChunks ok fw)) - 3 <= i
                 < length (snd (transferChunks ok fw)))%nat ->
                ok i = false)).
Proof.
  pose proof (totalChunks_le fw) as Ht.
  destruct (transfer_loop_any_oracle ok fw (length fw) 0 0 0 0)
    as (counts & Hs & Hall & Hout).
  - unfold otaChunkSize. lia.
  - reflexivity.
  - lia.
  - fold (transferChunks ok fw) in Hs, Hout.
    exists counts. split; [exact Hs|]. split; [exact Hall|].
    destruct Hout as [[Hd Hl]|(Hf & Hl & Hlast & Hno)].
    + left. split; [exact Hd|]. lia.
    + right. split; [exact Hf|]. split; [lia|]. split; [exact Hlast|].
      intros i Hi. apply Hno. cbn [Nat.add]. exact Hi.
Qed.

Lemma transfer_loop_acknowledged ok fw :
  forall fuel offset chunkIndex attempt,
    0 <= offset ->
    let r := transfer_loop fuel ok fw otaChunkSize offset chunkIndex attempt in
    fst r = TransferDone ->
    concat (map sent_data (acknowledged ok attempt (snd r)))
    = skipn (Z.to_nat offset) fw.
Proof.
  induction fuel as [|fuel IH]; intros offset chunkIndex attempt Hoff r Hdone.
  - subst r. cbn [transfer_loop] in *.
    destruct (Z.ltb_spec offset (Z.of_nat (length fw))) as [Hlt|Hge].
    + discriminate.
    + cbn. symmetry. apply skipn_all2. lia.
  - subst r. cbn [transfer_loop] in *.
    destruct (Z.ltb_spec offset (Z.of_nat (length fw))) as [Hlt|Hge].
    2:{ cbn. symmetry. apply skipn_all2. lia. }
    set (chunk := JS.slice fw offset
                    (Z.min (offset + otaChunkSize) (Z.of_nat (length fw)))) in *.
    assert (Hchunk : chunk
              = firstn (Z.to_nat (Z.min otaChunkSize (Z.of_nat (length fw) - offset)))
                  (skipn (Z.to_nat offset) fw)).
    { unfold chunk. rewrite slice_window by (unfold otaChunkSize in *; lia).
      f_equal. lia. }
    assert (Hclen : Z.of_nat (length chunk)
                    = Z.min otaChunkSize (Z.of_nat (length fw) - offset)).
    { rewrite Hchunk, length_firstn, length_skipn. unfold otaChunkSize in *. lia. }
    assert (Hsplit : chunk ++ skipn (Z.to_nat (offset + Z.of_nat (length chunk))) fw
                     = skipn (Z.to_nat offset) fw).
    { rewrite <- (firstn_skipn (length chunk) (skipn (Z.to_nat offset) fw)).
      rewrite skipn_skipn. f_equal.
      - rewrite Hchunk at 1. f_equal. lia.
      - f_equal. lia. }
    set (c := mkSent offset chunk (chunkIndex + 1) (chunkFrame chunk offset)) in *.
    rewrite retry_loop_three in Hdone |- *.
    assert (Hnext : 0 <= offset + Z.of_nat (length chunk)) by lia.
    destruct (ok attempt) eqn:E0.
    + specialize (IH (offset + Z.of_nat (length chunk)) (chunkIndex + 1) (S attempt) Hnext).
      cbv zeta in IH.
      destruct (transfer_loop fuel ok fw otaChunkSize
                  (offset + Z.of_nat (length chunk)) (chunkIndex + 1) (S attempt))
        as [outcome rest].
      cbn [fst snd app acknowledged] in *. rewrite E0.
      cbn [app map concat sent_data c]. rewrite (IH Hdone). exact Hsplit.
    + destruct (ok (S attempt)) eqn:E1.
      * specialize (IH (offset + Z.of_nat (length chunk)) (chunkIndex + 1)
                       (S (S attempt)) Hnext).
        cbv zeta in IH.
        destruct (transfer_loop fuel ok fw otaChunkSize
                    (offset + Z.of_nat (length chunk)) (chunkIndex + 1) (S (S attempt)))
          as [outcome rest].
        cbn [fst snd app acknowledged] in *. rewrite E0, E1.
        cbn [app map concat sent_data c]. rewrite (IH Hdone). exact Hsplit.
      * destruct (ok (S (S attempt))) eqn:E2; [|discriminate].
        specialize (IH (offset + Z.of_nat (length chunk)) (chunkIndex + 1)
                       (S (S (S attempt))) Hnext).
        cbv zeta in IH.
        destruct (transfer_loop fuel ok fw otaChunkSize
                    (offset + Z.of_nat (length chunk)) (chunkIndex + 1)
                    (S (S (S attempt))))
          as [outcome rest].
        cbn [fst snd app acknowledged] in *. rewrite E0, E1, E2.
        cbn [app map concat sent_data c]. rewrite (IH Hdone). exact Hsplit.
Qed.

(** X12.  When the chunk loop completes, the data of the calls of
    [sendFirmwareChunk] that were acknowledged, put end to end in the order
    they were sent, is the firmware: every byte is acknowledged exactly once,
    whatever was retried on the way. *)
Theorem completed_transfer_carries_the_firmware (ok : nat -> bool) (fw : list Z) :
  fst (transferChunks ok fw) = TransferDone ->
  concat (map sent_data (acknowledged ok 0 (snd (transferChunks ok fw)))) = fw.
Proof.
  intros Hdone.
  exact (transfer_loop_acknowledged ok fw (length fw) 0 0 0%nat ltac:(lia) Hdone).
Qed.

Lemma completed_transfer_carries_the_firmware_witness :
  let ok := fun n => negb (Nat.eqb n 1 || Nat.eqb n 2) in
  let fw := map Z.of_nat (seq 0 200) in
  fst (transferChunks ok fw) = TransferDone
  /\ map sent_offset (snd (transferChunks ok fw)) = [0; 128; 128; 128]
  /\ concat (map sent_data (acknowledged ok 0 (snd (transferChunks ok fw)))) = fw.
Proof.
  intros ok fw.
  assert (Hdone : fst (transferChunks ok fw) = TransferDone) by (vm_compute; reflexivity).
  split; [exact Hdone|]. split; [vm_compute; reflexivity|].
  exact (completed_transfer_carries_the_firmware ok fw Hdone).
Defined.

(** ** Offsets and sizes on the wire *)

Lemma echoedOffset_echoedChecksum payload :
  echoedOffset payload = echoedChecksum (0 :: 0 :: 0 :: 0 :: payload).
Proof.
  unfold echoedOffset, echoedChecksum. now rewrite !index_num_nth.
Qed.

Lemma echoedOffset_le32 offset rest :
  0 <= offset < 2 ^ 32 ->
  bytes rest ->
  echoedOffset (le32 offset ++ rest)
  = if offset <? 2 ^ 31 then offset else offset - 2 ^ 32.
Proof.
  intros Ho Hr. rewrite echoedOffset_echoedChecksum.
  assert (Hb : bytes (0 :: 0 :: 0 :: 0 :: le32 offset ++ rest)).
  { pose proof (le32_is_bytes offset). auto 10 with bytes. }
  pose proof (echoedChecksum_bytes _ Hb) as He. cbv zeta in He.
  rewrite He, le32_bytes. cbn [nth app].
  destruct (le32_recompose offset Ho) as (R0 & R1 & R2).
  rewrite R1 in R0 |- *. rewrite R2.
  change (2 ^ 31) with 2147483648 in *. change (2 ^ 32) with 4294967296 in *.
  destruct (offset <? 2147483648); lia.
Qed.

(** X13.  [sendFirmwareChunk] waits for command 0x51 for 1500 ms, and the
    device acknowledges a chunk with a frame of command 0x51 whose payload
    starts with the four offset bytes it received.  When the wait is
    registered while no timer is pending and the frame arrives before the
    1500 ms are over, whatever the decoder rejects arriving in between, the
    frame passes the decoder, the resolve function of the wait is called
    exactly once, with the decoded acknowledgment, whatever follows, and on
    the value the wait settles with [sendFirmwareChunk] returns [true]; the
    echoed offset it rebuilds is found equal to the offset sent for every
    offset below 2^31, and is reported as a mismatch, being read as a
    negative number, from 2^31 on. *)
Theorem echoed_offset_is_confirmed (st : Engine) (offset reserved : Z)
  (rest : list Z) (before after : list Stimulus) :
  timers st = [] ->
  calls_of (next_promise st) st = [] ->
  0 <= offset < 2 ^ 32 ->
  is_byte reserved ->
  bytes rest ->
  Z.of_nat (length rest) <= 65525 ->
  quiet before = true ->
  elapsed before < 1500 ->
  let w := waitForAck 0x51 1500 st in
  let frame := ack_frame 0x51 reserved (le32 offset ++ rest) in
  let st' := run after (handleNotification frame (run before (snd w))) in
  exists a,
    parseNotification frame = Ok a
    /\ pendingAckResolve st' = None
    /\ calls_of (fst w) st' = [AckOk a]
    /\ settled (fst w) st' = Some (AckOk a)
    /\ sendFirmwareChunk_after_ack offset (AckOk a)
       = (true,
          Some (if offset <? 2 ^ 31 then OffsetConfirmed
                else OffsetMismatch offset (offset - 2 ^ 32))).
Proof.
  intros Ht Hfresh Ho Hres Hr Hn Hq Hel w frame st'.
  pose proof (le32_is_bytes offset) as Hle.
  set (a := mkAck 0x51 reserved (le32 offset ++ rest)).
  assert (Hok : parseNotification frame = Ok a).
  { apply ack_frame_decodes; auto with bytes.
    rewrite length_app. cbn [le32 length]. lia. }
  destruct (waitForAck_waiting 0x51 1500 st Ht Hfresh) as (Hp & Hclock & Hwait).
  fold w in Hp, Hclock, Hwait.
  assert (Hclosed : slot_closed (fst w) [AckOk a] st').
  { apply run_slot_closed. rewrite Hp.
    change (AckOk a) with (ack_outcome 0x51 a).
    apply (waiting_acknowledged 0x51 _ (clock st + 1500) frame a _ Hok).
    apply quiet_keeps_waiting; [exact Hq | rewrite Hclock; lia | exact Hwait]. }
  exists a. split; [exact Hok|].
  split; [exact (proj1 Hclosed)|].
  split; [exact (proj2 Hclosed)|].
  split; [unfold settled; now rewrite (proj2 Hclosed)|].
  cbn [sendFirmwareChunk_after_ack ack_payload a]. unfold verifyEchoedOffset.
  replace (4 <=? Z.of_nat (length (le32 offset ++ rest))) with true
    by (symmetry; apply Z.leb_le; rewrite length_app; cbn [le32 length]; lia).
  rewrite (echoedOffset_le32 offset rest Ho Hr).
  change (2 ^ 31) with 2147483648 in *. change (2 ^ 32) with 4294967296 in *.
  destruct (Z.ltb_spec offset 2147483648).
  - now rewrite Z.eqb_refl.
  - replace (offset - 4294967296 =? offset) with false
      by (symmetry; apply Z.eqb_neq; lia).
    reflexivity.
Qed.

(** The second chunk of a transfer, acknowledged 40 ms after the wait was
    registered, a corrupt frame having arrived first. *)
Lemma echoed_offset_is_confirmed_witness :
  let w := waitForAck 0x51 1500 initial in
  let before := [Elapse 15; Notification [0x73; 7; 0; 0xFF; 0x01; 0x00; 0x00]; Elapse 25] in
  let st' := run [Elapse 5000]
               (handleNotification (ack_frame 0x51 0x10 (le32 128 ++ []))
                  (run before (snd w))) in
  timers initial = []
  /\ calls_of (next_promise initial) initial = []
  /\ 0 <= 128 < 2 ^ 32 /\ is_byte 0x10 /\ bytes [] /\ Z.of_nat (length (@nil Z)) <= 65525
  /\ quiet before = true
  /\ elapsed before < 1500
  /\ exists a,
       parseNotification (ack_frame 0x51 0x10 (le32 128 ++ [])) = Ok a
       /\ pendingAckResolve st' = None
       /\ calls_of (fst w) st' = [AckOk a]
       /\ settled (fst w) st' = Some (AckOk a)
       /\ sendFirmwareChunk_after_ack 128 (AckOk a)
          = (true, Some (if 128 <? 2 ^ 31 then OffsetConfirmed
                         else OffsetMismatch 128 (128 - 2 ^ 32))).
Proof.
  intros w before st'.
  assert (Ht : timers initial = []) by reflexivity.
  assert (Hf : calls_of (next_promise initial) initial = []) by reflexivity.
  assert (Ho : 0 <= 128 < 2 ^ 32) by lia.
  assert (Hres : is_byte 0x10) by (unfold is_byte; lia).
  assert (Hr : bytes []) by constructor.
  assert (Hn : Z.of_nat (length (@nil Z)) <= 65525) by (simpl; lia).
  assert (Hq : quiet before = true) by reflexivity.
  assert (He : elapsed before < 1500) by (cbn; lia).
  repeat (split; [assumption|]).
  exact (echoed_offset_is_confirmed initial 128 0x10 [] before [Elapse 5000]
           Ht Hf Ho Hres Hr Hn Hq He).
Defined.

Lemma le32_value x :
  x mod 256 + 2 ^ 8 * ((x / 2 ^ 8) mod 256) + 2 ^ 16 * ((x / 2 ^ 16) mod 256)
  + 2 ^ 24 * ((x / 2 ^ 24) mod 256) = x mod 2 ^ 32.
Proof.
  change (2 ^ 8) with 256. change (2 ^ 16) with 65536.
  change (2 ^ 24) with 16777216. change (2 ^ 32) with 4294967296.
  pose proof (Z.div_mod x 256 ltac:(lia)) as D0.
  pose proof (Z.mod_pos_bound x 256 ltac:(lia)) as B0.
  pose proof (Z.div_mod (x / 256) 256 ltac:(lia)) as D1.
  pose proof (Z.mod_pos_bound (x / 256) 256 ltac:(lia)) as B1.
  pose proof (Z.div_mod (x / 65536) 256 ltac:(lia)) as D2.
  pose proof (Z.mod_pos_bound (x / 65536) 256 ltac:(lia)) as B2.
  pose proof (Z.div_mod (x / 16777216) 256 ltac:(lia)) as D3.
  pose proof (Z.mod_pos_bound (x / 16777216) 256 ltac:(lia)) as B3.
  assert (E1 : x / 256 / 256 = x / 65536) by (rewrite Z.div_div by lia; reflexivity).
  assert (E2 : x / 65536 / 256 = x / 16777216) by (rewrite Z.div_div by lia; reflexivity).
  rewrite E1 in D1. rewrite E2 in D2.
  apply (Z.mod_unique x 4294967296 (x / 16777216 / 256)); lia.
Qed.

(** X14.  The frame [sendFirmwareSize] writes is 14 bytes long: the header
    0x73, the length field 11 in two bytes, the command 0x50, the reserved
    byte 0x10, the firmware size and the checksum in four bytes each, least
    significant first, and the XOR of these thirteen bytes.  The size and the
    checksum read back from the frame are the values modulo 2^32. *)
Theorem sizeFrame_layout (firmwareSize firmwareChecksum : Z) :
  let frame := sizeFrame firmwareSize firmwareChecksum in
  let at_ i := nth i frame 0 in
  frame = [0x73; 11; 0; 0x50; 0x10] ++ le32 firmwareSize ++ le32 firmwareChecksum
          ++ [xor_bytes ([0x73; 11; 0; 0x50; 0x10]
                         ++ le32 firmwareSize ++ le32 firmwareChecksum)]
  /\ length frame = 14%nat
  /\ bytes frame
  /\ at_ 5%nat + 2 ^ 8 * at_ 6%nat + 2 ^ 16 * at_ 7%nat + 2 ^ 24 * at_ 8%nat
     = firmwareSize mod 2 ^ 32
  /\ at_ 9%nat + 2 ^ 8 * at_ 10%nat + 2 ^ 16 * at_ 11%nat + 2 ^ 24 * at_ 12%nat
     = firmwareChecksum mod 2 ^ 32
  /\ calculateXORChecksum frame = 0.
Proof.
  intros frame at_.
  pose proof (le32_is_bytes firmwareSize) as Hs.
  pose proof (le32_is_bytes firmwareChecksum) as Hc.
  assert (Hp : bytes (sizePayload firmwareSize firmwareChecksum))
    by (unfold sizePayload; auto with bytes).
  assert (H50 : is_byte 0x50) by (unfold is_byte; lia).
  assert (H10 : is_byte 0x10) by (unfold is_byte; lia).
  assert (E : frame = [0x73; 11; 0; 0x50; 0x10] ++ le32 firmwareSize ++ le32 firmwareChecksum
          ++ [xor_bytes ([0x73; 11; 0; 0x50; 0x10]
                         ++ le32 firmwareSize ++ le32 firmwareChecksum)]).
  { unfold frame, sizeFrame.
    rewrite (createBLEOTAFrame_layout _ _ _ H50 H10 Hp).
    unfold ota_body, sizePayload. rewrite length_app. cbn [le32 length].
    change ((Z.of_nat (4 + 4) + 3) mod 256) with 11.
    change ((Z.of_nat (4 + 4) + 3) / 256 mod 256) with 0.
    cbn [app]. rewrite <- !app_assoc. reflexivity. }
  assert (Hb : bytes frame).
  { rewrite E.
    assert (bytes ([0x73; 11; 0; 0x50; 0x10] ++ le32 firmwareSize ++ le32 firmwareChecksum))
      by auto 10 with bytes.
    pose proof (xor_bytes_is_byte _ H).
    rewrite !app_assoc. apply bytes_app; [rewrite <- !app_assoc; assumption|].
    auto with bytes. }
  split; [exact E|]. split; [rewrite E; reflexivity|]. split; [exact Hb|].
  split; [|split].
  - unfold at_. rewrite E, !le32_bytes. cbn [nth app]. apply le32_value.
  - unfold at_. rewrite E, !le32_bytes. cbn [nth app]. apply le32_value.
  - unfold frame, sizeFrame.
    rewrite (createBLEOTAFrame_layout _ _ _ H50 H10 Hp).
    rewrite calculateXORChecksum_bytes
      by (apply bytes_app; [now apply ota_body_bytes|];
          pose proof (xor_bytes_is_byte _ (ota_body_bytes _ _ _ H50 H10 Hp));
          auto with bytes).
    apply xor_bytes_snoc_self.
Qed.

(** ** Specialised commands *)

Lemma le16_value x : x mod 256 + 256 * ((x / 256) mod 256) = x mod 65536.
Proof.
  pose proof (Z.div_mod x 256 ltac:(lia)) as D0.
  pose proof (Z.mod_pos_bound x 256 ltac:(lia)) as B0.
  pose proof (Z.div_mod (x / 256) 256 ltac:(lia)) as D1.
  pose proof (Z.mod_pos_bound (x / 256) 256 ltac:(lia)) as B1.
  apply (Z.mod_unique x 65536 (x / 256 / 256)); lia.
Qed.

(** X15.  The frame of [setCurrentDateTime] is twelve bytes: 0x73, the length
    12, 0x23, the command 0x0B, the year in two bytes, least significant
    first, the month counted from 1, the day, the hour, the minute, the
    second, and the XOR of the eleven bytes before it.  The two year bytes
    hold the year modulo 65536, so every year the calendar can reach before
    65536 is read back unchanged. *)
Theorem dateTimeFrame_layout (year monthIndex day hour minute second : Z) :
  0 <= monthIndex <= 11 -> 1 <= day <= 31 -> 0 <= hour <= 23 ->
  0 <= minute <= 59 -> 0 <= second <= 59 ->
  let frame := dateTimeFrame year monthIndex day hour minute second in
  let body := [0x73; 12; 0x23; 0x0B; year mod 256; (year / 256) mod 256;
               monthIndex + 1; day; hour; minute; second] in
  frame = body ++ [xor_bytes body]
  /\ bytes frame
  /\ nth 4 frame 0 + 256 * nth 5 frame 0 = year mod 65536
  /\ (0 <= year < 65536 -> nth 4 frame 0 + 256 * nth 5 frame 0 = year).
Proof.
  intros Hmo Hd Hh Hmi Hs frame body.
  assert (Hp : bytes (dateTimePayload year monthIndex day hour minute second)).
  { unfold dateTimePayload. rewrite band_low_byte, band_sar_byte by lia.
    auto 12 with bytes. }
  assert (Hc : is_byte 0x0B) by (unfold is_byte; lia).
  destruct (createCommandMessage_layout 0x0B (Some _) Hc Hp) as [E Hb].
  cbv zeta in E, Hb. cbn [payload_or_empty] in E, Hb.
  assert (Ef : frame = body ++ [xor_bytes body]).
  { unfold frame, dateTimeFrame. rewrite E. unfold dateTimePayload.
    rewrite band_low_byte, band_sar_byte by lia. reflexivity. }
  assert (Hbody : bytes body).
  { unfold dateTimePayload in Hb. rewrite band_low_byte, band_sar_byte in Hb by lia.
    exact Hb. }
  split; [exact Ef|]. split.
  - rewrite Ef. pose proof (xor_bytes_is_byte _ Hbody). auto with bytes.
  - assert (Ey : nth 4 frame 0 + 256 * nth 5 frame 0 = year mod 65536).
    { rewrite Ef. cbn [body app nth]. apply le16_value. }
    split; [exact Ey|]. intros Hy. rewrite Ey. apply Z.mod_small. exact Hy.
Qed.

Lemma dateTimeFrame_layout_witness :
  0 <= 10 <= 11 /\ 1 <= 2 <= 31 /\ 0 <= 13 <= 23 /\ 0 <= 37 <= 59 /\ 0 <= 5 <= 59
  /\ dateTimeFrame 2026 10 2 13 37 5
     = [0x73; 12; 0x23; 0x0B; 0xEA; 0x07; 11; 2; 13; 37; 5;
        xor_bytes [0x73; 12; 0x23; 0x0B; 0xEA; 0x07; 11; 2; 13; 37; 5]].
Proof.
  assert (H1 : 0 <= 10 <= 11) by lia.
  assert (H2 : 1 <= 2 <= 31) by lia.
  assert (H3 : 0 <= 13 <= 23) by lia.
  assert (H4 : 0 <= 37 <= 59) by lia.
  assert (H5 : 0 <= 5 <= 59) by lia.
  split; [exact H1|]. split; [exact H2|]. split; [exact H3|]. split; [exact H4|].
  split; [exact H5|].
  exact (proj1 (dateTimeFrame_layout 2026 10 2 13 37 5 H1 H2 H3 H4 H5)).
Defined.

(** X16.  [setLocalApiPort] sends a frame exactly when [parseInt] returned a
    number from 1 to 65535.  The frame is then eight bytes: 0x73, the length
    8, 0x23, the command 0x28, the enable flag 0x01, the port in two bytes,
    least significant first, and the XOR of the seven bytes before it; the
    port is read back unchanged from its two bytes. *)
Theorem localApiPortFrame_layout (parsed : option Z) (frame : list Z) :
  localApiPortFrame parsed = Some frame
  <-> exists port,
        parsed = Some port /\ 1 <= port <= 65535
        /\ frame = [0x73; 8; 0x23; 0x28; 0x01; port mod 256; port / 256]
                   ++ [xor_bytes [0x73; 8; 0x23; 0x28; 0x01; port mod 256; port / 256]]
        /\ bytes frame
        /\ nth 5 frame 0 + 256 * nth 6 frame 0 = port.
Proof.
  assert (Hgood : forall port, 1 <= port <= 65535 ->
            localApiPortFrame (Some port)
            = Some ([0x73; 8; 0x23; 0x28; 0x01; port mod 256; port / 256]
                    ++ [xor_bytes [0x73; 8; 0x23; 0x28; 0x01; port mod 256; port / 256]])
            /\ bytes [0x73; 8; 0x23; 0x28; 0x01; port mod 256; port / 256]).
  { intros port Hp. unfold localApiPortFrame, localApiPortPayload.
    replace (port <? 1) with false by (symmetry; apply Z.ltb_ge; lia).
    replace (65535 <? port) with false by (symmetry; apply Z.ltb_ge; lia).
    cbn [orb]. rewrite band_low_byte, band_sar_byte by lia.
    change (2 ^ 8) with 256.
    assert (Hhi : 0 <= port / 256 < 256).
    { split; [apply Z.div_pos; lia | apply Z.div_lt_upper_bound; lia]. }
    rewrite (Z.mod_small (port / 256)) by lia.
    assert (Hpl : bytes [0x01; port mod 256; port / 256]) by auto 10 with bytes.
    assert (Hc : is_byte 0x28) by (unfold is_byte; lia).
    destruct (createCommandMessage_layout 0x28 (Some _) Hc Hpl) as [E Hb].
    cbv zeta in E, Hb. cbn [payload_or_empty] in E, Hb.
    rewrite E. split; [reflexivity | exact Hb]. }
  split.
  - intros H. destruct parsed as [port|]; [|discriminate].
    destruct (Z.ltb_spec port 1) as [Hlo|Hlo];
      [unfold localApiPortFrame, localApiPortPayload in H;
       replace (port <? 1) with true in H by (symmetry; apply Z.ltb_lt; lia);
       discriminate|].
    destruct (Z.ltb_spec 65535 port) as [Hhi|Hhi];
      [unfold localApiPortFrame, localApiPortPayload in H;
       replace (65535 <? port) with true in H by (symmetry; apply Z.ltb_lt; lia);
       rewrite orb_true_r in H; discriminate|].
    destruct (Hgood port ltac:(lia)) as [E Hb].
    assert (Hf : frame
                 = [0x73; 8; 0x23; 0x28; 0x01; port mod 256; port / 256]
                   ++ [xor_bytes [0x73; 8; 0x23; 0x28; 0x01; port mod 256; port / 256]])
      by congruence.
    clear H E. rewrite Hf.
    exists port. split; [reflexivity|]. split; [lia|]. split; [reflexivity|].
    split.
    + pose proof (xor_bytes_is_byte _ Hb). apply bytes_app; [exact Hb | auto with bytes].
    + cbn [app nth]. pose proof (Z.div_mod port 256 ltac:(lia)). lia.
  - intros (port & -> & Hp & -> & _). apply (Hgood port Hp).
Qed.

(** ** Regular responses *)

(** X17.  A notification that is neither an activation reply that is waited
    for nor of acknowledgment shape is handed to the data parser under the
    name of the command in flight, and the marker is cleared; the mailbox,
    the timers and an activation wait that may be outstanding are not
    touched.  The next notification of that kind is then dropped: one
    command takes one response. *)
Theorem regular_response_is_forwarded_once (value value' : list Z) (st : Engine)
  (c : CurrentCommand) :
  activation_waiter value st = None ->
  looks_like_ota_ack value = false ->
  activation_waiter value' st = None ->
  looks_like_ota_ack value' = false ->
  currentCommand st = Some c ->
  truthy (Some c) = true ->
  let st1 := notificationHandler value st in
  let st2 := notificationHandler value' st1 in
  forwarded st1 = forwarded st ++ [(value, c)]
  /\ currentCommand st1 = None
  /\ forwarded st2 = forwarded st1
  /\ currentCommand st2 = None
  /\ resolve_calls st2 = resolve_calls st
  /\ pendingAckResolve st2 = pendingAckResolve st
  /\ timers st2 = timers st
  /\ otaActivationResolve st2 = otaActivationResolve st.
Proof.
  intros Ha Hv Ha' Hv' Hc Ht st1 st2.
  assert (E1 : st1 = set_currentCommand None
                       (forward value c (add_log (LogResponseReceived value) st))).
  { unfold st1, notificationHandler.
    change (activation_waiter value (add_log (LogResponseReceived value) st))
      with (activation_waiter value st).
    rewrite Ha, Hv.
    unfold regular_response. cbn [add_log currentCommand]. rewrite Hc, Ht.
    reflexivity. }
  assert (E2 : st2 = add_log (LogResponseReceived value') st1).
  { unfold st2, notificationHandler. rewrite E1.
    change (activation_waiter value' _) with (activation_waiter value' st).
    rewrite Ha', Hv'. reflexivity. }
  rewrite E2, E1. cbn. repeat split.
Qed.

(** The response to a command arrives while an activation wait is
    outstanding; it is not a reply to command 0x1F. *)
Lemma regular_response_is_forwarded_once_witness :
  let st := set_currentCommand (Some (CmdName Names.SetDateTime))
              (set_otaActivationResolve (Some 7%nat) initial) in
  activation_waiter [0x73; 6; 0x23; 0x03; 0x01; 0x44] st = None
  /\ looks_like_ota_ack [0x73; 6; 0x23; 0x03; 0x01; 0x44] = false
  /\ currentCommand st = Some (CmdName Names.SetDateTime)
  /\ truthy (Some (CmdName Names.SetDateTime)) = true
  /\ forwarded (notificationHandler [0x73; 6; 0x23; 0x03; 0x01; 0x44]
                  (notificationHandler [0x73; 6; 0x23; 0x03; 0x01; 0x44] st))
     = [([0x73; 6; 0x23; 0x03; 0x01; 0x44], CmdName Names.SetDateTime)]
  /\ otaActivationResolve
       (notificationHandler [0x73; 6; 0x23; 0x03; 0x01; 0x44]
          (notificationHandler [0x73; 6; 0x23; 0x03; 0x01; 0x44] st))
     = Some 7%nat.
Proof.
  intros st.
  assert (Ha : activation_waiter [0x73; 6; 0x23; 0x03; 0x01; 0x44] st = None)
    by reflexivity.
  assert (Hv : looks_like_ota_ack [0x73; 6; 0x23; 0x03; 0x01; 0x44] = false)
    by reflexivity.
  assert (Hc : currentCommand st = Some (CmdName Names.SetDateTime)) by reflexivity.
  assert (Ht : truthy (Some (CmdName Names.SetDateTime)) = true) by reflexivity.
  split; [exact Ha|]. split; [exact Hv|]. split; [exact Hc|]. split; [exact Ht|].
  pose proof (regular_response_is_forwarded_once _ _ st _ Ha Hv Ha Hv Hc Ht) as H.
  cbv zeta in H. destruct H as (H1 & _ & H3 & _ & _ & _ & _ & H8).
  split; [rewrite H3, H1; reflexivity | rewrite H8; reflexivity].
Defined.

(** ** More on the firmware checksum *)

Lemma sum_of_permutation l l' : Permutation l l' -> sum_of l = sum_of l'.
Proof.
  unfold sum_of. induction 1; cbn [fold_right] in *; lia.
Qed.

Lemma an_checksum_firmware_checksum fw :
  an_checksum (analyzeFirmware fw) = firmware_checksum fw.
Proof. unfold analyzeFirmware. now destruct (firmware_type fw). Qed.

(** X18.  The firmware checksum only depends on which bytes the firmware
    holds and how often, not on where they are: two images that are
    rearrangements of each other have the same checksum. *)
Theorem checksum_ignores_byte_order (fw fw' : list Z) :
  Permutation fw fw' ->
  an_checksum (analyzeFirmware fw) = an_checksum (analyzeFirmware fw').
Proof.
  intros Hp. rewrite !an_checksum_firmware_checksum, !firmware_checksum_formula.
  now rewrite (sum_of_permutation fw fw' Hp).
Qed.

Lemma checksum_ignores_byte_order_witness :
  Permutation [0x01; 0x02; 0x03] [0x02; 0x01; 0x03]
  /\ an_checksum (analyzeFirmware [0x01; 0x02; 0x03])
     = an_checksum (analyzeFirmware [0x02; 0x01; 0x03]).
Proof.
  assert (Hp : Permutation [0x01; 0x02; 0x03] [0x02; 0x01; 0x03]) by apply perm_swap.
  split; [exact Hp|].
  exact (checksum_ignores_byte_order _ _ Hp).
Defined.

Lemma sum_of_bytes_bound l : bytes l -> 0 <= sum_of l <= 255 * Z.of_nat (length l).
Proof.
  induction 1 as [|b l Hb Hl IH]; cbn [sum_of fold_right length].
  - lia.
  - fold (sum_of l). unfold is_byte in Hb. lia.
Qed.

Lemma echoedChecksum_sizePayload size c :
  0 <= c < 2 ^ 32 ->
  echoedChecksum (sizePayload size c) = if c <? 2 ^ 31 then c else c - 2 ^ 32.
Proof.
  intros Hc.
  assert (Hb : bytes (sizePayload size c)).
  { unfold sizePayload. pose proof (le32_is_bytes size). pose proof (le32_is_bytes c).
    auto with bytes. }
  pose proof (echoedChecksum_bytes _ Hb) as He. cbv zeta in He.
  rewrite He. unfold sizePayload. rewrite !le32_bytes. cbn [nth app].
  destruct (le32_recompose c Hc) as (R0 & R1 & R2).
  rewrite R1 in R0 |- *. rewrite R2.
  change (2 ^ 31) with 2147483648 in *. change (2 ^ 32) with 4294967296 in *.
  destruct (c <? 2147483648); lia.
Qed.

(** X19.  For every firmware image shorter than 8421505 bytes the byte sum
    stays below 2^31, so the checksum that [analyzeFirmware] stores has its
    top bit set.  When the device echoes the size payload byte for byte,
    [sendFirmwareSize] therefore reports a checksum mismatch, and returns
    [true] all the same. *)
Theorem small_firmware_echo_is_reported_as_mismatch (fw : list Z) (cmd reserved : Z) :
  bytes fw ->
  Z.of_nat (length fw) <= 8421504 ->
  let c := an_checksum (analyzeFirmware fw) in
  2 ^ 31 <= c
  /\ sendFirmwareSize_after_ack c
       (AckOk (mkAck cmd reserved (sizePayload (Z.of_nat (length fw)) c)))
     = (true, Some (ChecksumMismatch c (c - 2 ^ 32))).
Proof.
  intros Hb Hlen c.
  assert (Ec : c = firmware_checksum fw) by apply an_checksum_firmware_checksum.
  pose proof (firmware_checksum_range fw) as Hr. rewrite <- Ec in Hr.
  pose proof (firmware_checksum_formula fw) as Hf. rewrite <- Ec in Hf.
  pose proof (sum_of_bytes_bound fw Hb) as Hs.
  change (2 ^ 31) with 2147483648 in *. change (2 ^ 32) with 4294967296 in *.
  rewrite Z.mod_small in Hf by lia.
  assert (Htop : 2147483648 <= c) by lia.
  split; [exact Htop|].
  cbn [sendFirmwareSize_after_ack ack_payload]. unfold verifyEchoedChecksum.
  replace (8 <=? Z.of_nat (length (sizePayload (Z.of_nat (length fw)) c))) with true
    by reflexivity.
  rewrite (echoedChecksum_sizePayload (Z.of_nat (length fw)) c Hr).
  change (2 ^ 31) with 2147483648. change (2 ^ 32) with 4294967296.
  replace (c <? 2147483648) with false by (symmetry; apply Z.ltb_ge; lia).
  replace (c - 4294967296 =? c) with false by (symmetry; apply Z.eqb_neq; lia).
  reflexivity.
Qed.

Lemma small_firmware_echo_is_reported_as_mismatch_witness :
  bytes [0x01; 0x02; 0x03] /\ Z.of_nat (length [0x01; 0x02; 0x03]) <= 8421504
  /\ sendFirmwareSize_after_ack (an_checksum (analyzeFirmware [0x01; 0x02; 0x03]))
       (AckOk (mkAck 0x50 0x10
                 (sizePayload 3 (an_checksum (analyzeFirmware [0x01; 0x02; 0x03])))))
     = (true, Some (ChecksumMismatch 0xFFFFFFF9 (-7))).
Proof.
  assert (Hb : bytes [0x01; 0x02; 0x03]) by auto 10 with bytes.
  assert (Hl : Z.of_nat (length [0x01; 0x02; 0x03]) <= 8421504) by (simpl; lia).
  split; [exact Hb|]. split; [exact Hl|].
  exact (proj2 (small_firmware_echo_is_reported_as_mismatch [0x01; 0x02; 0x03]
                  0x50 0x10 Hb Hl)).
Defined.

(** ** Sending commands *)

Lemma commandFrame_with_retryCount c n :
  commandFrame (with_retryCount c n) = commandFrame c.
Proof. reflexivity. Qed.

Lemma marker_is_own c e :
  currentCommand e = Some (CmdName (commandName c)) ->
  marker_is (commandName c) e = true.
Proof. intros H. unfold marker_is. rewrite H. apply String.eqb_refl. Qed.

Lemma idle_elapse (env : Env) ms l :
  idle l ->
  idle (link_elapse env ms l) /\ written (link_elapse env ms l) = written l.
Proof.
  intros (Hm & Ht).
  destruct (elapse_keeps_command_state ms (engine l)) as (E1 & E2 & E3 & E4).
  unfold link_elapse. rewrite Ht. cbn. unfold idle. cbn. rewrite E1. auto.
Qed.

Lemma idle_run env ss :
  forall l, only_time ss = true -> idle l ->
            idle (link_run env ss l) /\ written (link_run env ss l) = written l.
Proof.
  unfold link_run. induction ss as [|s ss IH]; intros l Hss Hi; [now split|].
  cbn [only_time forallb] in Hss. apply andb_true_iff in Hss. destruct Hss as [Hs Hss].
  destruct s as [value|ms]; [discriminate|].
  cbn [fold_left link_react].
  destruct (idle_elapse env ms l Hi) as [Hi' W].
  destruct (IH _ Hss Hi') as [Hi'' W']. split; [exact Hi''|]. now rewrite W'.
Qed.

Lemma spaced_snoc times t :
  spaced times -> (times <> [] -> last times 0 + 3000 <= t) -> spaced (times ++ [t]).
Proof.
  induction times as [|a times IH]; intros Hs Hl; [exact I|].
  destruct times as [|b times].
  - cbn in *. split; [|exact I]. apply Hl. discriminate.
  - cbn [app spaced] in *. destruct Hs as [Hab Hs]. split; [exact Hab|].
    apply IH; [exact Hs|]. intros _. apply Hl. discriminate.
Qed.

Lemma Forall_filter_keeps {A : Type} (P : A -> Prop) (f : A -> bool) (l : list A) :
  Forall P l -> Forall P (filter f l).
Proof.
  intros H. rewrite Forall_forall in *. intros x Hx.
  apply filter_In in Hx. now apply H.
Qed.

Lemma insert_link_timer_last t (ts : list (Z * LinkTimerAction)) :
  Forall (fun u => fst u <= fst t) ts -> insert_link_timer t ts = ts ++ [t].
Proof.
  induction 1 as [|u ts Hu Hts IH]; [reflexivity|].
  cbn [insert_link_timer app].
  replace (fst t <? fst u) with false by (symmetry; apply Z.ltb_ge; lia).
  now rewrite IH.
Qed.

Lemma stale_checks_weaken old old' by_ by' ts :
  stale_checks old by_ ts -> by_ <= by' -> incl old old' ->
  stale_checks old' by' ts.
Proof.
  unfold stale_checks. intros H Hb Hi. eapply Forall_impl; [|exact H].
  intros t (Ht & c & Hc & Hin). split; [lia|]. exists c. split; [exact Hc|].
  now apply Hi.
Qed.

Lemma stale_fire env old a l name :
  currentCommand (engine l) = Some (CmdName name) ->
  ~ In name old ->
  (exists c, a = ResponseCheck c /\ In (commandName c) old) ->
  link_fire env a l = l.
Proof.
  intros Hm Hn (c & -> & Hin). cbn [link_fire]. unfold marker_is. rewrite Hm.
  destruct (String.eqb_spec name (commandName c)) as [E|E]; [|reflexivity].
  subst name. contradiction.
Qed.

Lemma stale_fold env old name (due : list (Z * LinkTimerAction)) :
  forall l,
    currentCommand (engine l) = Some (CmdName name) ->
    ~ In name old ->
    Forall (fun t => exists c, snd t = ResponseCheck c /\ In (commandName c) old) due ->
    fold_left (fun l t => link_fire env (snd t) l) due l = l.
Proof.
  induction due as [|t due IH]; intros l Hm Hn Hd; [reflexivity|].
  inversion Hd as [|? ? Ht Hrest]; subst. cbn [fold_left].
  rewrite (stale_fire env old (snd t) l name Hm Hn Ht). now apply IH.
Qed.

Lemma stale_checks_names old by_ ts :
  stale_checks old by_ ts ->
  Forall (fun t => exists c, snd t = ResponseCheck c /\ In (commandName c) old) ts.
Proof.
  unfold stale_checks. intros H. eapply Forall_impl; [|exact H].
  intros t (_ & H'). exact H'.
Qed.

Lemma filter_all {A : Type} (f : A -> bool) (l : list A) :
  Forall (fun x => f x = true) l -> filter f l = l.
Proof.
  induction 1 as [|x l Hx Hl IH]; [reflexivity|]. cbn. now rewrite Hx, IH.
Qed.

Lemma filter_none {A : Type} (f : A -> bool) (l : list A) :
  Forall (fun x => f x = false) l -> filter f l = [].
Proof.
  induction 1 as [|x l Hx Hl IH]; [reflexivity|]. cbn. now rewrite Hx, IH.
Qed.

Section Responsive_link_over.

Variable env : Env.
Hypothesis Hconnected : isConnected env = true.
Hypothesis Hwritable : hasWriteChar env = true.
Hypothesis Hwrites : forall n, write_ok env n = true.

Lemma send_over old c l :
  stale_checks old (clock (engine l) + 3000) (link_timers l) ->
  ~ In (commandName c) old ->
  awaiting_over old c (clock (engine l)) (send env c l)
  /\ written (send env c l) = written l ++ [(clock (engine l), commandFrame c)]
  /\ clock (engine (send env c l)) = clock (engine l).
Proof.
  intros Hs Hn. unfold send, writeValueWithoutResponse, link_setTimeout.
  rewrite Hconnected, Hwritable. cbn [negb write_calls]. rewrite Hwrites.
  cbn [engine link_timers set_link_timers lastCommandTime written write_calls
       set_currentCommand clock].
  rewrite insert_link_timer_last
    by (eapply Forall_impl; [|exact Hs]; intros t (Ht & _); exact Ht).
  unfold awaiting_over. cbn [engine lastCommandTime link_timers written
                             set_currentCommand currentCommand clock].
  split; [|split; reflexivity].
  split; [reflexivity|]. split; [reflexivity|].
  split; [exists (link_timers l); split; [reflexivity | exact Hs]|].
  split; [exact Hn | cbn; lia].
Qed.

Lemma awaiting_over_elapse_early old c since ms l :
  awaiting_over old c since l ->
  0 <= ms ->
  clock (engine l) + ms < since + 3000 ->
  awaiting_over old c since (link_elapse env ms l)
  /\ written (link_elapse env ms l) = written l
  /\ clock (engine (link_elapse env ms l)) = clock (engine l) + ms.
Proof.
  intros (Hm & Hl & (stale & Ht & Hs) & Hn & Hc) Hms Hearly.
  destruct (elapse_keeps_command_state ms (engine l)) as (E1 & E2 & E3 & E4).
  unfold link_elapse. rewrite Ht, E3, !filter_app. cbn [filter fst].
  replace (since + 3000 <=? clock (engine l) + ms) with false
    by (symmetry; apply Z.leb_gt; lia).
  cbn [negb]. rewrite app_nil_r.
  rewrite (stale_fold env old (commandName c)).
  - unfold awaiting_over. cbn [engine set_engine set_link_timers lastCommandTime
                               link_timers written].
    rewrite E1, E3. split; [|split; reflexivity].
    split; [exact Hm|]. split; [exact Hl|]. split.
    + eexists. split; [reflexivity|]. unfold stale_checks.
      now apply Forall_filter_keeps.
    + split; [exact Hn | lia].
  - cbn. now rewrite E1.
  - exact Hn.
  - apply Forall_filter_keeps. exact (stale_checks_names _ _ _ Hs).
Qed.

Lemma awaiting_over_elapse_due old c since ms l :
  awaiting_over old c since l ->
  since + 3000 <= clock (engine l) + ms ->
  let l' := link_elapse env ms l in
  clock (engine l') = clock (engine l) + ms
  /\ (retryCount c < 2 ->
      awaiting_over old (retried c) (clock (engine l) + ms) l'
      /\ written l' = written l ++ [(clock (engine l) + ms, commandFrame c)])
  /\ (2 <= retryCount c -> idle l' /\ written l' = written l).
Proof.
  intros (Hm & Hl & (stale & Ht & Hs) & Hn & Hc) Hdue l'.
  destruct (elapse_keeps_command_state ms (engine l)) as (E1 & E2 & E3 & E4).
  set (l0 := set_link_timers [] (set_engine (elapse ms (engine l)) l)).
  assert (L0 : engine l0 = elapse ms (engine l) /\ lastCommandTime l0 = since
               /\ link_timers l0 = [] /\ written l0 = written l)
    by (cbn; auto).
  destruct L0 as (L1 & L2 & L3 & L4).
  assert (Hall : Forall (fun t : Z * LinkTimerAction =>
                           (fst t <=? clock (engine l) + ms) = true)
                   (stale ++ [(since + 3000, ResponseCheck c)])).
  { apply Forall_app. split.
    - eapply Forall_impl; [|exact Hs]. intros t (Hle & _). apply Z.leb_le. lia.
    - repeat constructor. apply Z.leb_le. cbn [fst]. lia. }
  assert (Hnone : Forall (fun t : Z * LinkTimerAction =>
                            negb (fst t <=? clock (engine l) + ms) = false)
                    (stale ++ [(since + 3000, ResponseCheck c)])).
  { eapply Forall_impl; [|exact Hall]. intros t H. cbv beta in H. now rewrite H. }
  assert (El : l' = link_fire env (ResponseCheck c) l0).
  { unfold l', link_elapse. rewrite Ht, E3.
    rewrite (filter_all _ _ Hall), (filter_none _ _ Hnone).
    rewrite fold_left_app. fold l0.
    rewrite (stale_fold env old (commandName c) stale l0); [reflexivity | | exact Hn |].
    - rewrite L1, E1. exact Hm.
    - exact (stale_checks_names _ _ _ Hs). }
  cbn [link_fire] in El. rewrite L1, L2 in El.
  rewrite (marker_is_own c) in El by (rewrite E1; exact Hm).
  rewrite E3 in El.
  replace (2900 <? clock (engine l) + ms - since) with true in El
    by (symmetry; apply Z.ltb_lt; lia).
  cbn [andb] in El.
  destruct (Z.ltb_spec (retryCount c) 2) as [Hr|Hr].
  - destruct (send_over old (retried c) l0) as (A & W & C).
    + rewrite L3. constructor.
    + exact Hn.
    + rewrite <- El, L1, E3 in A, C. rewrite <- El, L1, E3, L4 in W.
      split; [exact C|]. split; [|lia]. intros _. split; [exact A | exact W].
  - rewrite El. cbn. rewrite E3. split; [reflexivity|]. split; [lia|].
    intros _. unfold idle. cbn. auto.
Qed.

Lemma unanswered_over_elapse old c base t0 ms l :
  0 <= ms -> unanswered_over old c base t0 l ->
  unanswered_over old c base t0 (link_elapse env ms l).
Proof.
  intros Hms (times & Hw & Hhd & Hsp & [[Ha Hlen]|[Hi Hlen]]).
  - set (k := Z.of_nat (length times) - 1) in *.
    destruct (Z.lt_ge_cases (clock (engine l) + ms) (last times 0 + 3000)) as [Hearly|Hdue].
    + destruct (awaiting_over_elapse_early _ _ _ ms l Ha Hms Hearly) as (A & W & _).
      exists times. rewrite W. split; [exact Hw|]. split; [exact Hhd|].
      split; [exact Hsp|]. left. now split.
    + destruct (awaiting_over_elapse_due _ _ _ ms l Ha Hdue) as (C & Hretry & Hstop).
      assert (Hsince : last times 0 <= clock (engine l))
        by (destruct Ha as (_ & _ & _ & _ & H); exact H).
      destruct (Z.lt_ge_cases k 2) as [Hk|Hk].
      * destruct (Hretry Hk) as [A W].
        exists (times ++ [clock (engine l) + ms]).
        rewrite W, Hw, map_app, <- app_assoc.
        split; [reflexivity|].
        split; [destruct times; [cbn in Hlen; lia | exact Hhd]|].
        split; [apply spaced_snoc; [exact Hsp | intros _; lia]|].
        left. rewrite length_app, last_last. cbn [length]. split; [|lia].
        replace (Z.of_nat (length times + 1) - 1) with (k + 1) by lia.
        exact A.
      * destruct (Hstop Hk) as [Hi W].
        exists times. rewrite W. split; [exact Hw|]. split; [exact Hhd|].
        split; [exact Hsp|]. right. split; [exact Hi | lia].
  - destruct (idle_elapse env ms l Hi) as [Hi' W].
    exists times. rewrite W. split; [exact Hw|]. split; [exact Hhd|].
    split; [exact Hsp|]. right. now split.
Qed.

Lemma unanswered_over_run old c base t0 ss :
  forall l, only_time ss = true -> unanswered_over old c base t0 l ->
            unanswered_over old c base t0 (link_run env ss l).
Proof.
  unfold link_run. induction ss as [|s ss IH]; intros l Hss Hu; [exact Hu|].
  cbn [only_time forallb] in Hss. apply andb_true_iff in Hss. destruct Hss as [Hs Hss].
  destruct s as [value|ms]; [discriminate|]. apply Z.leb_le in Hs.
  cbn [fold_left link_react]. apply IH; [exact Hss|].
  now apply unanswered_over_elapse.
Qed.

Lemma awaiting_over_unanswered old c since base l :
  awaiting_over old c since l -> retryCount c = 0 ->
  written l = base ++ [(since, commandFrame c)] ->
  unanswered_over old c base since l.
Proof.
  intros A Hr W. exists [since]. cbn [map hd spaced length last].
  split; [exact W|]. split; [reflexivity|]. split; [exact I|].
  left. split; [|lia].
  replace (with_retryCount c (Z.of_nat 1 - 1)) with c; [exact A|].
  destruct c; cbn in *. now subst.
Qed.

End Responsive_link_over.

(** X20.  A command sent on a working link that gets no response is written
    at most three times, the writes at least 3000 ms apart, and always with
    the same frame; the marker of the command in flight is only cleared by
    the response check that follows the third write.  When the timers run on
    time the frame is written when the command is sent, at the first check
    and at the second check, and the third check clears the marker.  Response
    checks that are still pending for commands sent earlier under other names
    write nothing: only the newest command is retried. *)
Theorem unanswered_command_is_written_three_times (env : Env) (c : Call) (l : Link)
  (old : list String.string) :
  isConnected env = true ->
  hasWriteChar env = true ->
  (forall n, write_ok env n = true) ->
  stale_checks old (clock (engine l) + 3000) (link_timers l) ->
  ~ In (commandName c) old ->
  retryCount c = 0 ->
  (forall ss, only_time ss = true ->
     let l' := link_run env ss (send env c l) in
     exists times : list Z,
       written l' = written l ++ map (fun t => (t, commandFrame c)) times
       /\ (1 <= length times <= 3)%nat
       /\ hd 0 times = clock (engine l)
       /\ spaced times
       /\ (currentCommand (engine l') = None -> length times = 3%nat))
  /\ (forall d1 d2 d3 ss,
        3000 <= d1 -> 3000 <= d2 -> 3000 <= d3 -> only_time ss = true ->
        let t := clock (engine l) in
        let l' := link_run env (Elapse d1 :: Elapse d2 :: Elapse d3 :: ss) (send env c l) in
        written l' = written l ++ [(t, commandFrame c); (t + d1, commandFrame c);
                                   (t + d1 + d2, commandFrame c)]
        /\ currentCommand (engine l') = None).
Proof.
  intros Hcon Hwc Hok Hs Hn Hr.
  destruct (send_over env Hcon Hwc Hok old c l Hs Hn) as (A0 & W0 & C0).
  split.
  - intros ss Hss l'.
    pose proof (unanswered_over_run env Hcon Hwc Hok old c _ _ ss _ Hss
                  (awaiting_over_unanswered old c _ _ _ A0 Hr W0)) as Hu.
    fold l' in Hu. destruct Hu as (times & Hw & Hhd & Hsp & Hcase).
    exists times. split; [exact Hw|].
    destruct Hcase as [[(Hm & _) Hlen]|[Hi Hlen]].
    + split; [exact Hlen|]. split; [exact Hhd|]. split; [exact Hsp|].
      intros Hnone. rewrite Hm in Hnone. discriminate.
    + split; [lia|]. split; [exact Hhd|]. split; [exact Hsp|]. intros _. exact Hlen.
  - intros d1 d2 d3 ss H1 H2 H3 Hss t l'.
    fold t in A0, W0, C0.
    set (l0 := send env c l) in *.
    destruct (awaiting_over_elapse_due env Hcon Hwc Hok old c t d1 l0 A0 ltac:(lia))
      as (C1 & R1 & _).
    destruct (R1 ltac:(lia)) as [A1 W1]. clear R1.
    set (l1 := link_elapse env d1 l0) in *.
    destruct (awaiting_over_elapse_due env Hcon Hwc Hok old _ _ d2 l1 A1 ltac:(lia))
      as (C2 & R2 & _).
    destruct (R2 ltac:(cbn [retried retryCount]; lia)) as [A2 W2]. clear R2.
    set (l2 := link_elapse env d2 l1) in *.
    destruct (awaiting_over_elapse_due env Hcon Hwc Hok old _ _ d3 l2 A2 ltac:(lia))
      as (C3 & _ & S3).
    destruct (S3 ltac:(cbn [retried retryCount]; lia)) as [I3 W3]. clear S3.
    set (l3 := link_elapse env d3 l2) in *.
    destruct (idle_run env ss l3 Hss I3) as [[Hm _] W].
    assert (El : l' = link_run env ss l3) by reflexivity.
    rewrite El, W, W3, W2, W1, W0, C1, C0, Hm.
    split; [|reflexivity].
    rewrite <- !app_assoc. reflexivity.
Qed.

Lemma unanswered_command_is_written_three_times_witness :
  let env := mkEnv true true (fun _ => true) in
  let c := mkCall StandardProtocol 0x0B Names.SetDateTime None 0 in
  let earlier := mkCall StandardProtocol 0x24 Names.NetworkInfo None 0 in
  let l := mkLink initial 0 [(2500, ResponseCheck earlier)] 1 [] in
  let old := [Names.NetworkInfo] in
  isConnected env = true /\ hasWriteChar env = true
  /\ (forall n, write_ok env n = true)
  /\ stale_checks old (clock (engine l) + 3000) (link_timers l)
  /\ ~ In (commandName c) old
  /\ retryCount c = 0
  /\ 3000 <= 3000 /\ only_time [] = true
  /\ written (link_run env [Elapse 3000; Elapse 3000; Elapse 3000] (send env c l))
     = [(0, commandFrame c); (3000, commandFrame c); (6000, commandFrame c)].
Proof.
  intros env c earlier l old.
  assert (H1 : isConnected env = true) by reflexivity.
  assert (H2 : hasWriteChar env = true) by reflexivity.
  assert (H3 : forall n, write_ok env n = true) by reflexivity.
  assert (H4 : stale_checks old (clock (engine l) + 3000) (link_timers l)).
  { repeat constructor; cbn; [lia|]. exists earlier. split; [reflexivity | now left]. }
  assert (H5 : ~ In (commandName c) old) by (cbn; intuition discriminate).
  assert (H6 : retryCount c = 0) by reflexivity.
  assert (H7 : 3000 <= 3000) by lia.
  assert (H8 : only_time [] = true) by reflexivity.
  split; [exact H1|]. split; [exact H2|]. split; [exact H3|]. split; [exact H4|].
  split; [exact H5|]. split; [exact H6|]. split; [exact H7|]. split; [exact H8|].
  exact (proj1 (proj2 (unanswered_command_is_written_three_times env c l old
                         H1 H2 H3 H4 H5 H6)
                  3000 3000 3000 [] H7 H7 H7 H8)).
Defined.

Lemma send_keeps_activation env c l :
  otaActivationResolve (engine (send env c l)) = otaActivationResolve (engine l)
  /\ resolve_calls (engine (send env c l)) = resolve_calls (engine l)
  /\ clock (engine (send env c l)) = clock (engine l)
  /\ pendingAckResolve (engine (send env c l)) = pendingAckResolve (engine l)
  /\ timers (engine (send env c l)) = timers (engine l).
Proof.
  unfold send, writeValueWithoutResponse, link_setTimeout.
  destruct (isConnected env); cbn [negb]; [|auto].
  destruct (hasWriteChar env); cbn [negb]; [|cbn; auto].
  cbn [write_calls]. destruct (write_ok env (write_calls l)).
  - cbn. auto.
  - destruct (retryCount c <? 2); cbn; auto.
Qed.

Lemma notificationHandler_marker_none value st :
  looks_like_ota_ack value = false ->
  currentCommand st = None -> currentCommand (notificationHandler value st) = None.
Proof.
  intros Hv H. unfold notificationHandler.
  destruct (activation_waiter value (add_log (LogResponseReceived value) st)) as [p|].
  - destruct ((1 <=? Z.of_nat (length (JS.slice value 4 (-1))))
              && JS.index_is (JS.slice value 4 (-1)) 0 0x01); reflexivity.
  - rewrite Hv. unfold regular_response. cbn [add_log currentCommand].
    rewrite H. exact H.
Qed.

Lemma released_fire env a l :
  currentCommand (engine l) = None ->
  (exists c, a = ResponseCheck c) ->
  link_fire env a l = l.
Proof.
  intros Hm [c ->]. cbn [link_fire]. unfold marker_is. now rewrite Hm.
Qed.

Lemma released_fold env (due : list (Z * LinkTimerAction)) :
  forall l,
    currentCommand (engine l) = None ->
    Forall (fun t => exists c, snd t = ResponseCheck c) due ->
    fold_left (fun l t => link_fire env (snd t) l) due l = l.
Proof.
  induction due as [|t due IH]; intros l Hm Hd; [reflexivity|].
  inversion Hd as [|? ? Ht Hrest]; subst. cbn [fold_left].
  rewrite (released_fire env (snd t) l Hm Ht). now apply IH.
Qed.

Lemma released_elapse env ms l :
  released l ->
  released (link_elapse env ms l) /\ written (link_elapse env ms l) = written l.
Proof.
  intros [Hm Ht].
  destruct (elapse_keeps_command_state ms (engine l)) as (E1 & E2 & E3 & E4).
  unfold link_elapse.
  rewrite released_fold.
  - unfold released. cbn. rewrite E1. split; [split|reflexivity]; [exact Hm|].
    now apply Forall_filter_keeps.
  - cbn. now rewrite E1.
  - now apply Forall_filter_keeps.
Qed.

Lemma released_notify value l :
  looks_like_ota_ack value = false ->
  released l ->
  released (link_notify value l) /\ written (link_notify value l) = written l.
Proof.
  intros Hv [Hm Ht]. unfold released, link_notify. cbn.
  split; [split|reflexivity]; [now apply notificationHandler_marker_none | exact Ht].
Qed.

Lemma released_run env ss :
  forall l,
    no_ack_shape ss = true ->
    released l ->
    released (link_run env ss l) /\ written (link_run env ss l) = written l.
Proof.
  unfold link_run. induction ss as [|s ss IH]; intros l Hss Hr; [now split|].
  cbn [no_ack_shape forallb] in Hss. apply andb_true_iff in Hss.
  destruct Hss as [Hs Hss]. fold (no_ack_shape ss) in Hss.
  cbn [fold_left].
  destruct s as [value|ms]; cbn [link_react].
  - apply negb_true_iff in Hs.
    destruct (released_notify value l Hs Hr) as [Hr' W].
    destruct (IH _ Hss Hr') as [Hr'' W']. split; [exact Hr''|]. now rewrite W'.
  - destruct (released_elapse env ms l Hr) as [Hr' W].
    destruct (IH _ Hss Hr') as [Hr'' W']. split; [exact Hr''|]. now rewrite W'.
Qed.

Lemma link_fire_keeps_no_activation env a l :
  otaActivationResolve (engine l) = None ->
  otaActivationResolve (engine (link_fire env a l)) = None.
Proof.
  intros H. destruct a as [c|c|p]; cbn [link_fire].
  - destruct (marker_is (commandName c) (engine l)
              && (2900 <? clock (engine l) - lastCommandTime l)); [|exact H].
    destruct (retryCount c <? 2).
    + now rewrite (proj1 (send_keeps_activation env (retried c) l)).
    + exact H.
  - now rewrite (proj1 (send_keeps_activation env (retried c) l)).
  - now rewrite H.
Qed.

Lemma link_elapse_keeps_no_activation env ms l :
  otaActivationResolve (engine l) = None ->
  otaActivationResolve (engine (link_elapse env ms l)) = None.
Proof.
  intros H. unfold link_elapse.
  destruct (elapse_keeps_command_state ms (engine l)) as (E1 & E2 & E3 & E4).
  set (l0 := set_link_timers _ _).
  assert (H0 : otaActivationResolve (engine l0) = None) by (cbn; now rewrite E2).
  clearbody l0. revert l0 H0.
  induction (filter (fun t => fst t <=? clock (elapse ms (engine l))) (link_timers l))
    as [|t due IH]; intros l0 H0; [exact H0|].
  cbn [fold_left]. apply IH. now apply link_fire_keeps_no_activation.
Qed.

Lemma only_time_keeps_no_activation env ss :
  forall l, only_time ss = true ->
            otaActivationResolve (engine l) = None ->
            otaActivationResolve (engine (link_run env ss l)) = None.
Proof.
  unfold link_run. induction ss as [|s ss IH]; intros l Hss H; [exact H|].
  cbn [only_time forallb] in Hss. apply andb_true_iff in Hss. destruct Hss as [Hs Hss].
  destruct s as [value|ms]; [discriminate|].
  cbn [fold_left link_react]. apply IH; [exact Hss|].
  now apply link_elapse_keeps_no_activation.
Qed.

Lemma regular_notification value st c :
  otaActivationResolve st = None ->
  looks_like_ota_ack value = false ->
  currentCommand st = Some c ->
  truthy (Some c) = true ->
  notificationHandler value st
  = set_currentCommand None (forward value c (add_log (LogResponseReceived value) st)).
Proof.
  intros Ha Hv Hc Ht. unfold notificationHandler, activation_waiter.
  cbn [add_log otaActivationResolve]. rewrite Ha, Hv.
  unfold regular_response. cbn [add_log currentCommand]. rewrite Hc, Ht.
  reflexivity.
Qed.

(** X21.  Once a notification has been taken as the response of a command,
    the command is not written again: the response checks that are still to
    run find the marker cleared and do nothing, whatever time passes and
    whatever notifications follow that are not of acknowledgment shape.  The
    response may come at any time, also after a retry. *)
Theorem answered_command_is_not_retried (env : Env) (c : Call) (l : Link)
  (old : list String.string) (before after : list Stimulus) (value : list Z) :
  isConnected env = true ->
  hasWriteChar env = true ->
  (forall n, write_ok env n = true) ->
  stale_checks old (clock (engine l) + 3000) (link_timers l) ->
  ~ In (commandName c) old ->
  retryCount c = 0 ->
  commandName c <> String.EmptyString ->
  otaActivationResolve (engine l) = None ->
  looks_like_ota_ack value = false ->
  only_time before = true ->
  no_ack_shape after = true ->
  let l1 := link_run env before (send env c l) in
  let l2 := link_notify value l1 in
  let l3 := link_run env after l2 in
  written l3 = written l1
  /\ currentCommand (engine l3) = None
  /\ (currentCommand (engine l1) <> None ->
      forwarded (engine l2)
      = forwarded (engine l1) ++ [(value, CmdName (commandName c))]).
Proof.
  intros Hcon Hwc Hok Hs Hn Hr Hname Hact Hv Hb Hafter l1 l2 l3.
  destruct (send_over env Hcon Hwc Hok old c l Hs Hn) as (A0 & W0 & _).
  pose proof (unanswered_over_run env Hcon Hwc Hok old c _ _ before _ Hb
                (awaiting_over_unanswered old c _ _ _ A0 Hr W0)) as Hu.
  fold l1 in Hu.
  assert (Hact1 : otaActivationResolve (engine l1) = None).
  { apply only_time_keeps_no_activation; [exact Hb|].
    now rewrite (proj1 (send_keeps_activation env c l)). }
  assert (Htruthy : truthy (Some (CmdName (commandName c))) = true).
  { cbn [truthy]. destruct (String.eqb_spec (commandName c) String.EmptyString);
      [contradiction|reflexivity]. }
  assert (Hrel : released l2
                 /\ (currentCommand (engine l1) <> None ->
                     forwarded (engine l2)
                     = forwarded (engine l1) ++ [(value, CmdName (commandName c))])).
  { destruct Hu as (times & _ & _ & _
                    & [[(Hm & _ & (stale & Htm & Hst) & _) _]|[[Hm Htm] _]]).
    - cbn [with_retryCount commandName] in Hm.
      unfold l2, link_notify, released. cbn [engine set_engine link_timers].
      rewrite (regular_notification value _ _ Hact1 Hv Hm Htruthy).
      cbn. split; [split; [reflexivity|]|reflexivity].
      rewrite Htm. apply Forall_app. split.
      + eapply Forall_impl; [|exact (stale_checks_names _ _ _ Hst)].
        intros t (c' & Hc' & _). now exists c'.
      + repeat constructor. eexists. reflexivity.
    - split.
      + apply released_notify; [exact Hv|]. split; [exact Hm|]. rewrite Htm. constructor.
      + intros Hne. contradiction. }
  destruct Hrel as [Hrel Hfw].
  destruct (released_run env after l2 Hafter Hrel) as [[Hm _] W].
  fold l3 in Hm, W. split; [|split; [exact Hm | exact Hfw]].
  rewrite W. reflexivity.
Qed.

Lemma answered_command_is_not_retried_witness :
  let env := mkEnv true true (fun _ => true) in
  let c := mkCall StandardProtocol 0x0B Names.SetDateTime None 0 in
  let l := mkLink initial 0 [] 0 [] in
  let value := [0x73; 6; 0x23; 0x0B; 0x01; 0x4C] in
  isConnected env = true /\ hasWriteChar env = true
  /\ (forall n, write_ok env n = true)
  /\ stale_checks [] (clock (engine l) + 3000) (link_timers l)
  /\ ~ In (commandName c) []
  /\ retryCount c = 0
  /\ commandName c <> String.EmptyString
  /\ otaActivationResolve (engine l) = None
  /\ looks_like_ota_ack value = false
  /\ only_time [Elapse 3500] = true
  /\ no_ack_shape [Elapse 10000; Notification value; Elapse 10000] = true
  /\ written (link_run env [Elapse 10000; Notification value; Elapse 10000]
               (link_notify value (link_run env [Elapse 3500] (send env c l))))
     = written (link_run env [Elapse 3500] (send env c l)).
Proof.
  intros env c l value.
  assert (H1 : isConnected env = true) by reflexivity.
  assert (H2 : hasWriteChar env = true) by reflexivity.
  assert (H3 : forall n, write_ok env n = true) by reflexivity.
  assert (H4 : stale_checks [] (clock (engine l) + 3000) (link_timers l))
    by constructor.
  assert (H4' : ~ In (commandName c) []) by (intros []).
  assert (H5 : retryCount c = 0) by reflexivity.
  assert (H6 : commandName c <> String.EmptyString) by discriminate.
  assert (H7 : otaActivationResolve (engine l) = None) by reflexivity.
  assert (H8 : looks_like_ota_ack value = false) by reflexivity.
  assert (H9 : only_time [Elapse 3500] = true) by reflexivity.
  assert (H10 : no_ack_shape [Elapse 10000; Notification value; Elapse 10000] = true)
    by reflexivity.
  split; [exact H1|]. split; [exact H2|]. split; [exact H3|]. split; [exact H4|].
  split; [exact H4'|].
  split; [exact H5|]. split; [exact H6|]. split; [exact H7|]. split; [exact H8|].
  split; [exact H9|]. split; [exact H10|].
  exact (proj1 (answered_command_is_not_retried env c l [] [Elapse 3500]
                  [Elapse 10000; Notification value; Elapse 10000] value
                  H1 H2 H3 H4 H4' H5 H6 H7 H8 H9 H10)).
Defined.

Lemma stuck_elapse env name ms l :
  stuck name l ->
  stuck name (link_elapse env ms l)
  /\ written (link_elapse env ms l) = written l
  /\ write_calls (link_elapse env ms l) = write_calls l
  /\ forwarded (engine (link_elapse env ms l)) = forwarded (engine l).
Proof.
  intros [Hm Ht].
  destruct (elapse_keeps_command_state ms (engine l)) as (E1 & E2 & E3 & E4).
  unfold link_elapse. rewrite Ht. cbn. unfold stuck. cbn. rewrite E1, E4. auto.
Qed.

Lemma stuck_run env name ss :
  forall l, only_time ss = true -> stuck name l ->
            stuck name (link_run env ss l)
            /\ written (link_run env ss l) = written l
            /\ write_calls (link_run env ss l) = write_calls l
            /\ forwarded (engine (link_run env ss l)) = forwarded (engine l).
Proof.
  unfold link_run. induction ss as [|s ss IH]; intros l Hss Hs; [auto|].
  cbn [only_time forallb] in Hss. apply andb_true_iff in Hss. destruct Hss as [H0 Hss].
  destruct s as [value|ms]; [discriminate|].
  cbn [fold_left link_react].
  destruct (stuck_elapse env name ms l Hs) as (Hs' & W & C & F).
  destruct (IH _ Hss Hs') as (Hs'' & W' & C' & F').
  rewrite W', C', F'. auto.
Qed.

(** X22.  When no writable characteristic is known, [sendCommand] writes
    nothing and sets no timer, but it has already set the marker of the
    command in flight.  The marker then stays set however much time passes,
    and the next notification is handed to the data parser as the response
    of the command that was never written. *)
Theorem unwritable_command_stays_in_flight (env : Env) (c : Call) (l : Link)
  (value : list Z) (ss : list Stimulus) :
  isConnected env = true ->
  hasWriteChar env = false ->
  link_timers l = [] ->
  commandName c <> String.EmptyString ->
  otaActivationResolve (engine l) = None ->
  looks_like_ota_ack value = false ->
  only_time ss = true ->
  let l' := link_run env ss (send env c l) in
  written l' = written l
  /\ write_calls l' = write_calls l
  /\ link_timers l' = []
  /\ currentCommand (engine l') = Some (CmdName (commandName c))
  /\ forwarded (engine (link_notify value l'))
     = forwarded (engine l) ++ [(value, CmdName (commandName c))].
Proof.
  intros Hcon Hwc Ht Hname Hact Hv Hss l'.
  assert (Es : send env c l
               = mkLink (set_currentCommand (Some (CmdName (commandName c))) (engine l))
                   (clock (engine l)) (link_timers l) (write_calls l) (written l)).
  { unfold send. rewrite Hcon, Hwc. reflexivity. }
  assert (Hstuck : stuck (commandName c) (send env c l)).
  { rewrite Es. split; [reflexivity | exact Ht]. }
  destruct (stuck_run env _ ss _ Hss Hstuck) as ([Hm Htm] & W & C & F).
  fold l' in Hm, Htm, W, C, F.
  assert (Hact' : otaActivationResolve (engine l') = None).
  { apply only_time_keeps_no_activation; [exact Hss|].
    now rewrite (proj1 (send_keeps_activation env c l)). }
  assert (Htruthy : truthy (Some (CmdName (commandName c))) = true).
  { cbn [truthy]. destruct (String.eqb_spec (commandName c) String.EmptyString);
      [contradiction|reflexivity]. }
  rewrite W, C, Es. cbn [written write_calls].
  split; [reflexivity|]. split; [reflexivity|]. split; [exact Htm|].
  split; [exact Hm|].
  unfold link_notify. cbn [engine set_engine].
  rewrite (regular_notification value _ _ Hact' Hv Hm Htruthy).
  cbn [forwarded set_currentCommand forward add_log]. rewrite F, Es. reflexivity.
Qed.

Lemma unwritable_command_stays_in_flight_witness :
  let env := mkEnv true false (fun _ => true) in
  let c := mkCall StandardProtocol 0x0B Names.SetDateTime None 0 in
  let l := mkLink initial 0 [] 0 [] in
  let value := [0x73; 6; 0x23; 0x03; 0x01; 0x44] in
  isConnected env = true /\ hasWriteChar env = false /\ link_timers l = []
  /\ commandName c <> String.EmptyString
  /\ otaActivationResolve (engine l) = None
  /\ looks_like_ota_ack value = false
  /\ only_time [Elapse 60000] = true
  /\ written (link_run env [Elapse 60000] (send env c l)) = []
  /\ forwarded (engine (link_notify value (link_run env [Elapse 60000] (send env c l))))
     = [(value, CmdName Names.SetDateTime)].
Proof.
  intros env c l value.
  assert (H1 : isConnected env = true) by reflexivity.
  assert (H2 : hasWriteChar env = false) by reflexivity.
  assert (H3 : link_timers l = []) by reflexivity.
  assert (H4 : commandName c <> String.EmptyString) by discriminate.
  assert (H5 : otaActivationResolve (engine l) = None) by reflexivity.
  assert (H6 : looks_like_ota_ack value = false) by reflexivity.
  assert (H7 : only_time [Elapse 60000] = true) by reflexivity.
  split; [exact H1|]. split; [exact H2|]. split; [exact H3|]. split; [exact H4|].
  split; [exact H5|]. split; [exact H6|]. split; [exact H7|].
  pose proof (unwritable_command_stays_in_flight env c l value [Elapse 60000]
                H1 H2 H3 H4 H5 H6 H7) as H.
  cbv zeta in H. destruct H as (Hw & _ & _ & _ & Hf).
  split; [exact Hw | exact Hf].
Defined.

Section Failing_link.

Variable env : Env.
Hypothesis Hconnected : isConnected env = true.
Hypothesis Hwritable : hasWriteChar env = true.
Hypothesis Hthrows : forall n, write_ok env n = false.

Lemma send_fails c l :
  link_timers l = [] ->
  let l' := send env c l in
  written l' = written l
  /\ write_calls l' = S (write_calls l)
  /\ currentCommand (engine l') = Some (CmdName (commandName c))
  /\ clock (engine l') = clock (engine l)
  /\ (retryCount c < 2 -> resending c (clock (engine l)) l')
  /\ (2 <= retryCount c -> link_timers l' = []).
Proof.
  intros Ht l'. unfold l', send, writeValueWithoutResponse, link_setTimeout.
  rewrite Hconnected, Hwritable. cbn [negb write_calls]. rewrite Hthrows.
  destruct (Z.ltb_spec (retryCount c) 2) as [Hr|Hr].
  - cbn. rewrite Ht. unfold resending. cbn.
    repeat split; auto; try lia.
  - cbn. repeat split; auto; try lia.
Qed.

Lemma resending_elapse_early c since ms l :
  resending c since l ->
  0 <= ms ->
  clock (engine l) + ms < since + 1000 ->
  resending c since (link_elapse env ms l)
  /\ written (link_elapse env ms l) = written l
  /\ write_calls (link_elapse env ms l) = write_calls l.
Proof.
  intros (Hm & Ht & Hc) Hms Hearly.
  destruct (elapse_keeps_command_state ms (engine l)) as (E1 & E2 & E3 & E4).
  unfold link_elapse. rewrite Ht, E3. cbn [filter fst].
  replace (since + 1000 <=? clock (engine l) + ms) with false
    by (symmetry; apply Z.leb_gt; lia).
  cbn [negb fold_left]. unfold resending. cbn. rewrite E1, E3. repeat split; auto. lia.
Qed.

Lemma resending_elapse_due c since ms l :
  resending c since l ->
  since + 1000 <= clock (engine l) + ms ->
  let l' := link_elapse env ms l in
  written l' = written l
  /\ write_calls l' = S (write_calls l)
  /\ currentCommand (engine l') = Some (CmdName (commandName c))
  /\ (retryCount c + 1 < 2 -> resending (retried c) (clock (engine l) + ms) l')
  /\ (2 <= retryCount c + 1 -> link_timers l' = [])
  /\ clock (engine l') = clock (engine l) + ms.
Proof.
  intros (Hm & Ht & Hc) Hdue l'.
  destruct (elapse_keeps_command_state ms (engine l)) as (E1 & E2 & E3 & E4).
  set (l0 := set_link_timers [] (set_engine (elapse ms (engine l)) l)).
  assert (El : l' = send env (retried c) l0).
  { unfold l', link_elapse. rewrite Ht, E3. cbn [filter fst].
    replace (since + 1000 <=? clock (engine l) + ms) with true
      by (symmetry; apply Z.leb_le; lia).
    reflexivity. }
  destruct (send_fails (retried c) l0 eq_refl) as (W & C & M & K & R & S0).
  rewrite <- El in W, C, M, K, R, S0.
  cbn [l0 engine set_engine set_link_timers written write_calls] in W, C, K, R.
  rewrite E3 in R.
  split; [exact W|]. split; [exact C|]. split; [exact M|].
  split; [exact R|]. split; [exact S0|]. rewrite K, E3. reflexivity.
Qed.

Lemma failing_elapse c base n0 ms l :
  0 <= ms -> failing c base n0 l -> failing c base n0 (link_elapse env ms l).
Proof.
  intros Hms (Hw & Hm & [(k & since & Hk & Hres & Hn)|[Ht Hn]]).
  - destruct (Z.lt_ge_cases (clock (engine l) + ms) (since + 1000)) as [Hearly|Hdue].
    + destruct (resending_elapse_early _ _ ms l Hres Hms Hearly) as (R & W & C).
      split; [now rewrite W|]. split; [exact (proj1 R)|].
      left. exists k, since. split; [exact Hk|]. split; [exact R|]. now rewrite C.
    + destruct (resending_elapse_due _ _ ms l Hres Hdue) as (W & C & M & R & S0 & _).
      cbn [with_retryCount retryCount commandName] in M, R, S0.
      split; [now rewrite W|]. split; [exact M|].
      destruct k as [|[|k]]; [| |lia].
      * left. exists 1%nat, (clock (engine l) + ms).
        split; [lia|]. split; [|rewrite C, Hn; lia].
        apply (R ltac:(cbn; lia)).
      * right. split; [apply S0; cbn; lia | rewrite C, Hn; lia].
  - assert (Hs : stuck (commandName c) l) by (split; assumption).
    destruct (stuck_elapse env _ ms l Hs) as ([Hm' Ht'] & W & C & _).
    split; [now rewrite W|]. split; [exact Hm'|].
    right. split; [exact Ht' | now rewrite C].
Qed.

Lemma failing_run c base n0 ss :
  forall l, only_time ss = true -> failing c base n0 l ->
            failing c base n0 (link_run env ss l).
Proof.
  unfold link_run. induction ss as [|s ss IH]; intros l Hss Hf; [exact Hf|].
  cbn [only_time forallb] in Hss. apply andb_true_iff in Hss. destruct Hss as [Hs Hss].
  destruct s as [value|ms]; [discriminate|]. apply Z.leb_le in Hs.
  cbn [fold_left link_react]. apply IH; [exact Hss|].
  now apply failing_elapse.
Qed.

Lemma send_failing c l :
  link_timers l = [] -> retryCount c = 0 ->
  failing c (written l) (write_calls l) (send env c l).
Proof.
  intros Ht Hr. destruct (send_fails c l Ht) as (W & C & M & K & R & _).
  split; [exact W|]. split; [exact M|].
  left. exists 0%nat, (clock (engine l)). split; [lia|]. split; [|lia].
  replace (with_retryCount c (Z.of_nat 0)) with c by (destruct c; cbn in *; now subst).
  apply R. lia.
Qed.

End Failing_link.

(** X23.  When every write throws, [sendCommand] tries three times, the
    repetitions at least 1000 ms apart, and then stops.  Nothing is written,
    and the marker of the command in flight stays set: the code that gives a
    command up and clears the marker is only reached after a write that
    succeeded. *)
Theorem failed_command_is_never_given_up (env : Env) (c : Call) (l : Link) :
  isConnected env = true ->
  hasWriteChar env = true ->
  (forall n, write_ok env n = false) ->
  link_timers l = [] ->
  retryCount c = 0 ->
  (forall ss, only_time ss = true ->
     let l' := link_run env ss (send env c l) in
     written l' = written l
     /\ currentCommand (engine l') = Some (CmdName (commandName c))
     /\ (write_calls l < write_calls l' <= write_calls l + 3)%nat)
  /\ (forall d1 d2 ss,
        1000 <= d1 -> 1000 <= d2 -> only_time ss = true ->
        let l' := link_run env (Elapse d1 :: Elapse d2 :: ss) (send env c l) in
        write_calls l' = (write_calls l + 3)%nat /\ link_timers l' = []).
Proof.
  intros Hcon Hwc Hthrow Ht Hr. split.
  - intros ss Hss l'.
    pose proof (failing_run env Hcon Hwc Hthrow c _ _ ss _ Hss
                  (send_failing env Hcon Hwc Hthrow c l Ht Hr)) as Hf.
    fold l' in Hf. destruct Hf as (W & M & [(k & since & Hk & _ & Hn)|[_ Hn]]).
    + split; [exact W|]. split; [exact M|]. lia.
    + split; [exact W|]. split; [exact M|]. lia.
  - intros d1 d2 ss H1 H2 Hss l'.
    destruct (send_fails env Hcon Hwc Hthrow c l Ht) as (W0 & C0 & M0 & K0 & R0 & _).
    set (l0 := send env c l) in *.
    destruct (resending_elapse_due env Hcon Hwc Hthrow c _ d1 l0 (R0 ltac:(lia))
                ltac:(lia)) as (W1 & C1 & M1 & R1 & _ & K1).
    set (l1 := link_elapse env d1 l0) in *.
    destruct (resending_elapse_due env Hcon Hwc Hthrow _ _ d2 l1 (R1 ltac:(lia))
                ltac:(lia)) as (W2 & C2 & M2 & _ & S2 & _).
    set (l2 := link_elapse env d2 l1) in *.
    assert (Hs : stuck (commandName c) l2).
    { split; [exact M2|]. apply S2. cbn [retried retryCount]. lia. }
    destruct (stuck_run env _ ss l2 Hss Hs) as ([_ Htm] & _ & C & _).
    assert (El : l' = link_run env ss l2) by reflexivity.
    rewrite El, C, C2, C1, C0. split; [lia | exact Htm].
Qed.

Lemma failed_command_is_never_given_up_witness :
  let env := mkEnv true true (fun _ => false) in
  let c := mkCall StandardProtocol 0x0B Names.SetDateTime None 0 in
  let l := mkLink initial 0 [] 0 [] in
  isConnected env = true /\ hasWriteChar env = true
  /\ (forall n, write_ok env n = false)
  /\ link_timers l = [] /\ retryCount c = 0
  /\ only_time [Elapse 1000; Elapse 1000; Elapse 60000] = true
  /\ currentCommand
       (engine (link_run env [Elapse 1000; Elapse 1000; Elapse 60000] (send env c l)))
     = Some (CmdName Names.SetDateTime).
Proof.
  intros env c l.
  assert (H1 : isConnected env = true) by reflexivity.
  assert (H2 : hasWriteChar env = true) by reflexivity.
  assert (H3 : forall n, write_ok env n = false) by reflexivity.
  assert (H4 : link_timers l = []) by reflexivity.
  assert (H5 : retryCount c = 0) by reflexivity.
  assert (H6 : only_time [Elapse 1000; Elapse 1000; Elapse 60000] = true) by reflexivity.
  split; [exact H1|]. split; [exact H2|]. split; [exact H3|]. split; [exact H4|].
  split; [exact H5|]. split; [exact H6|].
  exact (proj1 (proj2 (proj1 (failed_command_is_never_given_up env c l H1 H2 H3 H4 H5)
                         [Elapse 1000; Elapse 1000; Elapse 60000] H6))).
Defined.

(** ** The activation of the upgrade mode *)

Lemma elapse_no_timers ms st :
  timers st = [] -> elapse ms st = set_timers [] (set_clock (clock st + ms) st).
Proof. intros H. unfold elapse. rewrite H. reflexivity. Qed.

Lemma quiescent_fire env a l :
  quiescent l -> (forall c, a <> Resend c) -> link_fire env a l = l.
Proof.
  intros (Hm & Ha & _) Hn. destruct a as [c|c|p]; cbn [link_fire].
  - unfold marker_is. now rewrite Hm.
  - now destruct (Hn c).
  - now rewrite Ha.
Qed.

Lemma quiescent_fold env (due : list (Z * LinkTimerAction)) :
  forall l,
    quiescent l ->
    Forall (fun t => forall c, snd t <> Resend c) due ->
    fold_left (fun l t => link_fire env (snd t) l) due l = l.
Proof.
  induction due as [|t due IH]; intros l Hq Hd; [reflexivity|].
  inversion Hd as [|? ? Ht Hrest]; subst. cbn [fold_left].
  rewrite (quiescent_fire env (snd t) l Hq Ht). now apply IH.
Qed.

Lemma quiescent_elapse env ms l :
  quiescent l ->
  quiescent (link_elapse env ms l)
  /\ written (link_elapse env ms l) = written l
  /\ resolve_calls (engine (link_elapse env ms l)) = resolve_calls (engine l).
Proof.
  intros (Hm & Ha & Hp & Ht & Hl).
  unfold link_elapse. rewrite (elapse_no_timers ms (engine l) Ht).
  rewrite quiescent_fold.
  - unfold quiescent. cbn. repeat split; auto.
    now apply Forall_filter_keeps.
  - unfold quiescent. cbn. repeat split; auto. now apply Forall_filter_keeps.
  - now apply Forall_filter_keeps.
Qed.

Lemma notificationHandler_quiescent value st :
  looks_like_ota_ack value = false ->
  currentCommand st = None ->
  otaActivationResolve st = None ->
  pendingAckResolve st = None ->
  let st' := notificationHandler value st in
  currentCommand st' = None /\ otaActivationResolve st' = None
  /\ pendingAckResolve st' = None /\ timers st' = timers st
  /\ resolve_calls st' = resolve_calls st.
Proof.
  intros Hv Hm Ha Hp st'. unfold st', notificationHandler, activation_waiter.
  cbn [add_log otaActivationResolve]. rewrite Ha, Hv.
  unfold regular_response. cbn [add_log currentCommand]. rewrite Hm. cbn. auto.
Qed.

Lemma quiescent_notify value l :
  looks_like_ota_ack value = false ->
  quiescent l ->
  quiescent (link_notify value l)
  /\ written (link_notify value l) = written l
  /\ resolve_calls (engine (link_notify value l)) = resolve_calls (engine l).
Proof.
  intros Hv (Hm & Ha & Hp & Ht & Hl).
  destruct (notificationHandler_quiescent value (engine l) Hv Hm Ha Hp)
    as (N1 & N2 & N3 & N4 & N5).
  unfold quiescent, link_notify. cbn [engine set_engine link_timers written].
  rewrite N4, N5. repeat split; auto.
Qed.

Lemma quiescent_run env ss :
  forall l,
    no_ack_shape ss = true ->
    quiescent l ->
    quiescent (link_run env ss l)
    /\ written (link_run env ss l) = written l
    /\ resolve_calls (engine (link_run env ss l)) = resolve_calls (engine l).
Proof.
  unfold link_run. induction ss as [|s ss IH]; intros l Hss Hq; [auto|].
  cbn [no_ack_shape forallb] in Hss. apply andb_true_iff in Hss.
  destruct Hss as [Hs Hss]. fold (no_ack_shape ss) in Hss.
  cbn [fold_left].
  destruct s as [value|ms]; cbn [link_react].
  - apply negb_true_iff in Hs.
    destruct (quiescent_notify value l Hs Hq) as (Hq' & W & R).
    destruct (IH _ Hss Hq') as (Hq'' & W' & R'). rewrite W', R'. auto.
  - destruct (quiescent_elapse env ms l Hq) as (Hq' & W & R).
    destruct (IH _ Hss Hq') as (Hq'' & W' & R'). rewrite W', R'. auto.
Qed.

(** The state [sendOTAActivate] leaves on a working link. *)
Lemma sendOTAActivate_state env l :
  isConnected env = true ->
  hasWriteChar env = true ->
  write_ok env (write_calls l) = true ->
  link_timers l = [] ->
  let e := engine l in
  let p := next_promise e in
  let t := clock e in
  sendOTAActivate env l
  = (p,
     mkLink
       (mkEngine t (S p) (resolve_calls e) (pendingAckResolve e) (Some p)
          (Some (CmdName Names.UpgradeModeActivation)) (timers e) (forwarded e) (log e))
       t
       [(t + 3000, ResponseCheck activationCall); (t + 5000, ActivationTimeout p)]
       (S (write_calls l))
       (written l ++ [(t, commandFrame activationCall)])).
Proof.
  intros Hcon Hwc Hok Ht e p t.
  unfold sendOTAActivate, sendCommand, send, writeValueWithoutResponse, link_setTimeout.
  fold activationCall.
  rewrite Hcon, Hwc. cbn [negb new_promise set_engine write_calls engine lastCommandTime
                          link_timers written]. rewrite Hok.
  cbn [engine lastCommandTime link_timers written write_calls set_link_timers
       set_currentCommand set_otaActivationResolve clock next_promise resolve_calls
       pendingAckResolve otaActivationResolve currentCommand timers forwarded log].
  rewrite Ht. cbn [insert_link_timer fst].
  fold e. fold t. fold p.
  replace (t + 5000 <? t + 3000) with false by (symmetry; apply Z.ltb_ge; lia).
  reflexivity.
Qed.

(** X24.  On a working link [sendOTAActivate] writes the activation frame
    [73 08 23 1F 0A 0B 0C 4A] once.  A reply of activation shape that arrives
    before the first response check resolves the promise of
    [sendOTAActivate], with [true] exactly when the frame has at least 6
    bytes and byte 4 is 0x01, and clears the marker.  Nothing that follows,
    neither the response check nor the activation timeout nor a further
    notification that is not of acknowledgment shape, resolves the promise
    again or writes the frame again. *)
Theorem activation_reply_settles_once (env : Env) (l : Link) (d0 : Z)
  (value : list Z) (after : list Stimulus) :
  isConnected env = true ->
  hasWriteChar env = true ->
  write_ok env (write_calls l) = true ->
  link_timers l = [] ->
  timers (engine l) = [] ->
  pendingAckResolve (engine l) = None ->
  calls_of (next_promise (engine l)) (engine l) = [] ->
  0 <= d0 < 3000 ->
  (5 <= length value)%nat ->
  nth_error value 0 = Some 0x73 ->
  nth_error value 2 = Some 0x23 ->
  nth_error value 3 = Some 0x1F ->
  no_ack_shape after = true ->
  let armed := (6 <=? Z.of_nat (length value)) && (nth 4 value 0 =? 0x01) in
  let p := fst (sendOTAActivate env l) in
  let l1 := snd (sendOTAActivate env l) in
  let l2 := link_notify value (link_elapse env d0 l1) in
  let l3 := link_run env after l2 in
  calls_of p (engine l3) = [Activated armed]
  /\ written l3
     = written l ++ [(clock (engine l), [0x73; 8; 0x23; 0x1F; 0x0A; 0x0B; 0x0C; 0x4A])]
  /\ currentCommand (engine l3) = None.
Proof.
  intros Hcon Hwc Hok Ht Hte Hpa Hfresh Hd Hlen H0 H2 H3 Hafter armed p l1 l2 l3.
  pose proof (sendOTAActivate_state env l Hcon Hwc Hok Ht) as Es. cbv zeta in Es.
  assert (Ep : p = next_promise (engine l)) by (unfold p; now rewrite Es).
  assert (E1 : l1 = snd (sendOTAActivate env l)) by reflexivity.
  rewrite Es in E1. cbn [snd] in E1. rewrite Hte, Hpa, <- Ep in E1.
  set (t := clock (engine l)) in *.
  assert (Ee : link_elapse env d0 l1
               = mkLink
                   (mkEngine (t + d0) (S p) (resolve_calls (engine l)) None (Some p)
                      (Some (CmdName Names.UpgradeModeActivation)) []
                      (forwarded (engine l)) (log (engine l)))
                   t
                   [(t + 3000, ResponseCheck activationCall);
                    (t + 5000, ActivationTimeout p)]
                   (S (write_calls l))
                   (written l ++ [(t, commandFrame activationCall)])).
  { rewrite E1. unfold link_elapse. cbn [engine link_timers].
    rewrite elapse_no_timers by reflexivity.
    cbn [set_timers set_clock clock next_promise resolve_calls pendingAckResolve
         otaActivationResolve currentCommand timers forwarded log filter fst].
    replace (t + 3000 <=? t + d0) with false by (symmetry; apply Z.leb_gt; lia).
    replace (t + 5000 <=? t + d0) with false by (symmetry; apply Z.leb_gt; lia).
    reflexivity. }
  assert (Hq : quiescent l2
               /\ resolve_calls (engine l2)
                  = resolve_calls (engine l) ++ [(p, Activated armed)]
               /\ written l2 = written l ++ [(t, commandFrame activationCall)]).
  { unfold l2. rewrite Ee. unfold link_notify. cbn [engine set_engine].
    rewrite (activation_reply_step value
               (mkEngine (t + d0) (S p) (resolve_calls (engine l)) None (Some p)
                  (Some (CmdName Names.UpgradeModeActivation)) []
                  (forwarded (engine l)) (log (engine l)))
               p eq_refl Hlen H0 H2 H3).
    fold armed.
    unfold quiescent. cbn. repeat split; auto.
    repeat constructor; cbn; discriminate. }
  destruct Hq as (Hq & Hr & Hw).
  destruct (quiescent_run env after l2 Hafter Hq) as ((Hm & _) & W & R).
  fold l3 in Hm, W, R.
  split; [|split; [rewrite W, Hw; reflexivity | exact Hm]].
  rewrite <- Ep in Hfresh.
  unfold calls_of in *. rewrite R, Hr, filter_app, map_app, Hfresh.
  cbn. now rewrite Nat.eqb_refl.
Qed.

Lemma activation_reply_settles_once_witness :
  let env := mkEnv true true (fun _ => true) in
  let l := mkLink initial 0 [] 0 [] in
  let value := [0x73; 6; 0x23; 0x1F; 0x01; 0x00] in
  let after := [Elapse 5000; Notification value; Elapse 5000] in
  isConnected env = true /\ hasWriteChar env = true
  /\ write_ok env (write_calls l) = true
  /\ link_timers l = [] /\ timers (engine l) = []
  /\ pendingAckResolve (engine l) = None
  /\ calls_of (next_promise (engine l)) (engine l) = []
  /\ 0 <= 100 < 3000 /\ (5 <= length value)%nat
  /\ no_ack_shape after = true
  /\ calls_of (fst (sendOTAActivate env l))
       (engine (link_run env after
                  (link_notify value (link_elapse env 100 (snd (sendOTAActivate env l))))))
     = [Activated true].
Proof.
  intros env l value after.
  assert (H1 : isConnected env = true) by reflexivity.
  assert (H2 : hasWriteChar env = true) by reflexivity.
  assert (H3 : write_ok env (write_calls l) = true) by reflexivity.
  assert (H4 : link_timers l = []) by reflexivity.
  assert (H5 : timers (engine l) = []) by reflexivity.
  assert (H6 : pendingAckResolve (engine l) = None) by reflexivity.
  assert (H7 : calls_of (next_promise (engine l)) (engine l) = []) by reflexivity.
  assert (H8 : 0 <= 100 < 3000) by lia.
  assert (H9 : (5 <= length value)%nat) by (simpl; lia).
  assert (H10 : no_ack_shape after = true) by reflexivity.
  split; [exact H1|]. split; [exact H2|]. split; [exact H3|]. split; [exact H4|].
  split; [exact H5|]. split; [exact H6|]. split; [exact H7|]. split; [exact H8|].
  split; [exact H9|]. split; [exact H10|].
  exact (proj1 (activation_reply_settles_once env l 100 value after
                  H1 H2 H3 H4 H5 H6 H7 H8 H9 eq_refl eq_refl eq_refl H10)).
Defined.

Ltac decide_cmp :=
  repeat match goal with
         | |- context [?a <=? ?b] =>
             first [ replace (a <=? b) with true by (symmetry; apply Z.leb_le; lia)
                   | replace (a <=? b) with false by (symmetry; apply Z.leb_gt; lia) ]
         | |- context [?a <? ?b] =>
             first [ replace (a <? b) with true by (symmetry; apply Z.ltb_lt; lia)
                   | replace (a <? b) with false by (symmetry; apply Z.ltb_ge; lia) ]
         end.

Ltac link_step :=
  cbv [link_elapse elapse run_due set_timers set_clock set_engine set_link_timers
       set_currentCommand set_otaActivationResolve call_resolve engine lastCommandTime
       link_timers write_calls written clock next_promise resolve_calls
       pendingAckResolve otaActivationResolve currentCommand timers forwarded log
       filter fst snd fold_left link_fire marker_is negb andb send
       writeValueWithoutResponse link_setTimeout insert_link_timer link_run
       link_react commandName retryCount retried activationCall].

Ltac same_name :=
  match goal with
  | |- context [String.eqb ?a ?b] => change (String.eqb a b) with true
  end.

(** X25.  When the device does not reply, the promise of [sendOTAActivate]
    is resolved with [false] by the activation timeout, once.  The retries of
    [sendCommand] go on regardless: with a first response check between 3000
    and 5000 ms, the activation frame has been written twice when the
    activation is given up, and the next response check writes it a third
    time after that. *)
Theorem activation_is_retried_after_it_was_given_up (env : Env) (l : Link)
  (d1 d2 d3 : Z) :
  isConnected env = true ->
  hasWriteChar env = true ->
  (forall n, write_ok env n = true) ->
  link_timers l = [] ->
  timers (engine l) = [] ->
  calls_of (next_promise (engine l)) (engine l) = [] ->
  3000 <= d1 < 5000 ->
  5000 <= d1 + d2 < d1 + 3000 ->
  d1 + 3000 <= d1 + d2 + d3 ->
  let t := clock (engine l) in
  let frame := [0x73; 8; 0x23; 0x1F; 0x0A; 0x0B; 0x0C; 0x4A] in
  let p := fst (sendOTAActivate env l) in
  let l1 := snd (sendOTAActivate env l) in
  let l2 := link_run env [Elapse d1; Elapse d2] l1 in
  let l3 := link_elapse env d3 l2 in
  calls_of p (engine l2) = [Activated false]
  /\ written l2 = written l ++ [(t, frame); (t + d1, frame)]
  /\ calls_of p (engine l3) = [Activated false]
  /\ written l3 = written l ++ [(t, frame); (t + d1, frame); (t + d1 + d2 + d3, frame)].
Proof.
  intros Hcon Hwc Hok Ht Hte Hfresh Hd1 Hd2 Hd3 t frame p l1 l2 l3.
  pose proof (sendOTAActivate_state env l Hcon Hwc (Hok _) Ht) as Es. cbv zeta in Es.
  assert (Ep : p = next_promise (engine l)) by (unfold p; now rewrite Es).
  assert (E1 : l1 = snd (sendOTAActivate env l)) by reflexivity.
  rewrite Es in E1. cbn [snd] in E1. rewrite Hte, <- Ep in E1. fold t in E1.
  set (e := engine l) in *.
  set (name := Names.UpgradeModeActivation) in *.
  set (c1 := retried activationCall).
  set (c2 := retried c1).
  assert (Ea : link_elapse env d1 l1
               = mkLink
                   (mkEngine (t + d1) (S p) (resolve_calls e) (pendingAckResolve e) (Some p)
                      (Some (CmdName name)) [] (forwarded e) (log e))
                   (t + d1)
                   [(t + 5000, ActivationTimeout p); (t + d1 + 3000, ResponseCheck c1)]
                   (S (S (write_calls l)))
                   (written l ++ [(t, frame); (t + d1, frame)])).
  { rewrite E1. link_step. decide_cmp. link_step. same_name. decide_cmp. link_step.
    rewrite Hcon, Hwc, Hok. link_step. decide_cmp.
    rewrite <- app_assoc. reflexivity. }
  assert (Eb : l2
               = mkLink
                   (mkEngine (t + d1 + d2) (S p)
                      (resolve_calls e ++ [(p, Activated false)])
                      (pendingAckResolve e) None
                      (Some (CmdName name)) [] (forwarded e) (log e))
                   (t + d1)
                   [(t + d1 + 3000, ResponseCheck c1)]
                   (S (S (write_calls l)))
                   (written l ++ [(t, frame); (t + d1, frame)])).
  { unfold l2, link_run. cbn [fold_left link_react]. rewrite Ea.
    link_step. decide_cmp. link_step. reflexivity. }
  assert (Ec : l3
               = mkLink
                   (mkEngine (t + d1 + d2 + d3) (S p)
                      (resolve_calls e ++ [(p, Activated false)])
                      (pendingAckResolve e) None
                      (Some (CmdName name)) [] (forwarded e) (log e))
                   (t + d1 + d2 + d3)
                   [(t + d1 + d2 + d3 + 3000, ResponseCheck c2)]
                   (S (S (S (write_calls l))))
                   (written l ++ [(t, frame); (t + d1, frame); (t + d1 + d2 + d3, frame)])).
  { unfold l3. rewrite Eb. unfold c1. link_step. decide_cmp. link_step. same_name.
    decide_cmp. link_step. rewrite Hcon, Hwc, Hok. link_step.
    rewrite <- app_assoc. reflexivity. }
  rewrite <- Ep in Hfresh.
  assert (Hcalls : map snd (filter (fun c => Nat.eqb (fst c) p)
                              (resolve_calls e ++ [(p, Activated false)]))
                   = [Activated false]).
  { unfold calls_of in Hfresh. rewrite filter_app, map_app, Hfresh.
    cbn. now rewrite Nat.eqb_refl. }
  rewrite Ec, Eb. unfold calls_of. cbn [engine resolve_calls written].
  rewrite Hcalls. repeat split.
Qed.

Lemma activation_is_retried_after_it_was_given_up_witness :
  let env := mkEnv true true (fun _ => true) in
  let l := mkLink initial 0 [] 0 [] in
  let frame := [0x73; 8; 0x23; 0x1F; 0x0A; 0x0B; 0x0C; 0x4A] in
  isConnected env = true /\ hasWriteChar env = true
  /\ (forall n, write_ok env n = true)
  /\ link_timers l = [] /\ timers (engine l) = []
  /\ calls_of (next_promise (engine l)) (engine l) = []
  /\ 3000 <= 3000 < 5000 /\ 5000 <= 3000 + 2000 < 3000 + 3000
  /\ 3000 + 3000 <= 3000 + 2000 + 1000
  /\ written (link_elapse env 1000
                (link_run env [Elapse 3000; Elapse 2000] (snd (sendOTAActivate env l))))
     = written l ++ [(clock (engine l), frame); (clock (engine l) + 3000, frame);
                     (clock (engine l) + 3000 + 2000 + 1000, frame)].
Proof.
  intros env l frame.
  assert (H1 : isConnected env = true) by reflexivity.
  assert (H2 : hasWriteChar env = true) by reflexivity.
  assert (H3 : forall n, write_ok env n = true) by reflexivity.
  assert (H4 : link_timers l = []) by reflexivity.
  assert (H5 : timers (engine l) = []) by reflexivity.
  assert (H6 : calls_of (next_promise (engine l)) (engine l) = []) by reflexivity.
  assert (H7 : 3000 <= 3000 < 5000) by lia.
  assert (H8 : 5000 <= 3000 + 2000 < 3000 + 3000) by lia.
  assert (H9 : 3000 + 3000 <= 3000 + 2000 + 1000) by lia.
  split; [exact H1|]. split; [exact H2|]. split; [exact H3|]. split; [exact H4|].
  split; [exact H5|]. split; [exact H6|]. split; [exact H7|]. split; [exact H8|].
  split; [exact H9|].
  exact (proj2 (proj2 (proj2 (activation_is_retried_after_it_was_given_up env l
                                3000 2000 1000 H1 H2 H3 H4 H5 H6 H7 H8 H9)))).
Defined.

(** ** The test sequence *)

Lemma test_writes_app t0 tests tests' :
  test_writes t0 (tests ++ tests')
  = test_writes t0 tests ++ test_writes (t0 + 1000 * Z.of_nat (length tests)) tests'.
Proof.
  revert t0. induction tests as [|test tests IH]; intros t0.
  - cbn. f_equal. lia.
  - cbn [app test_writes length]. rewrite IH. cbn [app]. do 3 f_equal. lia.
Qed.

Section Test_runs.

Variable env : Env.
Hypothesis Hconnected : isConnected env = true.
Hypothesis Hwritable : hasWriteChar env = true.
Hypothesis Hwrites : forall n, write_ok env n = true.

Lemma runTest_step old test l :
  stale_checks old (clock (engine l) + 3000) (link_timers l) ->
  ~ In (commandName (testCall test)) old ->
  let l' := runTest env l test in
  stale_checks (commandName (testCall test) :: old) (clock (engine l') + 3000)
    (link_timers l')
  /\ written l' = written l ++ [(clock (engine l), commandFrame (testCall test))]
  /\ clock (engine l') = clock (engine l) + 1000
  /\ awaiting_over old (testCall test) (clock (engine l)) l'.
Proof.
  intros Hs Hn l'.
  assert (El : l' = link_elapse env 1000 (send env (testCall test) l)).
  { unfold l', runTest. destruct test as [[cmd name] payload]. reflexivity. }
  destruct (send_over env Hconnected Hwritable Hwrites old _ l Hs Hn) as (A & W & C).
  destruct (awaiting_over_elapse_early env old _ _ 1000 _ A ltac:(lia) ltac:(lia))
    as (A' & W' & C').
  rewrite <- El in A', W', C'. rewrite W in W'. rewrite C in C'.
  split; [|split; [exact W' | split; [exact C' | exact A']]].
  destruct A' as (_ & _ & (stale & Ht & Hst) & _ & _).
  rewrite Ht, C'. unfold stale_checks in *. apply Forall_app. split.
  - eapply Forall_impl; [|exact Hst]. intros t (Hle & c & Hc & Hin).
    split; [lia|]. exists c. split; [exact Hc | now right].
  - repeat constructor; cbn [fst snd]; [lia|].
    eexists. split; [reflexivity | now left].
Qed.

Lemma run_tests tests :
  forall old l,
    stale_checks old (clock (engine l) + 3000) (link_timers l) ->
    NoDup (map (fun test => commandName (testCall test)) tests) ->
    (forall test, In test tests -> ~ In (commandName (testCall test)) old) ->
    let l' := fold_left (runTest env) tests l in
    stale_checks (test_names tests ++ old) (clock (engine l') + 3000) (link_timers l')
    /\ written l' = written l ++ test_writes (clock (engine l)) tests
    /\ clock (engine l') = clock (engine l) + 1000 * Z.of_nat (length tests).
Proof.
  induction tests as [|test tests IH]; intros old l Hs Hnd Hfresh l'.
  - cbn in *. split; [exact Hs|]. split; [now rewrite app_nil_r | lia].
  - cbn [map] in Hnd. inversion Hnd as [|? ? Hnotin Hnd']; subst.
    destruct (runTest_step old test l Hs (Hfresh test (or_introl eq_refl)))
      as (Hs1 & W1 & C1 & _).
    destruct (IH (commandName (testCall test) :: old) (runTest env l test) Hs1 Hnd')
      as (Hs2 & W2 & C2).
    + intros test' Hin [Heq|Hold].
      * apply Hnotin. rewrite Heq.
        exact (in_map (fun test => commandName (testCall test)) tests test' Hin).
      * exact (Hfresh test' (or_intror Hin) Hold).
    + cbn [fold_left] in l'. fold l' in Hs2, W2, C2.
      split; [|split].
      * unfold test_names in *. cbn [map rev]. rewrite <- app_assoc. exact Hs2.
      * rewrite W2, W1, C1, <- app_assoc. reflexivity.
      * rewrite C2, C1. cbn [length]. lia.
Qed.

End Test_runs.

Lemma spaced_after z times :
  spaced (z :: times) -> Forall (fun u => z + 3000 <= u) times.
Proof.
  revert z. induction times as [|u times IH]; intros z Hsp; [constructor|].
  cbn [spaced] in Hsp. destruct Hsp as [Hz Hsp]. constructor; [lia|].
  eapply Forall_impl; [|exact (IH u Hsp)]. intros v Hv. cbv beta in Hv. lia.
Qed.

(** X26.  On a working link and with a device that stays silent,
    [runAllTests] writes its ten command frames a second apart, in the order
    of its list.  None of the first nine commands is ever written again:
    when its response check runs, a later command has taken the marker.
    Only the last command, Network Info, is retried, at most twice and not
    before 12 seconds after the start, and the marker is cleared only after
    the second retry. *)
Theorem runAllTests_retries_only_the_last (env : Env) (l : Link) (ss : list Stimulus) :
  isConnected env = true ->
  hasWriteChar env = true ->
  (forall n, write_ok env n = true) ->
  link_timers l = [] ->
  only_time ss = true ->
  let t := clock (engine l) in
  let last := testCall (0x24, Names.NetworkInfo, None) in
  let l' := link_run env ss (runAllTests env l) in
  exists times : list Z,
    written l'
    = written l ++ test_writes t Tests.commands
      ++ map (fun u => (u, commandFrame last)) times
    /\ (length times <= 2)%nat
    /\ Forall (fun u => t + 12000 <= u) times
    /\ (currentCommand (engine l') = None -> length times = 2%nat).
Proof.
  intros Hcon Hwc Hok Ht Hss t last l'.
  set (init := removelast Tests.commands).
  assert (Ecmds : Tests.commands = init ++ [(0x24, Names.NetworkInfo, None)])
    by reflexivity.
  assert (Hs0 : stale_checks [] (clock (engine l) + 3000) (link_timers l))
    by (rewrite Ht; constructor).
  destruct (run_tests env Hcon Hwc Hok init [] l Hs0) as (Hs9 & W9 & C9).
  { unfold init. cbn. repeat constructor; cbn; intuition discriminate. }
  { intros test _ []. }
  set (l9 := fold_left (runTest env) init l) in *.
  destruct (runTest_step env Hcon Hwc Hok _ (0x24, Names.NetworkInfo, None) l9 Hs9)
    as (_ & W10 & C10 & A10).
  { unfold init. cbn. intuition discriminate. }
  assert (Erun : runAllTests env l = runTest env l9 (0x24, Names.NetworkInfo, None)).
  { unfold runAllTests. rewrite Hcon. cbn [negb]. rewrite Ecmds, fold_left_app.
    reflexivity. }
  rewrite <- Erun in W10, C10, A10. fold last in W10, A10.
  rewrite W9 in W10.
  pose proof (unanswered_over_run env Hcon Hwc Hok _ last _ _ ss _ Hss
                (awaiting_over_unanswered _ last _ _ _ A10 eq_refl W10)) as Hu.
  fold l' in Hu. destruct Hu as (times & Hw & Hhd & Hsp & Hcase).
  assert (E9 : clock (engine l9) = t + 9000) by (rewrite C9; unfold init; cbn; lia).
  destruct times as [|t9 times]; [destruct Hcase as [[_ H]|[_ H]]; cbn in H; lia|].
  cbn [hd] in Hhd. subst t9.
  exists times. split; [|split; [|split]].
  - rewrite Hw, Ecmds, test_writes_app. cbn [map test_writes].
    rewrite <- !app_assoc. cbn [app]. fold t.
    replace (t + 1000 * Z.of_nat (length init)) with (clock (engine l9))
      by (rewrite E9; unfold init; cbn; lia).
    reflexivity.
  - destruct Hcase as [[_ H]|[_ H]]; cbn [length] in H; lia.
  - rewrite E9 in Hsp. eapply Forall_impl; [|exact (spaced_after _ _ Hsp)].
    intros u Hu. cbv beta in Hu. lia.
  - intros Hnone. destruct Hcase as [[(Hm & _) _]|[_ H]].
    + rewrite Hm in Hnone. discriminate.
    + cbn [length] in H. lia.
Qed.

Lemma runAllTests_retries_only_the_last_witness :
  let env := mkEnv true true (fun _ => true) in
  let l := mkLink initial 0 [] 0 [] in
  isConnected env = true /\ hasWriteChar env = true
  /\ (forall n, write_ok env n = true)
  /\ link_timers l = []
  /\ only_time [Elapse 60000] = true
  /\ exists times : list Z,
       written (link_run env [Elapse 60000] (runAllTests env l))
       = written l ++ test_writes (clock (engine l)) Tests.commands
         ++ map (fun u => (u, commandFrame (testCall (0x24, Names.NetworkInfo, None))))
              times
       /\ (length times <= 2)%nat.
Proof.
  intros env l.
  assert (H1 : isConnected env = true) by reflexivity.
  assert (H2 : hasWriteChar env = true) by reflexivity.
  assert (H3 : forall n, write_ok env n = true) by reflexivity.
  assert (H4 : link_timers l = []) by reflexivity.
  assert (H5 : only_time [Elapse 60000] = true) by reflexivity.
  split; [exact H1|]. split; [exact H2|]. split; [exact H3|]. split; [exact H4|].
  split; [exact H5|].
  destruct (runAllTests_retries_only_the_last env l [Elapse 60000] H1 H2 H3 H4 H5)
    as (times & Hw & Hlen & _).
  exists times. split; [exact Hw | exact Hlen].
Defined.

(** ** Formatting *)

Lemma token_of_byte_all :
  forallb (fun n => let b := Z.of_nat n in
                    if list_eq_dec Z.eq_dec ([48; 120] ++ padStart (toString16 b) 2 48)
                         (byte_token b) then true else false)
    (seq 0 256) = true.
Proof. vm_compute. reflexivity. Qed.

Lemma token_of_byte b :
  is_byte b -> [48; 120] ++ padStart (toString16 b) 2 48 = byte_token b.
Proof.
  intros Hb. pose proof token_of_byte_all as H. rewrite forallb_forall in H.
  specialize (H (Z.to_nat b)). unfold is_byte in Hb.
  rewrite Z2Nat.id in H by lia.
  assert (Hin : In (Z.to_nat b) (seq 0 256)) by (apply in_seq; lia).
  specialize (H Hin). cbv zeta in H.
  destruct (list_eq_dec Z.eq_dec _ _) as [E|]; [exact E | discriminate].
Qed.

Lemma hexDigit_injective d d' :
  0 <= d < 16 -> 0 <= d' < 16 -> hexDigit d = hexDigit d' -> d = d'.
Proof.
  unfold hexDigit. intros Hd Hd'.
  destruct (Z.ltb_spec d 10), (Z.ltb_spec d' 10); lia.
Qed.

Lemma byte_token_injective b b' :
  is_byte b -> is_byte b' -> byte_token b = byte_token b' -> b = b'.
Proof.
  unfold is_byte, byte_token. intros Hb Hb' E. injection E as Ehi Elo.
  apply hexDigit_injective in Ehi.
  - apply hexDigit_injective in Elo.
    + rewrite (Z.div_mod b 16), (Z.div_mod b' 16) by lia. now rewrite Ehi, Elo.
    + apply Z.mod_pos_bound. lia.
    + apply Z.mod_pos_bound. lia.
  - split; [apply Z.div_pos; lia | apply Z.div_lt_upper_bound; lia].
  - split; [apply Z.div_pos; lia | apply Z.div_lt_upper_bound; lia].
Qed.

Lemma formatBytes_tokens l :
  bytes l -> formatBytes l = join [32] (map byte_token l).
Proof.
  intros Hl. unfold formatBytes. rewrite (Uint8Array_bytes l Hl). f_equal.
  apply map_ext_in. intros b Hb. apply token_of_byte.
  unfold bytes in Hl. rewrite Forall_forall in Hl. now apply Hl.
Qed.

Lemma join_tokens_cons b l :
  join [32] (map byte_token (b :: l))
  = byte_token b ++ match l with
                    | [] => []
                    | _ :: _ => 32 :: join [32] (map byte_token l)
                    end.
Proof.
  destruct l as [|b1 l]; [cbn; reflexivity|]. reflexivity.
Qed.

Lemma join_tokens_length l :
  length (join [32] (map byte_token l)) = (5 * length l - 1)%nat.
Proof.
  induction l as [|b l IH]; [reflexivity|].
  rewrite join_tokens_cons, length_app. destruct l as [|b1 l].
  - reflexivity.
  - cbn [length] in *. rewrite IH. cbn [byte_token length]. lia.
Qed.

Lemma join_tokens_injective l :
  forall l', bytes l -> bytes l' ->
             join [32] (map byte_token l) = join [32] (map byte_token l') -> l = l'.
Proof.
  induction l as [|b l IH]; intros l' Hl Hl' E.
  - destruct l' as [|b' l']; [reflexivity|].
    rewrite join_tokens_cons in E. discriminate.
  - destruct l' as [|b' l']; [rewrite join_tokens_cons in E; discriminate|].
    rewrite !join_tokens_cons in E.
    inversion Hl as [|? ? Hb Hl1]; subst. inversion Hl' as [|? ? Hb' Hl1']; subst.
    unfold byte_token in E at 1 2. cbn [app] in E.
    injection E as Ehi Elo Erest.
    assert (Eb : b = b').
    { apply byte_token_injective; [assumption..|]. unfold byte_token. congruence. }
    subst b'. f_equal.
    destruct l as [|b1 l], l' as [|b1' l']; try discriminate; [reflexivity|].
    injection Erest as Erest. now apply IH.
Qed.

(** X27.  [formatBytes] writes every byte as [0x] and two lower-case hex
    digits, and puts one space between two bytes: the text of a buffer of [n]
    bytes is [5 n - 1] units long, and two buffers have the same text only if
    they are the same buffer. *)
Theorem formatBytes_tells_frames_apart (data data' : list Z) :
  bytes data ->
  bytes data' ->
  formatBytes data = join [32] (map byte_token data)
  /\ length (formatBytes data) = (5 * length data - 1)%nat
  /\ (formatBytes data = formatBytes data' <-> data = data').
Proof.
  intros Hd Hd'. rewrite (formatBytes_tokens data Hd), (formatBytes_tokens data' Hd').
  split; [reflexivity|]. split; [apply join_tokens_length|].
  split; [now apply join_tokens_injective | now intros ->].
Qed.

Lemma formatBytes_tells_frames_apart_witness :
  bytes [0x73; 0x06; 0x23; 0x0B; 0x01; 0x4C] /\ bytes [0x73; 0x05; 0x23; 0x0B; 0x5E]
  /\ length (formatBytes [0x73; 0x06; 0x23; 0x0B; 0x01; 0x4C]) = 29%nat.
Proof.
  assert (H1 : bytes [0x73; 0x06; 0x23; 0x0B; 0x01; 0x4C]) by auto 10 with bytes.
  assert (H2 : bytes [0x73; 0x05; 0x23; 0x0B; 0x5E]) by auto 10 with bytes.
  split; [exact H1|]. split; [exact H2|].
  exact (proj1 (proj2 (formatBytes_tells_frames_apart _ _ H1 H2))).
Defined.
